(** * schwab.orders.options: option symbols and order recipes

    A shallow embedding of [schwab/orders/options.py]: the option-symbol
    codec ([_parse_expiration_date], [OptionSymbol.__init__],
    [OptionSymbol.parse_symbol], [OptionSymbol.build]) and the catalogue of
    order recipes, together with the parts of the Python runtime the codec
    calls ([str.split], [str(int)], [float(str)], binary64 multiplication,
    [int(float)], [datetime.strptime] and [date.strftime] for ['%y%m%d']). *)

From Stdlib Require Import ZArith List Ascii String Bool Lia Floats.SpecFloat.
Import ListNotations.
Open Scope Z_scope.

(** ** Python values *)

(** A Python [str] is a sequence of code points; the model keeps the code
    points 0..255. *)
Definition str := list ascii.

Definition lit (s : string) : str := list_ascii_of_string s.
Arguments lit s%_string.

Definition code (c : ascii) : Z := Z.of_N (N_of_ascii c).

Definition str_eqb (a b : str) : bool :=
  if list_eq_dec ascii_dec a b then true else false.

(** Exceptions that leave the module, with the message they carry. *)
Inductive exn :=
| ValueError (msg : string)
| OverflowError (msg : string).
Arguments ValueError msg%_string.
Arguments OverflowError msg%_string.

Inductive result (A : Type) :=
| Ok (a : A)
| Raise (e : exn).
Arguments Ok {A} a.
Arguments Raise {A} e.

Definition bind {A B} (r : result A) (k : A -> result B) : result B :=
  match r with
  | Ok a => k a
  | Raise e => Raise e
  end.

Notation "x <- r ;; k" := (bind r (fun x => k))
  (at level 61, r at next level, right associativity).

(** ** [str] methods *)

Module PyStr.

(** [s.split(sep)] for a one-character separator: the pieces between the
    occurrences of [sep], always at least one piece. *)
Fixpoint split (sep : ascii) (s : str) : list str :=
  match s with
  | [] => [[]]
  | c :: r =>
      if Ascii.eqb c sep then [] :: split sep r
      else match split sep r with
           | p :: ps => (c :: p) :: ps
           | [] => [[c]]
           end
  end.

Definition count (sep : ascii) (s : str) : nat := count_occ ascii_dec s sep.

Definition is_digit (c : ascii) : bool := (48 <=? code c) && (code c <=? 57).

Definition digit_val (c : ascii) : Z := code c - 48.

Definition digit_char (d : Z) : ascii := ascii_of_N (Z.to_N (48 + d)).

(** The decimal digits of a non-negative integer, most significant first. *)
Fixpoint digits_of (fuel : nat) (n : Z) (acc : str) : str :=
  match fuel with
  | O => acc
  | S f =>
      let acc' := digit_char (n mod 10) :: acc in
      if n <? 10 then acc' else digits_of f (n / 10) acc'
  end.

(** [str(n)] for an [int]. *)
Definition str_of_int (n : Z) : str :=
  if n <? 0 then "-"%char :: digits_of (S (Z.to_nat (Z.log2 (- n)))) (- n) []
  else digits_of (S (Z.to_nat (Z.log2 n))) n [].

(** [int(s)] for a string of ASCII digits. *)
Definition int_of_digits (s : str) : Z :=
  fold_left (fun acc c => 10 * acc + digit_val c) s 0.

Fixpoint span (p : ascii -> bool) (s : str) : str * str :=
  match s with
  | [] => ([], [])
  | c :: r => if p c then let (a, b) := span p r in (c :: a, b) else ([], s)
  end.

End PyStr.

(** ** [datetime] *)

Module Datetime.

Record date := mkdate { year : Z; month : Z; day : Z }.

Record datetime := mkdatetime {
  dt_year : Z; dt_month : Z; dt_day : Z;
  dt_hour : Z; dt_minute : Z; dt_second : Z; dt_microsecond : Z }.

Definition is_leap (y : Z) : bool :=
  ((y mod 4 =? 0) && negb (y mod 100 =? 0)) || (y mod 400 =? 0).

Definition days_in_month (y m : Z) : Z :=
  if m =? 2 then (if is_leap y then 29 else 28)
  else if (m =? 4) || (m =? 6) || (m =? 9) || (m =? 11) then 30
  else 31.

(** The check [datetime.date(y, m, d)] performs. *)
Definition valid_ymd (y m d : Z) : bool :=
  (1 <=? y) && (y <=? 9999) && (1 <=? m) && (m <=? 12) &&
  (1 <=? d) && (d <=? days_in_month y m).

Definition valid_date (d : date) : bool := valid_ymd (year d) (month d) (day d).

Definition in_range (lo hi c : ascii) : bool :=
  (code lo <=? code c) && (code c <=? code hi).

(** The directives of ['%y%m%d'] as [_strptime] compiles them: each is an
    alternation, tried from left to right; a directive returns its matches in
    that order, each with the rest of the input. *)

(** [%y]: [\d\d]. *)
Definition match_y (s : str) : list (Z * str) :=
  match s with
  | c1 :: c2 :: r =>
      if PyStr.is_digit c1 && PyStr.is_digit c2
      then [(10 * PyStr.digit_val c1 + PyStr.digit_val c2, r)] else []
  | _ => []
  end.

(** [%m]: [1[0-2]|0[1-9]|[1-9]]. *)
Definition match_m (s : str) : list (Z * str) :=
  (match s with
   | c1 :: c2 :: r =>
       if Ascii.eqb c1 "1" && in_range "0" "2" c2
       then [(10 + PyStr.digit_val c2, r)] else []
   | _ => []
   end) ++
  (match s with
   | c1 :: c2 :: r =>
       if Ascii.eqb c1 "0" && in_range "1" "9" c2
       then [(PyStr.digit_val c2, r)] else []
   | _ => []
   end) ++
  (match s with
   | c1 :: r => if in_range "1" "9" c1 then [(PyStr.digit_val c1, r)] else []
   | _ => []
   end).

(** [%d]: [3[0-1]|[1-2]\d|0[1-9]|[1-9]| [1-9]]. *)
Definition match_d (s : str) : list (Z * str) :=
  (match s with
   | c1 :: c2 :: r =>
       if Ascii.eqb c1 "3" && in_range "0" "1" c2
       then [(30 + PyStr.digit_val c2, r)] else []
   | _ => []
   end) ++
  (match s with
   | c1 :: c2 :: r =>
       if in_range "1" "2" c1 && PyStr.is_digit c2
       then [(10 * PyStr.digit_val c1 + PyStr.digit_val c2, r)] else []
   | _ => []
   end) ++
  (match s with
   | c1 :: c2 :: r =>
       if Ascii.eqb c1 "0" && in_range "1" "9" c2
       then [(PyStr.digit_val c2, r)] else []
   | _ => []
   end) ++
  (match s with
   | c1 :: r => if in_range "1" "9" c1 then [(PyStr.digit_val c1, r)] else []
   | _ => []
   end) ++
  (match s with
   | c1 :: c2 :: r =>
       if Ascii.eqb c1 " " && in_range "1" "9" c2
       then [(PyStr.digit_val c2, r)] else []
   | _ => []
   end).

(** [format_regex.match(data_string)]: the first match of the three
    directives in sequence, backtracking over the alternatives; the match
    need not reach the end of the input. *)
Definition regex_match (s : str) : option (Z * Z * Z * str) :=
  hd_error
    (flat_map (fun yr =>
       flat_map (fun mr =>
         map (fun dr => (fst yr, fst mr, fst dr, snd dr)) (match_d (snd mr)))
         (match_m (snd yr)))
       (match_y s)).

(** [datetime.datetime.strptime(s, '%y%m%d')]; [None] stands for the
    [ValueError] it raises: no match, unconverted data left after the match,
    or a day that is out of range for the month. Two-digit years up to 68 are
    2000 + y, the others 1900 + y. *)
Definition strptime_yymmdd (s : str) : option datetime :=
  match regex_match s with
  | None => None
  | Some (y, m, d, rest) =>
      match rest with
      | _ :: _ => None
      | [] =>
          let y' := if y <=? 68 then y + 2000 else y + 1900 in
          if valid_ymd y' m d then Some (mkdatetime y' m d 0 0 0 0) else None
      end
  end.

Definition two_digits (n : Z) : str :=
  [PyStr.digit_char ((n / 10) mod 10); PyStr.digit_char (n mod 10)].

(** [d.strftime('%y%m%d')]. *)
Definition strftime_yymmdd (d : date) : str :=
  two_digits (year d mod 100) ++ two_digits (month d) ++ two_digits (day d).

End Datetime.


(** ** [float] *)

Module PyFloat.

(** A Python [float] is an IEEE 754 binary64 number: a sign, a mantissa of at
    most 53 bits and an exponent, with the value [m * 2 ^ e]. *)
Definition float := spec_float.

Definition prec : Z := 53.
(** The exponent of the least subnormal number, and the largest exponent a
    53-bit mantissa can carry. *)
Definition emin : Z := -1074.
Definition emax : Z := 971.

(** A rounded mantissa [q <= 2 ^ 53] at exponent [e]: a carry into bit 53
    moves to the next exponent, and an exponent above [emax] overflows. *)
Definition finish (neg : bool) (q e : Z) : float :=
  if q <=? 0 then S754_zero neg
  else
    let qe := if q =? 2 ^ prec then (2 ^ (prec - 1), e + 1) else (q, e) in
    if emax <? snd qe then S754_infinity neg
    else S754_finite neg (Z.to_pos (fst qe)) (snd qe).

(** [m / 2 ^ k] rounded to the nearest integer, a tie to the even one. *)
Definition shift_round (m k : Z) : Z :=
  let q := m / 2 ^ k in
  let r := m mod 2 ^ k in
  let half := 2 ^ (k - 1) in
  if r <? half then q
  else if half <? r then q + 1
  else if Z.even q then q else q + 1.

(** Round to nearest, ties to even: the binary64 number nearest to the exact
    value [m * 2 ^ e], for [0 <= m]. The exponent [e'] of the result is the
    one that leaves 53 bits of mantissa, or [emin] for subnormal results. *)
Definition round_dyadic (neg : bool) (m e : Z) : float :=
  if m <=? 0 then S754_zero neg
  else
    let e' := Z.max (Z.log2 m + e - (prec - 1)) emin in
    if e' <=? e then finish neg (m * 2 ^ (e - e')) e'
    else finish neg (shift_round m (e' - e)) e'.

(** The number of binary digits kept below the binary point when a quotient
    is reduced to a dyadic number with a sticky bit. Every binary64 number
    and every midpoint between two of them is a multiple of [2 ^ -1075], so
    the reduced value rounds as the exact quotient does. *)
Definition guard : Z := 1200.

(** The binary64 number nearest to [M * 10 ^ E], for [0 <= M]: what
    [float(str)] returns for a decimal literal (correctly rounded). *)
Definition float_of_decimal (neg : bool) (M E : Z) : float :=
  if 0 <=? E then round_dyadic neg (M * 10 ^ E) 0
  else
    let n := M * 2 ^ guard in
    let d := 10 ^ (- E) in
    let sticky := if n mod d =? 0 then 0 else 1 in
    round_dyadic neg (2 * (n / d) + sticky) (- guard - 1).

(** [float(n)] for an [int] within range. *)
Definition float_of_int (n : Z) : float := round_dyadic (n <? 0) (Z.abs n) 0.

(** [x * y]. *)
Definition fmul (x y : float) : float :=
  match x, y with
  | S754_nan, _ | _, S754_nan => S754_nan
  | S754_infinity sx, S754_infinity sy => S754_infinity (xorb sx sy)
  | S754_infinity sx, S754_finite sy _ _ => S754_infinity (xorb sx sy)
  | S754_finite sx _ _, S754_infinity sy => S754_infinity (xorb sx sy)
  | S754_infinity _, S754_zero _ => S754_nan
  | S754_zero _, S754_infinity _ => S754_nan
  | S754_finite sx _ _, S754_zero sy => S754_zero (xorb sx sy)
  | S754_zero sx, S754_finite sy _ _ => S754_zero (xorb sx sy)
  | S754_zero sx, S754_zero sy => S754_zero (xorb sx sy)
  | S754_finite sx mx ex, S754_finite sy my ey =>
      round_dyadic (xorb sx sy) (Zpos mx * Zpos my) (ex + ey)
  end.

(** [x < y] and [x <= y]; both are false when an operand is a NaN. *)
Definition flt (x y : float) : bool := SFltb x y.
Definition fle (x y : float) : bool := SFleb x y.

(** [int(x)]: truncation towards zero. *)
Definition int_of_float (x : float) : result Z :=
  match x with
  | S754_nan => Raise (ValueError "cannot convert float NaN to integer")
  | S754_infinity _ =>
      Raise (OverflowError "cannot convert float infinity to integer")
  | S754_zero _ => Ok 0
  | S754_finite neg m e =>
      let a := if 0 <=? e then Zpos m * 2 ^ e else Zpos m / 2 ^ (- e) in
      Ok (if neg then - a else a)
  end.

(** *** [float(str)] *)

(** White space [float] strips from both ends: the ASCII white space, and
    the two other space characters below 256 (NEL and NBSP). *)
Definition is_space (c : ascii) : bool :=
  let n := code c in
  ((9 <=? n) && (n <=? 13)) || (n =? 32) || (n =? 133) || (n =? 160).

Fixpoint lstrip (s : str) : str :=
  match s with
  | c :: r => if is_space c then lstrip r else s
  | [] => []
  end.

Definition strip (s : str) : str := rev (lstrip (rev (lstrip s))).

(** Underscores may only stand between two digits; they are dropped. *)
Fixpoint drop_underscores (prev : ascii) (s : str) : option str :=
  match s with
  | [] => if Ascii.eqb prev "_" then None else Some []
  | c :: r =>
      if Ascii.eqb c "_" then
        if PyStr.is_digit prev then drop_underscores c r else None
      else if Ascii.eqb prev "_" && negb (PyStr.is_digit c) then None
      else option_map (cons c) (drop_underscores c r)
  end.

Definition sign (s : str) : bool * str :=
  match s with
  | c :: r =>
      if Ascii.eqb c "-" then (true, r)
      else if Ascii.eqb c "+" then (false, r)
      else (false, s)
  | [] => (false, s)
  end.

Definition lower (c : ascii) : ascii :=
  if (65 <=? code c) && (code c <=? 90)
  then ascii_of_N (Z.to_N (code c + 32)) else c.

Definition parse_inf_or_nan (neg : bool) (body : str) : option float :=
  let l := map lower body in
  if str_eqb l (lit "inf") || str_eqb l (lit "infinity")
  then Some (S754_infinity neg)
  else if str_eqb l (lit "nan") then Some S754_nan
  else None.

Definition is_nil (s : str) : bool :=
  match s with [] => true | _ => false end.

(** A decimal literal without its sign: digits, an optional point and
    digits (at least one digit in all), an optional exponent; the result is
    the pair [(M, E)] of the value [M * 10 ^ E]. *)
Definition parse_decimal (s : str) : option (Z * Z) :=
  let (ip, r1) := PyStr.span PyStr.is_digit s in
  let (fp, r2) := match r1 with
                  | c :: r => if Ascii.eqb c "."
                              then PyStr.span PyStr.is_digit r else ([], r1)
                  | [] => ([], r1)
                  end in
  if is_nil ip && is_nil fp then None
  else
    let M := PyStr.int_of_digits (ip ++ fp) in
    let E := - Z.of_nat (List.length fp) in
    match r2 with
    | [] => Some (M, E)
    | c :: r3 =>
        if Ascii.eqb c "e" || Ascii.eqb c "E" then
          let (eneg, r4) := sign r3 in
          let (ed, r5) := PyStr.span PyStr.is_digit r4 in
          if negb (is_nil ed) && is_nil r5 then
            let x := PyStr.int_of_digits ed in
            Some (M, (if eneg then - x else x) + E)
          else None
        else None
    end.

(** [float(s)]; [None] stands for the [ValueError] it raises. *)
Definition float_of_str (s : str) : option float :=
  match drop_underscores Ascii.zero (strip s) with
  | None => None
  | Some t =>
      let (neg, body) := sign t in
      match parse_decimal body with
      | Some (M, E) => Some (float_of_decimal neg M E)
      | None => parse_inf_or_nan neg body
      end
  end.

End PyFloat.

(** ** The option-symbol codec *)

Import Datetime.

Definition _parse_expiration_date (expiration_date : str) : result date :=
  match strptime_yymmdd expiration_date with
  | Some dt => Ok (mkdate (dt_year dt) (dt_month dt) (dt_day dt))
  | None =>
      Raise (ValueError
        "expiration date must follow format [Two digit year][Two digit month][Two digit day]")
  end.

(** What a caller may pass as [expiration_date]: a [str], a
    [datetime.datetime], a [datetime.date], or an object of another type. *)
Inductive expiration_arg :=
| ExpStr (s : str)
| ExpDatetime (dt : datetime)
| ExpDate (d : date)
| ExpOther.

Module OptionSymbol.

Record t := mk {
  underlying_symbol : str;
  contract_type : str;
  expiration_date : date;
  strike_price : str }.

Definition __init__ (underlying_symbol : str) (expiration_date : expiration_arg)
    (contract_type strike_price_as_string : str) : result t :=
  ct <- (if str_eqb contract_type (lit "C") || str_eqb contract_type (lit "CALL")
         then Ok (lit "C")
         else if str_eqb contract_type (lit "P") || str_eqb contract_type (lit "PUT")
         then Ok (lit "P")
         else Raise (ValueError
                "Contract type must be one of 'C', 'CALL', 'P' or 'PUT'")) ;;
  ed <- match expiration_date with
        | ExpStr s => _parse_expiration_date s
        | ExpDatetime dt => Ok (mkdate (dt_year dt) (dt_month dt) (dt_day dt))
        | ExpDate d => Ok d
        | ExpOther =>
            Raise (ValueError
              "expiration_date must be a string with format %y%m%d (e.g. 240119) or one of datetime.date or datetime.datetime")
        end ;;
  strike <- match PyFloat.float_of_str strike_price_as_string with
            | Some strike =>
                if PyFloat.fle strike (PyFloat.float_of_int 0)
                then Raise (ValueError
                       "Strike price must be a string representing a positive float")
                else Ok strike
            | None =>
                Raise (ValueError
                  "Strike price must be a string representing a positive float")
            end ;;
  strike_price <-
    (if PyFloat.flt strike (PyFloat.float_of_int 1000)
     then n <- PyFloat.int_of_float (PyFloat.fmul strike (PyFloat.float_of_int 1000)) ;;
          Ok (lit "00" ++ PyStr.str_of_int n)
     else n <- PyFloat.int_of_float (PyFloat.fmul strike (PyFloat.float_of_int 1000)) ;;
          Ok (lit "0" ++ PyStr.str_of_int n)) ;;
  Ok (mk underlying_symbol ct ed strike_price).

Definition format_error_str : string :=
  "option symbol must have format [Underlying]_[Expiration][P/C][Strike]".

Definition parse_symbol (symbol : str) : result t :=
  match PyStr.split "_" symbol with
  | [underlying; rest] =>
      match PyStr.split "P" rest with
      | [expiration_date; strike] =>
          expiration_date <- _parse_expiration_date expiration_date ;;
          __init__ underlying (ExpDate expiration_date) (lit "P") strike
      | _ =>
          match PyStr.split "C" rest with
          | [expiration_date; strike] =>
              expiration_date <- _parse_expiration_date expiration_date ;;
              __init__ underlying (ExpDate expiration_date) (lit "C") strike
          | _ =>
              Raise (ValueError
                ("option must have contract type \'C\' r \'\P\', " ++ format_error_str))
          end
      end
  | _ =>
      Raise (ValueError ("option symbol missing underscore '_', " ++ format_error_str))
  end.

Definition build (self : t) : str :=
  underlying_symbol self ++ lit "  " ++ strftime_yymmdd (expiration_date self)
    ++ contract_type self ++ strike_price self.

End OptionSymbol.

(** ** Order recipes *)

(** Modelled from the spec: the enumerations of [schwab.orders.common] are
    not part of this module; each is given the constant tags the recipes
    refer to (spec section 4.2 and section 6). *)
Module Session.
Inductive t := NORMAL.
End Session.

Module Duration.
Inductive t := DAY.
End Duration.

Module OrderType.
Inductive t := MARKET | LIMIT | NET_DEBIT | NET_CREDIT.
End OrderType.

Module OrderStrategyType.
Inductive t := SINGLE.
End OrderStrategyType.

Module ComplexOrderStrategyType.
Inductive t := VERTICAL.
End ComplexOrderStrategyType.

Module OptionInstruction.
Inductive t := BUY_TO_OPEN | SELL_TO_OPEN | BUY_TO_CLOSE | SELL_TO_CLOSE.
End OptionInstruction.

Section Recipes.

(** Symbols, quantities and prices pass through the recipes untouched. *)
Context {Symbol Quantity Price : Type}.

Record OptionLeg := mkleg {
  instruction : OptionInstruction.t;
  instrument : Symbol;
  leg_quantity : Quantity }.

(** Modelled from the spec: the generic order builder of
    [schwab.orders.generic] is not part of this module. The spec (sections 1
    and 6) gives it a "set field / produce document" contract: a setter
    stores its argument in the field it names, and [add_option_leg] appends
    a leg (instruction, symbol, quantity) after the legs already there. A
    field no setter has been called for is absent. *)
Record OrderBuilder := mkbuilder {
  session : option Session.t;
  duration : option Duration.t;
  orderType : option OrderType.t;
  price : option Price;
  quantity : option Quantity;
  complexOrderStrategyType : option ComplexOrderStrategyType.t;
  orderStrategyType : option OrderStrategyType.t;
  orderLegCollection : list OptionLeg }.

Definition new_builder : OrderBuilder :=
  mkbuilder None None None None None None None [].

Definition set_session (v : Session.t) (b : OrderBuilder) : OrderBuilder :=
  mkbuilder (Some v) (duration b) (orderType b) (price b) (quantity b)
    (complexOrderStrategyType b) (orderStrategyType b) (orderLegCollection b).

Definition set_duration (v : Duration.t) (b : OrderBuilder) : OrderBuilder :=
  mkbuilder (session b) (Some v) (orderType b) (price b) (quantity b)
    (complexOrderStrategyType b) (orderStrategyType b) (orderLegCollection b).

Definition set_order_type (v : OrderType.t) (b : OrderBuilder) : OrderBuilder :=
  mkbuilder (session b) (duration b) (Some v) (price b) (quantity b)
    (complexOrderStrategyType b) (orderStrategyType b) (orderLegCollection b).

Definition set_price (v : Price) (b : OrderBuilder) : OrderBuilder :=
  mkbuilder (session b) (duration b) (orderType b) (Some v) (quantity b)
    (complexOrderStrategyType b) (orderStrategyType b) (orderLegCollection b).

Definition set_quantity (v : Quantity) (b : OrderBuilder) : OrderBuilder :=
  mkbuilder (session b) (duration b) (orderType b) (price b) (Some v)
    (complexOrderStrategyType b) (orderStrategyType b) (orderLegCollection b).

Definition set_complex_order_strategy_type (v : ComplexOrderStrategyType.t)
    (b : OrderBuilder) : OrderBuilder :=
  mkbuilder (session b) (duration b) (orderType b) (price b) (quantity b)
    (Some v) (orderStrategyType b) (orderLegCollection b).

Definition set_order_strategy_type (v : OrderStrategyType.t)
    (b : OrderBuilder) : OrderBuilder :=
  mkbuilder (session b) (duration b) (orderType b) (price b) (quantity b)
    (complexOrderStrategyType b) (Some v) (orderLegCollection b).

Definition add_option_leg (i : OptionInstruction.t) (s : Symbol) (q : Quantity)
    (b : OrderBuilder) : OrderBuilder :=
  mkbuilder (session b) (duration b) (orderType b) (price b) (quantity b)
    (complexOrderStrategyType b) (orderStrategyType b)
    (orderLegCollection b ++ [mkleg i s q]).

(** Method chaining: [b |> m] is [b.m]. *)
Local Notation "b |> f" := (f b) (at level 45, left associativity, only parsing).

Definition __base_builder : OrderBuilder :=
  new_builder
  |> set_session Session.NORMAL
  |> set_duration Duration.DAY.

(** *** Single options *)

Definition option_buy_to_open_market (symbol : Symbol) (quantity : Quantity)
    : OrderBuilder :=
  __base_builder
  |> set_order_type OrderType.MARKET
  |> set_order_strategy_type OrderStrategyType.SINGLE
  |> add_option_leg OptionInstruction.BUY_TO_OPEN symbol quantity.

Definition option_buy_to_open_limit (symbol : Symbol) (quantity : Quantity)
    (price : Price) : OrderBuilder :=
  __base_builder
  |> set_order_type OrderType.LIMIT
  |> set_price price
  |> set_order_strategy_type OrderStrategyType.SINGLE
  |> add_option_leg OptionInstruction.BUY_TO_OPEN symbol quantity.

Definition option_sell_to_open_market (symbol : Symbol) (quantity : Quantity)
    : OrderBuilder :=
  __base_builder
  |> set_order_type OrderType.MARKET
  |> set_order_strategy_type OrderStrategyType.SINGLE
  |> add_option_leg OptionInstruction.SELL_TO_OPEN symbol quantity.

Definition option_sell_to_open_limit (symbol : Symbol) (quantity : Quantity)
    (price : Price) : OrderBuilder :=
  __base_builder
  |> set_order_type OrderType.LIMIT
  |> set_price price
  |> set_order_strategy_type OrderStrategyType.SINGLE
  |> add_option_leg OptionInstruction.SELL_TO_OPEN symbol quantity.

Definition option_buy_to_close_market (symbol : Symbol) (quantity : Quantity)
    : OrderBuilder :=
  __base_builder
  |> set_order_type OrderType.MARKET
  |> set_order_strategy_type OrderStrategyType.SINGLE
  |> add_option_leg OptionInstruction.BUY_TO_CLOSE symbol quantity.

Definition option_buy_to_close_limit (symbol : Symbol) (quantity : Quantity)
    (price : Price) : OrderBuilder :=
  __base_builder
  |> set_order_type OrderType.LIMIT
  |> set_price price
  |> set_order_strategy_type OrderStrategyType.SINGLE
  |> add_option_leg OptionInstruction.BUY_TO_CLOSE symbol quantity.

Definition option_sell_to_close_market (symbol : Symbol) (quantity : Quantity)
    : OrderBuilder :=
  __base_builder
  |> set_order_type OrderType.MARKET
  |> set_order_strategy_type OrderStrategyType.SINGLE
  |> add_option_leg OptionInstruction.SELL_TO_CLOSE symbol quantity.

Definition option_sell_to_close_limit (symbol : Symbol) (quantity : Quantity)
    (price : Price) : OrderBuilder :=
  __base_builder
  |> set_order_type OrderType.LIMIT
  |> set_price price
  |> set_order_strategy_type OrderStrategyType.SINGLE
  |> add_option_leg OptionInstruction.SELL_TO_CLOSE symbol quantity.

(** *** Verticals *)

Definition bull_call_vertical_open (long_call_symbol short_call_symbol : Symbol)
    (quantity : Quantity) (net_debit : Price) : OrderBuilder :=
  __base_builder
  |> set_order_type OrderType.NET_DEBIT
  |> set_complex_order_strategy_type ComplexOrderStrategyType.VERTICAL
  |> set_price net_debit
  |> set_quantity quantity
  |> set_order_strategy_type OrderStrategyType.SINGLE
  |> add_option_leg OptionInstruction.BUY_TO_OPEN long_call_symbol quantity
  |> add_option_leg OptionInstruction.SELL_TO_OPEN short_call_symbol quantity.

Definition bull_call_vertical_close (long_call_symbol short_call_symbol : Symbol)
    (quantity : Quantity) (net_credit : Price) : OrderBuilder :=
  __base_builder
  |> set_order_type OrderType.NET_CREDIT
  |> set_complex_order_strategy_type ComplexOrderStrategyType.VERTICAL
  |> set_price net_credit
  |> set_quantity quantity
  |> set_order_strategy_type OrderStrategyType.SINGLE
  |> add_option_leg OptionInstruction.SELL_TO_CLOSE long_call_symbol quantity
  |> add_option_leg OptionInstruction.BUY_TO_CLOSE short_call_symbol quantity.

Definition bear_call_vertical_open (short_call_symbol long_call_symbol : Symbol)
    (quantity : Quantity) (net_credit : Price) : OrderBuilder :=
  __base_builder
  |> set_order_type OrderType.NET_CREDIT
  |> set_complex_order_strategy_type ComplexOrderStrategyType.VERTICAL
  |> set_price net_credit
  |> set_quantity quantity
  |> set_order_strategy_type OrderStrategyType.SINGLE
  |> add_option_leg OptionInstruction.SELL_TO_OPEN short_call_symbol quantity
  |> add_option_leg OptionInstruction.BUY_TO_OPEN long_call_symbol quantity.

Definition bear_call_vertical_close (short_call_symbol long_call_symbol : Symbol)
    (quantity : Quantity) (net_debit : Price) : OrderBuilder :=
  __base_builder
  |> set_order_type OrderType.NET_DEBIT
  |> set_complex_order_strategy_type ComplexOrderStrategyType.VERTICAL
  |> set_price net_debit
  |> set_quantity quantity
  |> set_order_strategy_type OrderStrategyType.SINGLE
  |> add_option_leg OptionInstruction.BUY_TO_CLOSE short_call_symbol quantity
  |> add_option_leg OptionInstruction.SELL_TO_CLOSE long_call_symbol quantity.

Definition bull_put_vertical_open (long_put_symbol short_put_symbol : Symbol)
    (quantity : Quantity) (net_credit : Price) : OrderBuilder :=
  __base_builder
  |> set_order_type OrderType.NET_CREDIT
  |> set_complex_order_strategy_type ComplexOrderStrategyType.VERTICAL
  |> set_price net_credit
  |> set_quantity quantity
  |> set_order_strategy_type OrderStrategyType.SINGLE
  |> add_option_leg OptionInstruction.BUY_TO_OPEN long_put_symbol quantity
  |> add_option_leg OptionInstruction.SELL_TO_OPEN short_put_symbol quantity.

Definition bull_put_vertical_close (long_put_symbol short_put_symbol : Symbol)
    (quantity : Quantity) (net_debit : Price) : OrderBuilder :=
  __base_builder
  |> set_order_type OrderType.NET_DEBIT
  |> set_complex_order_strategy_type ComplexOrderStrategyType.VERTICAL
  |> set_price net_debit
  |> set_quantity quantity
  |> set_order_strategy_type OrderStrategyType.SINGLE
  |> add_option_leg OptionInstruction.SELL_TO_CLOSE long_put_symbol quantity
  |> add_option_leg OptionInstruction.BUY_TO_CLOSE short_put_symbol quantity.

Definition bear_put_vertical_open (short_put_symbol long_put_symbol : Symbol)
    (quantity : Quantity) (net_debit : Price) : OrderBuilder :=
  __base_builder
  |> set_order_type OrderType.NET_DEBIT
  |> set_complex_order_strategy_type ComplexOrderStrategyType.VERTICAL
  |> set_price net_debit
  |> set_quantity quantity
  |> set_order_strategy_type OrderStrategyType.SINGLE
  |> add_option_leg OptionInstruction.SELL_TO_OPEN short_put_symbol quantity
  |> add_option_leg OptionInstruction.BUY_TO_OPEN long_put_symbol quantity.

Definition bear_put_vertical_close (short_put_symbol long_put_symbol : Symbol)
    (quantity : Quantity) (net_credit : Price) : OrderBuilder :=
  __base_builder
  |> set_order_type OrderType.NET_CREDIT
  |> set_complex_order_strategy_type ComplexOrderStrategyType.VERTICAL
  |> set_price net_credit
  |> set_quantity quantity
  |> set_order_strategy_type OrderStrategyType.SINGLE
  |> add_option_leg OptionInstruction.BUY_TO_CLOSE short_put_symbol quantity
  |> add_option_leg OptionInstruction.SELL_TO_CLOSE long_put_symbol quantity.

End Recipes.

Arguments OptionLeg : clear implicits.
Arguments OrderBuilder : clear implicits.

(** ** The specification's vocabulary *)

(** The error taxonomy of the specification (section 7). Every failure of
    the module is a [ValueError]; the four kinds are told apart by the
    message of the [raise] statement that produced them. *)
Inductive error_kind :=
| InvalidContractType
| InvalidDateFormat
| InvalidStrike
| InvalidSymbolFormat.

Definition kind_of (e : exn) : option error_kind :=
  match e with
  | ValueError m =>
      if String.eqb m "Contract type must be one of 'C', 'CALL', 'P' or 'PUT'"
      then Some InvalidContractType
      else if String.eqb m
        "expiration date must follow format [Two digit year][Two digit month][Two digit day]"
      then Some InvalidDateFormat
      else if String.eqb m
        "expiration_date must be a string with format %y%m%d (e.g. 240119) or one of datetime.date or datetime.datetime"
      then Some InvalidDateFormat
      else if String.eqb m
        "Strike price must be a string representing a positive float"
      then Some InvalidStrike
      else if String.eqb m
        ("option symbol missing underscore '_', " ++ OptionSymbol.format_error_str)
      then Some InvalidSymbolFormat
      else if String.eqb m
        ("option must have contract type \'C\' r \'\P\', " ++ OptionSymbol.format_error_str)
      then Some InvalidSymbolFormat
      else None
  | OverflowError _ => None
  end.

Definition fails_with {A} (r : result A) (k : error_kind) : Prop :=
  exists e, r = Raise e /\ kind_of e = Some k.

(** The three validation steps of [OptionSymbol.__init__], named for the
    statements below: the contract type, the expiration date, and the strike
    field. *)
Definition normalize_contract_type (contract_type : str) : result str :=
  if str_eqb contract_type (lit "C") || str_eqb contract_type (lit "CALL")
  then Ok (lit "C")
  else if str_eqb contract_type (lit "P") || str_eqb contract_type (lit "PUT")
  then Ok (lit "P")
  else Raise (ValueError "Contract type must be one of 'C', 'CALL', 'P' or 'PUT'").

Definition expiration_of (expiration_date : expiration_arg) : result date :=
  match expiration_date with
  | ExpStr s => _parse_expiration_date s
  | ExpDatetime dt => Ok (mkdate (dt_year dt) (dt_month dt) (dt_day dt))
  | ExpDate d => Ok d
  | ExpOther =>
      Raise (ValueError
        "expiration_date must be a string with format %y%m%d (e.g. 240119) or one of datetime.date or datetime.datetime")
  end.

(** The strike as [__init__] reads it: a [float] above zero. *)
Definition positive_strike (strike_price_as_string : str) : option PyFloat.float :=
  match PyFloat.float_of_str strike_price_as_string with
  | Some x => if PyFloat.fle x (PyFloat.float_of_int 0) then None else Some x
  | None => None
  end.

(** The encoded strike field of a strike [x]. *)
Definition encode_strike (x : PyFloat.float) : result str :=
  n <- PyFloat.int_of_float (PyFloat.fmul x (PyFloat.float_of_int 1000)) ;;
  Ok ((if PyFloat.flt x (PyFloat.float_of_int 1000) then lit "00" else lit "0")
        ++ PyStr.str_of_int n).

(** The strict reading of YYMMDD (spec section 4.1): six characters, a
    two-digit year, a month 01-12, a day 01-31 that exists in that month. *)
Definition strict_yymmdd (s : str) : option date :=
  match s with
  | [y1; y2; m1; m2; d1; d2] =>
      if forallb PyStr.is_digit s then
        let y := 10 * PyStr.digit_val y1 + PyStr.digit_val y2 in
        let m := 10 * PyStr.digit_val m1 + PyStr.digit_val m2 in
        let d := 10 * PyStr.digit_val d1 + PyStr.digit_val d2 in
        let y' := if y <=? 68 then y + 2000 else y + 1900 in
        if valid_ymd y' m d then Some (mkdate y' m d) else None
      else None
  | _ => None
  end.

(** A strike literal of the round-trip property (spec section 8): digits
    with at most three decimal places; [strike_literal s] is the pair
    [(M, k)] of its value [M / 10 ^ k]. *)
Definition strike_literal (s : str) : option (Z * Z) :=
  let (ip, r) := PyStr.span PyStr.is_digit s in
  match ip, r with
  | _ :: _, [] => Some (PyStr.int_of_digits ip, 0)
  | _, c :: fp =>
      if Ascii.eqb c "." && forallb PyStr.is_digit fp
         && (Nat.leb (List.length fp) 3)
         && negb (PyFloat.is_nil ip && PyFloat.is_nil fp)
      then Some (PyStr.int_of_digits (ip ++ fp), Z.of_nat (List.length fp))
      else None
  | [], [] => None
  end.

(** [0 < S < 10000] for the literal's value. *)
Definition strike_in_range (s : str) : Prop :=
  exists M k, strike_literal s = Some (M, k) /\ 0 < M < 10000 * 10 ^ k.

(** [lo <= S <= hi] for the [float] values of three strings, compared as
    Python compares floats. *)
Definition strike_value_between (lo S hi : str) : Prop :=
  exists l x h,
    PyFloat.float_of_str lo = Some l /\
    PyFloat.float_of_str S = Some x /\
    PyFloat.float_of_str hi = Some h /\
    PyFloat.fle l x = true /\ PyFloat.fle x h = true.

(** The single-leg recipes and the instruction the specification gives each
    (section 4.2). *)
Inductive single_recipe := buy_to_open | sell_to_open | buy_to_close | sell_to_close.

Definition single_instruction (r : single_recipe) : OptionInstruction.t :=
  match r with
  | buy_to_open => OptionInstruction.BUY_TO_OPEN
  | sell_to_open => OptionInstruction.SELL_TO_OPEN
  | buy_to_close => OptionInstruction.BUY_TO_CLOSE
  | sell_to_close => OptionInstruction.SELL_TO_CLOSE
  end.

(** The vertical-spread recipes and the table of the specification
    (section 4.2): order type, and for each of the two legs its instruction
    and which of the two symbols (long or short) it trades. *)
Inductive vertical_recipe :=
| bull_call_open | bull_call_close | bear_call_open | bear_call_close
| bull_put_open | bull_put_close | bear_put_open | bear_put_close.

Inductive leg_side := long_side | short_side.

Definition table_order_type (r : vertical_recipe) : OrderType.t :=
  match r with
  | bull_call_open => OrderType.NET_DEBIT
  | bull_call_close => OrderType.NET_CREDIT
  | bear_call_open => OrderType.NET_CREDIT
  | bear_call_close => OrderType.NET_DEBIT
  | bull_put_open => OrderType.NET_CREDIT
  | bull_put_close => OrderType.NET_DEBIT
  | bear_put_open => OrderType.NET_DEBIT
  | bear_put_close => OrderType.NET_CREDIT
  end.

Definition table_leg1 (r : vertical_recipe) : OptionInstruction.t * leg_side :=
  match r with
  | bull_call_open => (OptionInstruction.BUY_TO_OPEN, long_side)
  | bull_call_close => (OptionInstruction.SELL_TO_CLOSE, long_side)
  | bear_call_open => (OptionInstruction.SELL_TO_OPEN, short_side)
  | bear_call_close => (OptionInstruction.BUY_TO_CLOSE, short_side)
  | bull_put_open => (OptionInstruction.BUY_TO_OPEN, long_side)
  | bull_put_close => (OptionInstruction.SELL_TO_CLOSE, long_side)
  | bear_put_open => (OptionInstruction.SELL_TO_OPEN, short_side)
  | bear_put_close => (OptionInstruction.BUY_TO_CLOSE, short_side)
  end.

Definition table_leg2 (r : vertical_recipe) : OptionInstruction.t * leg_side :=
  match r with
  | bull_call_open => (OptionInstruction.SELL_TO_OPEN, short_side)
  | bull_call_close => (OptionInstruction.BUY_TO_CLOSE, short_side)
  | bear_call_open => (OptionInstruction.BUY_TO_OPEN, long_side)
  | bear_call_close => (OptionInstruction.SELL_TO_CLOSE, long_side)
  | bull_put_open => (OptionInstruction.SELL_TO_OPEN, short_side)
  | bull_put_close => (OptionInstruction.BUY_TO_CLOSE, short_side)
  | bear_put_open => (OptionInstruction.BUY_TO_OPEN, long_side)
  | bear_put_close => (OptionInstruction.SELL_TO_CLOSE, long_side)
  end.

(** The instruction that closes what an instruction opens, and the order
    type on the other side of the trade. *)
Definition closing_instruction (i : OptionInstruction.t) : OptionInstruction.t :=
  match i with
  | OptionInstruction.BUY_TO_OPEN => OptionInstruction.SELL_TO_CLOSE
  | OptionInstruction.SELL_TO_OPEN => OptionInstruction.BUY_TO_CLOSE
  | OptionInstruction.BUY_TO_CLOSE => OptionInstruction.BUY_TO_CLOSE
  | OptionInstruction.SELL_TO_CLOSE => OptionInstruction.SELL_TO_CLOSE
  end.

Definition opposite_order_type (t : OrderType.t) : OrderType.t :=
  match t with
  | OrderType.NET_DEBIT => OrderType.NET_CREDIT
  | OrderType.NET_CREDIT => OrderType.NET_DEBIT
  | OrderType.MARKET => OrderType.MARKET
  | OrderType.LIMIT => OrderType.LIMIT
  end.

Section RecipeCalls.

Context {Symbol Quantity Price : Type}.

(** The call of a single-leg recipe. *)
Definition option_market (r : single_recipe) (symbol : Symbol) (q : Quantity)
    : OrderBuilder Symbol Quantity Price :=
  match r with
  | buy_to_open => option_buy_to_open_market symbol q
  | sell_to_open => option_sell_to_open_market symbol q
  | buy_to_close => option_buy_to_close_market symbol q
  | sell_to_close => option_sell_to_close_market symbol q
  end.

Definition option_limit (r : single_recipe) (symbol : Symbol) (q : Quantity)
    (p : Price) : OrderBuilder Symbol Quantity Price :=
  match r with
  | buy_to_open => option_buy_to_open_limit symbol q p
  | sell_to_open => option_sell_to_open_limit symbol q p
  | buy_to_close => option_buy_to_close_limit symbol q p
  | sell_to_close => option_sell_to_close_limit symbol q p
  end.

(** The call of a vertical recipe on a long and a short symbol: each
    function receives them in the order of its own parameters. *)
Definition vertical (r : vertical_recipe) (long short : Symbol) (q : Quantity)
    (net : Price) : OrderBuilder Symbol Quantity Price :=
  match r with
  | bull_call_open => bull_call_vertical_open long short q net
  | bull_call_close => bull_call_vertical_close long short q net
  | bear_call_open => bear_call_vertical_open short long q net
  | bear_call_close => bear_call_vertical_close short long q net
  | bull_put_open => bull_put_vertical_open long short q net
  | bull_put_close => bull_put_vertical_close long short q net
  | bear_put_open => bear_put_vertical_open short long q net
  | bear_put_close => bear_put_vertical_close short long q net
  end.

Definition pick (side : leg_side) (long short : Symbol) : Symbol :=
  match side with long_side => long | short_side => short end.

Definition table_leg (il : OptionInstruction.t * leg_side) (long short : Symbol)
    (q : Quantity) : OptionLeg Symbol Quantity :=
  mkleg (fst il) (pick (snd il) long short) q.

Definition closing_leg (l : OptionLeg Symbol Quantity) : OptionLeg Symbol Quantity :=
  mkleg (closing_instruction (instruction l)) (instrument l) (leg_quantity l).

(** [close] undoes [open]: the same symbols in the same order with the
    closing instructions, on the other side of the trade. *)
Definition mirrors (close open : OrderBuilder Symbol Quantity Price) : Prop :=
  orderLegCollection close = map closing_leg (orderLegCollection open) /\
  orderType close = option_map opposite_order_type (orderType open) /\
  quantity close = quantity open /\
  complexOrderStrategyType close = complexOrderStrategyType open.

End RecipeCalls.

(** ** Notions the proofs use *)

(** The ten digit characters. *)
Definition decimal_digits : list ascii :=
  map PyStr.digit_char [0; 1; 2; 3; 4; 5; 6; 7; 8; 9].

(** The month and day directives on four digits that spell a month 01-12
    and a day 01-31 consume all four and return that month and day. *)
Definition month_day_match (r : str) : option (Z * Z * str) :=
  hd_error
    (flat_map (fun mr => map (fun dr => (fst mr, fst dr, snd dr)) (match_d (snd mr)))
       (match_m r)).

Definition month_day_agrees (m1 m2 d1 d2 : ascii) : bool :=
  let m := 10 * PyStr.digit_val m1 + PyStr.digit_val m2 in
  let d := 10 * PyStr.digit_val d1 + PyStr.digit_val d2 in
  if (1 <=? m) && (m <=? 12) && (1 <=? d) && (d <=? 31) then
    match month_day_match [m1; m2; d1; d2] with
    | Some (m', d', []) => (m' =? m) && (d' =? d)
    | _ => false
    end
  else true.

(** The year [%y] reads back from the two digits [date.strftime] writes. *)
Definition pivot_year (y : Z) : Z :=
  if y mod 100 <=? 68 then y mod 100 + 2000 else y mod 100 + 1900.

(** A finite number is canonical when its mantissa has 53 bits, or fewer at
    the least exponent. *)
Definition canonical (x : PyFloat.float) : Prop :=
  match x with
  | S754_finite _ m e =>
      (2 ^ 52 <= Zpos m < 2 ^ 53 /\ PyFloat.emin <= e <= PyFloat.emax) \/
      (Zpos m < 2 ^ 52 /\ e = PyFloat.emin)
  | _ => True
  end.

(** The characters of a strike literal: digits and the point. *)
Definition literal_char (c : ascii) : Prop :=
  PyStr.is_digit c = true \/ c = "."%char.

(** The characters of a decimal literal. *)
Definition decimal_char (c : ascii) : bool :=
  PyStr.is_digit c || Ascii.eqb c "." || Ascii.eqb c "e" || Ascii.eqb c "E"
  || Ascii.eqb c "+" || Ascii.eqb c "-".

(** * Properties *)

(** Linear arithmetic with division and remainder by constants. *)
Ltac zlia := Z.div_mod_to_equations; lia.

(** ** Strings *)

Lemma str_eqb_eq (a b : str) : str_eqb a b = true <-> a = b.
Proof.
  unfold str_eqb. destruct (list_eq_dec ascii_dec a b); split; congruence.
Qed.

Lemma str_eqb_neq (a b : str) : str_eqb a b = false <-> a <> b.
Proof.
  unfold str_eqb. destruct (list_eq_dec ascii_dec a b); split; congruence.
Qed.

Lemma split_nonempty (sep : ascii) (s : str) : PyStr.split sep s <> [].
Proof.
  destruct s as [|c r]; simpl; [discriminate|].
  destruct (Ascii.eqb c sep); [discriminate|].
  destruct (PyStr.split sep r); discriminate.
Qed.

(** [split] returns one piece more than there are separators. *)
Lemma split_length (sep : ascii) (s : str) :
  List.length (PyStr.split sep s) = S (PyStr.count sep s).
Proof.
  unfold PyStr.count. induction s as [|c r IH]; simpl; [reflexivity|].
  destruct (Ascii.eqb_spec c sep) as [->|Hne].
  - simpl. destruct (ascii_dec sep sep); [|congruence]. now rewrite IH.
  - destruct (ascii_dec c sep); [congruence|].
    destruct (PyStr.split sep r) eqn:E; simpl in *; [discriminate|exact IH].
Qed.

Lemma split_absent (sep : ascii) (s : str) :
  ~ In sep s -> PyStr.split sep s = [s].
Proof.
  induction s as [|c r IH]; simpl; intros H; [reflexivity|].
  destruct (Ascii.eqb_spec c sep) as [->|Hne]; [tauto|].
  rewrite IH by tauto. reflexivity.
Qed.

Lemma split_app (sep : ascii) (a b : str) :
  ~ In sep a -> PyStr.split sep (a ++ sep :: b) = a :: PyStr.split sep b.
Proof.
  induction a as [|c r IH]; simpl; intros H.
  - now rewrite Ascii.eqb_refl.
  - destruct (Ascii.eqb_spec c sep) as [->|Hne]; [tauto|].
    rewrite IH by tauto. reflexivity.
Qed.

Lemma split_once (sep : ascii) (a b : str) :
  ~ In sep a -> ~ In sep b -> PyStr.split sep (a ++ sep :: b) = [a; b].
Proof.
  intros Ha Hb. rewrite split_app by assumption. now rewrite split_absent.
Qed.



Lemma count_cons_eq (sep : ascii) (s : str) :
  PyStr.count sep (sep :: s) = S (PyStr.count sep s).
Proof. unfold PyStr.count. now rewrite count_occ_cons_eq. Qed.


Lemma digit_char_is_digit (d : Z) :
  0 <= d < 10 -> PyStr.is_digit (PyStr.digit_char d) = true.
Proof.
  intros H.
  assert (C : d = 0 \/ d = 1 \/ d = 2 \/ d = 3 \/ d = 4 \/ d = 5 \/ d = 6 \/
              d = 7 \/ d = 8 \/ d = 9) by lia.
  repeat (destruct C as [->|C]; [reflexivity|]). now subst.
Qed.

Lemma digit_val_char (d : Z) :
  0 <= d < 10 -> PyStr.digit_val (PyStr.digit_char d) = d.
Proof.
  intros H.
  assert (C : d = 0 \/ d = 1 \/ d = 2 \/ d = 3 \/ d = 4 \/ d = 5 \/ d = 6 \/
              d = 7 \/ d = 8 \/ d = 9) by lia.
  repeat (destruct C as [->|C]; [reflexivity|]). now subst.
Qed.

Lemma code_range (c : ascii) : 0 <= code c < 256.
Proof.
  unfold code. pose proof (N_ascii_bounded c). lia.
Qed.

Lemma code_inj (a b : ascii) : code a = code b -> a = b.
Proof.
  unfold code. intros H. apply N2Z.inj in H.
  rewrite <- (ascii_N_embedding a), <- (ascii_N_embedding b). now rewrite H.
Qed.

Lemma is_digit_code (c : ascii) :
  PyStr.is_digit c = true <-> 48 <= code c <= 57.
Proof. unfold PyStr.is_digit. lia. Qed.


Lemma digits_of_digits (fuel : nat) (n : Z) (acc : str) :
  Forall (fun c => PyStr.is_digit c = true) acc ->
  Forall (fun c => PyStr.is_digit c = true) (PyStr.digits_of fuel n acc).
Proof.
  revert n acc. induction fuel as [|f IH]; simpl; intros n acc H; [exact H|].
  assert (H' : Forall (fun c => PyStr.is_digit c = true)
                 (PyStr.digit_char (n mod 10) :: acc)).
  { constructor; [|exact H]. apply digit_char_is_digit.
    apply Z.mod_pos_bound. lia. }
  destruct (n <? 10); [exact H'|]. now apply IH.
Qed.

(** [str(n)] of a non-negative [int] is made of digits. *)
Lemma str_of_int_digits (n : Z) :
  0 <= n -> Forall (fun c => PyStr.is_digit c = true) (PyStr.str_of_int n).
Proof.
  intros H. unfold PyStr.str_of_int.
  destruct (Z.ltb_spec n 0); [lia|]. apply digits_of_digits. constructor.
Qed.


Lemma digits_of_step (f : nat) (n : Z) (acc : str) :
  10 <= n ->
  PyStr.digits_of (S f) n acc
  = PyStr.digits_of f (n / 10) (PyStr.digit_char (n mod 10) :: acc).
Proof.
  intros H. simpl. destruct (Z.ltb_spec n 10); [lia|reflexivity].
Qed.

(** A number with [k] decimal digits prints as [k] characters. *)
Lemma digits_of_length (k : nat) :
  forall (fuel : nat) (n : Z) (acc : str),
    10 ^ Z.of_nat k <= n < 10 ^ Z.of_nat (S k) -> (k < fuel)%nat ->
    List.length (PyStr.digits_of fuel n acc) = (S k + List.length acc)%nat.
Proof.
  induction k as [|k IH]; intros fuel n acc Hn Hf.
  - destruct fuel as [|f]; [lia|]. simpl.
    change (10 ^ Z.of_nat 1) with 10 in Hn.
    destruct (Z.ltb_spec n 10); [reflexivity|lia].
  - destruct fuel as [|f]; [lia|].
    assert (P : 10 ^ Z.of_nat (S k) = 10 * 10 ^ Z.of_nat k).
    { rewrite Nat2Z.inj_succ, Z.pow_succ_r by lia. reflexivity. }
    assert (Q : 10 ^ Z.of_nat (S (S k)) = 10 * 10 ^ Z.of_nat (S k)).
    { rewrite (Nat2Z.inj_succ (S k)), Z.pow_succ_r by lia. reflexivity. }
    assert (0 < 10 ^ Z.of_nat k) by (apply Z.pow_pos_nonneg; lia).
    rewrite digits_of_step by lia.
    rewrite IH; [simpl; lia| |lia].
    split.
    + apply Z.div_le_lower_bound; lia.
    + apply Z.div_lt_upper_bound; lia.
Qed.

Lemma str_of_int_length (k : nat) (n : Z) :
  10 ^ Z.of_nat k <= n < 10 ^ Z.of_nat (S k) ->
  List.length (PyStr.str_of_int n) = S k.
Proof.
  intros H.
  assert (0 < 10 ^ Z.of_nat k) by (apply Z.pow_pos_nonneg; lia).
  unfold PyStr.str_of_int. destruct (Z.ltb_spec n 0); [lia|].
  rewrite (digits_of_length k); [simpl; lia|exact H|].
  assert (Z.of_nat k <= Z.log2 n); [|lia].
  apply Z.log2_le_pow2; [lia|].
  apply Z.le_trans with (10 ^ Z.of_nat k); [|lia].
  apply Z.pow_le_mono_l. lia.
Qed.

(** ** Order recipes *)

Section RecipeProperties.

Context {Symbol Quantity Price : Type}.

(** The shared base step: normal session, day duration, no leg. *)
Lemma base_builder_fields :
  session (@__base_builder Symbol Quantity Price) = Some Session.NORMAL /\
  duration (@__base_builder Symbol Quantity Price) = Some Duration.DAY /\
  orderLegCollection (@__base_builder Symbol Quantity Price) = [].
Proof. repeat split. Qed.

(** C6: each of the eight vertical-spread recipes returns a builder whose
    order type is the one of its row of the specification's table, whose
    complex order strategy type is VERTICAL, and whose legs are exactly the
    two legs of the row, in the row's order, each with the caller's
    quantity. *)
Theorem vertical_recipes_follow_table (r : vertical_recipe)
    (long short : Symbol) (q : Quantity) (net : Price) :
  orderType (vertical r long short q net) = Some (table_order_type r) /\
  complexOrderStrategyType (vertical r long short q net)
    = Some ComplexOrderStrategyType.VERTICAL /\
  orderLegCollection (vertical r long short q net)
    = [table_leg (table_leg1 r) long short q;
       table_leg (table_leg2 r) long short q] /\
  Forall (fun leg => leg_quantity leg = q)
    (orderLegCollection (vertical r long short q net)).
Proof.
  destruct r; cbn; repeat split; repeat constructor.
Qed.

(** C9: each single-leg recipe returns a builder with order strategy type
    SINGLE and exactly one leg, with the recipe's instruction, the given
    symbol and the given quantity; a market recipe leaves the price field
    absent, a limit recipe sets it to the supplied price. *)
Theorem single_leg_recipes (r : single_recipe) (symbol : Symbol)
    (q : Quantity) (p : Price) :
  (orderStrategyType (@option_market Symbol Quantity Price r symbol q)
     = Some OrderStrategyType.SINGLE /\
   orderLegCollection (@option_market Symbol Quantity Price r symbol q)
     = [mkleg (single_instruction r) symbol q] /\
   orderType (@option_market Symbol Quantity Price r symbol q)
     = Some OrderType.MARKET /\
   price (@option_market Symbol Quantity Price r symbol q) = None) /\
  (orderStrategyType (option_limit r symbol q p)
     = Some OrderStrategyType.SINGLE /\
   orderLegCollection (option_limit r symbol q p)
     = [mkleg (single_instruction r) symbol q] /\
   orderType (option_limit r symbol q p) = Some OrderType.LIMIT /\
   price (option_limit r symbol q p) = Some p).
Proof.
  destruct r; cbn; repeat split.
Qed.

(** C10: every vertical recipe sets the order strategy type to SINGLE, the
    value the single-leg recipes set; no recipe of the module sets another
    one. *)
Theorem every_recipe_is_single (v : vertical_recipe) (r : single_recipe)
    (long short symbol : Symbol) (q : Quantity) (p : Price) :
  orderStrategyType (vertical v long short q p)
    = Some OrderStrategyType.SINGLE /\
  complexOrderStrategyType (vertical v long short q p)
    = Some ComplexOrderStrategyType.VERTICAL /\
  orderStrategyType (vertical v long short q p)
    = orderStrategyType (@option_market Symbol Quantity Price r symbol q) /\
  orderStrategyType (vertical v long short q p)
    = orderStrategyType (option_limit r symbol q p).
Proof.
  destruct v, r; cbn; repeat split.
Qed.

End RecipeProperties.

(** ** The option-symbol codec *)

(** [__init__] is the sequence of its three validation steps. *)
Lemma init_steps (U : str) (D : expiration_arg) (T S : str) :
  OptionSymbol.__init__ U D T S =
  (ct <- normalize_contract_type T ;;
   ed <- expiration_of D ;;
   sp <- match positive_strike S with
         | Some x => encode_strike x
         | None => Raise (ValueError
                     "Strike price must be a string representing a positive float")
         end ;;
   Ok (OptionSymbol.mk U ct ed sp)).
Proof.
  unfold OptionSymbol.__init__, normalize_contract_type, expiration_of,
    positive_strike, encode_strike.
  destruct (str_eqb T (lit "C") || str_eqb T (lit "CALL"));
    [|destruct (str_eqb T (lit "P") || str_eqb T (lit "PUT"))];
    cbn [bind]; try reflexivity;
    (destruct D; cbn [bind]; try reflexivity;
     try (destruct (_parse_expiration_date s); cbn [bind]; try reflexivity);
     (destruct (PyFloat.float_of_str S) as [x|]; cbn [bind]; [|reflexivity];
      destruct (PyFloat.fle x (PyFloat.float_of_int 0)); cbn [bind];
        [reflexivity|];
      destruct (PyFloat.flt x (PyFloat.float_of_int 1000));
      destruct (PyFloat.int_of_float _); reflexivity)).
Qed.

Lemma normalize_contract_type_ok (T ct : str) :
  normalize_contract_type T = Ok ct ->
  ((T = lit "C" \/ T = lit "CALL") /\ ct = lit "C") \/
  ((T = lit "P" \/ T = lit "PUT") /\ ct = lit "P").
Proof.
  unfold normalize_contract_type.
  destruct (str_eqb T (lit "C") || str_eqb T (lit "CALL")) eqn:E1.
  - intros [= <-]. left. split; [|reflexivity].
    apply orb_true_iff in E1. now rewrite !str_eqb_eq in E1.
  - destruct (str_eqb T (lit "P") || str_eqb T (lit "PUT")) eqn:E2;
      [|discriminate].
    intros [= <-]. right. split; [|reflexivity].
    apply orb_true_iff in E2. now rewrite !str_eqb_eq in E2.
Qed.

(** What a successful construction stores. *)
Lemma init_ok (U : str) (D : expiration_arg) (T S : str) (o : OptionSymbol.t) :
  OptionSymbol.__init__ U D T S = Ok o ->
  exists ct ed x sp,
    o = OptionSymbol.mk U ct ed sp /\
    normalize_contract_type T = Ok ct /\
    expiration_of D = Ok ed /\
    positive_strike S = Some x /\
    encode_strike x = Ok sp.
Proof.
  rewrite init_steps.
  destruct (normalize_contract_type T) as [ct|]; [|discriminate].
  destruct (expiration_of D) as [ed|]; [|discriminate]. cbn [bind].
  destruct (positive_strike S) as [x|]; [|discriminate].
  destruct (encode_strike x) as [sp|] eqn:E; [|discriminate]. cbn [bind].
  intros [= <-]. now exists ct, ed, x, sp.
Qed.

Lemma init_intro (U : str) (D : expiration_arg) (T S ct : str) (ed : date)
    (x : PyFloat.float) (sp : str) :
  normalize_contract_type T = Ok ct ->
  expiration_of D = Ok ed ->
  positive_strike S = Some x ->
  encode_strike x = Ok sp ->
  OptionSymbol.__init__ U D T S = Ok (OptionSymbol.mk U ct ed sp).
Proof.
  intros H1 H2 H3 H4. rewrite init_steps, H1, H2, H3. cbn [bind].
  now rewrite H4.
Qed.

Lemma normalize_long_short :
  normalize_contract_type (lit "CALL") = normalize_contract_type (lit "C") /\
  normalize_contract_type (lit "PUT") = normalize_contract_type (lit "P") /\
  normalize_contract_type (lit "C") = Ok (lit "C") /\
  normalize_contract_type (lit "P") = Ok (lit "P").
Proof. repeat split. Qed.

Lemma normalize_other (T : str) :
  T <> lit "C" -> T <> lit "CALL" -> T <> lit "P" -> T <> lit "PUT" ->
  normalize_contract_type T
  = Raise (ValueError "Contract type must be one of 'C', 'CALL', 'P' or 'PUT'").
Proof.
  intros H1 H2 H3 H4. unfold normalize_contract_type.
  apply str_eqb_neq in H1, H2, H3, H4. now rewrite H1, H2, H3, H4.
Qed.

(** Each of the four accepted tokens is accepted, and constructs the symbol
    with its tag, whenever the expiration date and the strike are. *)
Lemma accepted_tokens_construct (U : str) (D : expiration_arg) (S : str)
    (ed : date) (x : PyFloat.float) (sp : str) :
  expiration_of D = Ok ed ->
  positive_strike S = Some x ->
  encode_strike x = Ok sp ->
  OptionSymbol.__init__ U D (lit "C") S = Ok (OptionSymbol.mk U (lit "C") ed sp) /\
  OptionSymbol.__init__ U D (lit "CALL") S = Ok (OptionSymbol.mk U (lit "C") ed sp) /\
  OptionSymbol.__init__ U D (lit "P") S = Ok (OptionSymbol.mk U (lit "P") ed sp) /\
  OptionSymbol.__init__ U D (lit "PUT") S = Ok (OptionSymbol.mk U (lit "P") ed sp).
Proof.
  intros X P C.
  repeat split; apply (init_intro U D _ S _ ed x sp); auto; reflexivity.
Qed.

(** C7: each of the four tokens is accepted: whenever the expiration date
    and the strike are accepted (the construction succeeds with some
    token), the construction with 'C' or 'CALL' returns the symbol with the
    stored tag 'C', and the construction with 'P' or 'PUT' the symbol with
    the stored tag 'P', the other fields being the same; the long and the
    short form give the same result for all arguments; a constructed
    symbol stores 'C' only for 'C' or 'CALL' and 'P' only for 'P' or 'PUT';
    every other token fails with InvalidContractType, whatever the other
    arguments are. *)
Theorem contract_type_normalization (U : str) (D : expiration_arg) (S : str) :
  (forall T0 o0, OptionSymbol.__init__ U D T0 S = Ok o0 ->
     OptionSymbol.__init__ U D (lit "C") S
     = Ok (OptionSymbol.mk U (lit "C") (OptionSymbol.expiration_date o0)
             (OptionSymbol.strike_price o0)) /\
     OptionSymbol.__init__ U D (lit "CALL") S
     = Ok (OptionSymbol.mk U (lit "C") (OptionSymbol.expiration_date o0)
             (OptionSymbol.strike_price o0)) /\
     OptionSymbol.__init__ U D (lit "P") S
     = Ok (OptionSymbol.mk U (lit "P") (OptionSymbol.expiration_date o0)
             (OptionSymbol.strike_price o0)) /\
     OptionSymbol.__init__ U D (lit "PUT") S
     = Ok (OptionSymbol.mk U (lit "P") (OptionSymbol.expiration_date o0)
             (OptionSymbol.strike_price o0))) /\
  OptionSymbol.__init__ U D (lit "CALL") S = OptionSymbol.__init__ U D (lit "C") S /\
  OptionSymbol.__init__ U D (lit "PUT") S = OptionSymbol.__init__ U D (lit "P") S /\
  (forall T o, OptionSymbol.__init__ U D T S = Ok o ->
     ((T = lit "C" \/ T = lit "CALL") /\ OptionSymbol.contract_type o = lit "C") \/
     ((T = lit "P" \/ T = lit "PUT") /\ OptionSymbol.contract_type o = lit "P")) /\
  (forall T, T <> lit "C" -> T <> lit "CALL" -> T <> lit "P" -> T <> lit "PUT" ->
     OptionSymbol.__init__ U D T S
     = Raise (ValueError "Contract type must be one of 'C', 'CALL', 'P' or 'PUT'") /\
     fails_with (OptionSymbol.__init__ U D T S) InvalidContractType).
Proof.
  destruct normalize_long_short as (L1 & L2 & _ & _).
  split; [|split; [|split; [|split]]].
  - intros T0 o0 H. apply init_ok in H.
    destruct H as (ct & ed & x & sp & -> & _ & X & P & C).
    cbn [OptionSymbol.expiration_date OptionSymbol.strike_price].
    exact (accepted_tokens_construct U D S ed x sp X P C).
  - now rewrite !init_steps, L1.
  - now rewrite !init_steps, L2.
  - intros T o H. apply init_ok in H.
    destruct H as (ct & ed & x & sp & -> & Hct & _).
    apply normalize_contract_type_ok in Hct. exact Hct.
  - intros T H1 H2 H3 H4.
    assert (E : OptionSymbol.__init__ U D T S
                = Raise (ValueError
                    "Contract type must be one of 'C', 'CALL', 'P' or 'PUT'")).
    { rewrite init_steps, normalize_other by assumption. reflexivity. }
    split; [exact E|]. rewrite E. eexists. split; reflexivity.
Qed.

(** The documentation's example with each of the four tokens: the long and
    the short form construct the same symbol, with the tag 'C' for a call
    and 'P' for a put; the lower-case token is refused. *)
Lemma contract_type_normalization_witness :
  OptionSymbol.__init__ (lit "SPXW") (ExpStr (lit "240420")) (lit "C") (lit "5040")
  = Ok (OptionSymbol.mk (lit "SPXW") (lit "C") (mkdate 2024 4 20) (lit "05040000")) /\
  OptionSymbol.__init__ (lit "SPXW") (ExpStr (lit "240420")) (lit "CALL") (lit "5040")
  = Ok (OptionSymbol.mk (lit "SPXW") (lit "C") (mkdate 2024 4 20) (lit "05040000")) /\
  OptionSymbol.__init__ (lit "SPXW") (ExpStr (lit "240420")) (lit "P") (lit "5040")
  = Ok (OptionSymbol.mk (lit "SPXW") (lit "P") (mkdate 2024 4 20) (lit "05040000")) /\
  OptionSymbol.__init__ (lit "SPXW") (ExpStr (lit "240420")) (lit "PUT") (lit "5040")
  = Ok (OptionSymbol.mk (lit "SPXW") (lit "P") (mkdate 2024 4 20) (lit "05040000")) /\
  fails_with
    (OptionSymbol.__init__ (lit "SPXW") (ExpStr (lit "240420")) (lit "call") (lit "5040"))
    InvalidContractType.
Proof.
  destruct (contract_type_normalization (lit "SPXW") (ExpStr (lit "240420")) (lit "5040"))
    as (A & _ & _ & _ & F).
  assert (I : OptionSymbol.__init__ (lit "SPXW") (ExpStr (lit "240420")) (lit "CALL")
                (lit "5040")
              = Ok (OptionSymbol.mk (lit "SPXW") (lit "C") (mkdate 2024 4 20)
                      (lit "05040000"))) by (vm_compute; reflexivity).
  destruct (A _ _ I) as (A1 & A2 & A3 & A4).
  split; [exact A1|]. split; [exact A2|]. split; [exact A3|]. split; [exact A4|].
  apply F; discriminate.
Defined.

(** A strike that is read and encoded constructs the symbol with its
    encoding, whenever the contract type and the expiration date are
    accepted (the construction succeeds with some strike). *)
Lemma encoded_strike_constructs (U : str) (D : expiration_arg) (T S0 S : str)
    (o0 : OptionSymbol.t) (x : PyFloat.float) (sp : str) :
  OptionSymbol.__init__ U D T S0 = Ok o0 ->
  positive_strike S = Some x ->
  encode_strike x = Ok sp ->
  OptionSymbol.__init__ U D T S
  = Ok (OptionSymbol.mk U (OptionSymbol.contract_type o0)
          (OptionSymbol.expiration_date o0) sp).
Proof.
  intros H P C. apply init_ok in H.
  destruct H as (ct & ed & x0 & sp0 & -> & N & X & _).
  cbn [OptionSymbol.contract_type OptionSymbol.expiration_date].
  now apply (init_intro U D T S ct ed x sp).
Qed.

(** C5: the construction encodes the strike: whenever the contract type and
    the expiration date are accepted (the construction succeeds with some
    strike), a strike that [float] reads above zero, with the product of
    the strike and 1000 truncated to the integer [n], constructs the symbol
    whose strike field is the prefix ('00' below 1000, else '0') followed
    by the decimal digits of [n]; with the strikes of the specification's
    examples the construction succeeds and stores exactly 00500000,
    05040000, 01000000 and 00999999, and with two strikes whose product is
    not an integer the truncated, not the rounded, number; a constructed
    symbol has no other strike field; the end-to-end example is
    constructed and built with two spaces. *)
Theorem strike_encoding_examples :
  (forall U D T S0 o0 S x n,
     OptionSymbol.__init__ U D T S0 = Ok o0 ->
     PyFloat.float_of_str S = Some x ->
     PyFloat.fle x (PyFloat.float_of_int 0) = false ->
     PyFloat.int_of_float (PyFloat.fmul x (PyFloat.float_of_int 1000)) = Ok n ->
     OptionSymbol.__init__ U D T S
     = Ok (OptionSymbol.mk U (OptionSymbol.contract_type o0)
             (OptionSymbol.expiration_date o0)
             ((if PyFloat.flt x (PyFloat.float_of_int 1000) then lit "00" else lit "0")
                ++ PyStr.str_of_int n))) /\
  (forall U D T S0 o0,
     OptionSymbol.__init__ U D T S0 = Ok o0 ->
     OptionSymbol.__init__ U D T (lit "500")
     = Ok (OptionSymbol.mk U (OptionSymbol.contract_type o0)
             (OptionSymbol.expiration_date o0) (lit "00500000")) /\
     OptionSymbol.__init__ U D T (lit "5040")
     = Ok (OptionSymbol.mk U (OptionSymbol.contract_type o0)
             (OptionSymbol.expiration_date o0) (lit "05040000")) /\
     OptionSymbol.__init__ U D T (lit "1000")
     = Ok (OptionSymbol.mk U (OptionSymbol.contract_type o0)
             (OptionSymbol.expiration_date o0) (lit "01000000")) /\
     OptionSymbol.__init__ U D T (lit "999.999")
     = Ok (OptionSymbol.mk U (OptionSymbol.contract_type o0)
             (OptionSymbol.expiration_date o0) (lit "00999999")) /\
     OptionSymbol.__init__ U D T (lit "0.0019")
     = Ok (OptionSymbol.mk U (OptionSymbol.contract_type o0)
             (OptionSymbol.expiration_date o0) (lit "001")) /\
     OptionSymbol.__init__ U D T (lit "99.9999")
     = Ok (OptionSymbol.mk U (OptionSymbol.contract_type o0)
             (OptionSymbol.expiration_date o0) (lit "0099999"))) /\
  (forall U D T S o, OptionSymbol.__init__ U D T S = Ok o ->
     exists x n,
       positive_strike S = Some x /\
       PyFloat.int_of_float (PyFloat.fmul x (PyFloat.float_of_int 1000)) = Ok n /\
       OptionSymbol.strike_price o
       = (if PyFloat.flt x (PyFloat.float_of_int 1000) then lit "00" else lit "0")
           ++ PyStr.str_of_int n) /\
  OptionSymbol.__init__ (lit "QQQ") (ExpStr (lit "240420")) (lit "P") (lit "500")
  = Ok (OptionSymbol.mk (lit "QQQ") (lit "P") (mkdate 2024 4 20) (lit "00500000")) /\
  OptionSymbol.build
    (OptionSymbol.mk (lit "QQQ") (lit "P") (mkdate 2024 4 20) (lit "00500000"))
  = lit "QQQ  240420P00500000".
Proof.
  assert (X : forall S sp,
             (match positive_strike S with
              | Some x => encode_strike x
              | None => Raise (ValueError "")
              end) = Ok sp ->
             forall U D T S0 o0, OptionSymbol.__init__ U D T S0 = Ok o0 ->
               OptionSymbol.__init__ U D T S
               = Ok (OptionSymbol.mk U (OptionSymbol.contract_type o0)
                       (OptionSymbol.expiration_date o0) sp)).
  { intros S sp E U D T S0 o0 H.
    destruct (positive_strike S) as [x|] eqn:P; [|discriminate].
    exact (encoded_strike_constructs U D T S0 S o0 x sp H P E). }
  split; [|split; [|split; [|split]]].
  - intros U D T S0 o0 S x n H Hx F Hn.
    apply (encoded_strike_constructs U D T S0 S o0 x); [exact H| |].
    + unfold positive_strike. now rewrite Hx, F.
    + unfold encode_strike. now rewrite Hn.
  - intros U D T S0 o0 H.
    repeat split; (eapply X; [vm_compute; reflexivity|exact H]).
  - intros U D T S o H. apply init_ok in H.
    destruct H as (ct & ed & x & sp & -> & _ & _ & Hx & Hsp).
    unfold encode_strike in Hsp.
    destruct (PyFloat.int_of_float _) as [n|] eqn:E; [|discriminate].
    injection Hsp as <-. now exists x, n.
  - vm_compute. reflexivity.
  - vm_compute. reflexivity.
Qed.

(** The examples of the specification, constructed: each construction
    succeeds and stores the encoding. *)
Lemma strike_encoding_examples_witness :
  OptionSymbol.__init__ (lit "QQQ") (ExpStr (lit "240420")) (lit "P") (lit "500")
  = Ok (OptionSymbol.mk (lit "QQQ") (lit "P") (mkdate 2024 4 20) (lit "00500000")) /\
  OptionSymbol.__init__ (lit "QQQ") (ExpStr (lit "240420")) (lit "P") (lit "5040")
  = Ok (OptionSymbol.mk (lit "QQQ") (lit "P") (mkdate 2024 4 20) (lit "05040000")) /\
  OptionSymbol.__init__ (lit "QQQ") (ExpStr (lit "240420")) (lit "P") (lit "1000")
  = Ok (OptionSymbol.mk (lit "QQQ") (lit "P") (mkdate 2024 4 20) (lit "01000000")) /\
  OptionSymbol.__init__ (lit "QQQ") (ExpStr (lit "240420")) (lit "P") (lit "999.999")
  = Ok (OptionSymbol.mk (lit "QQQ") (lit "P") (mkdate 2024 4 20) (lit "00999999")).
Proof.
  destruct strike_encoding_examples as (_ & H & _ & I & _).
  destruct (H _ _ _ _ _ I) as (H1 & H2 & H3 & H4 & _).
  split; [exact H1|]. split; [exact H2|]. split; [exact H3|exact H4].
Defined.

(** ** Expiration dates *)

Lemma code_digit_char (d : Z) :
  0 <= d < 10 -> code (PyStr.digit_char d) = 48 + d.
Proof.
  intros H.
  assert (C : d = 0 \/ d = 1 \/ d = 2 \/ d = 3 \/ d = 4 \/ d = 5 \/ d = 6 \/
              d = 7 \/ d = 8 \/ d = 9) by lia.
  repeat (destruct C as [->|C]; [reflexivity|]). now subst.
Qed.

Lemma digit_char_val (c : ascii) :
  PyStr.is_digit c = true -> PyStr.digit_char (PyStr.digit_val c) = c.
Proof.
  intros H. apply is_digit_code in H. apply code_inj.
  unfold PyStr.digit_val. rewrite code_digit_char; lia.
Qed.

Lemma in_decimal_digits (c : ascii) :
  PyStr.is_digit c = true -> In c decimal_digits.
Proof.
  intros H. rewrite <- (digit_char_val c H). apply is_digit_code in H.
  unfold decimal_digits. apply in_map. unfold PyStr.digit_val. simpl. lia.
Qed.

Lemma month_day_agrees_all :
  forallb (fun m1 => forallb (fun m2 => forallb (fun d1 => forallb (fun d2 =>
    month_day_agrees m1 m2 d1 d2)
    decimal_digits) decimal_digits) decimal_digits) decimal_digits = true.
Proof. vm_compute. reflexivity. Qed.

Lemma regex_match_year (y1 y2 : ascii) (r : str) :
  PyStr.is_digit y1 = true -> PyStr.is_digit y2 = true ->
  regex_match (y1 :: y2 :: r)
  = option_map (fun t => (10 * PyStr.digit_val y1 + PyStr.digit_val y2,
                          fst (fst t), snd (fst t), snd t))
      (month_day_match r).
Proof.
  intros H1 H2. unfold regex_match, month_day_match, match_y.
  rewrite H1, H2. cbn [andb flat_map fst snd]. rewrite app_nil_r.
  induction (match_m r) as [|mr l IH]; [reflexivity|].
  cbn [flat_map].
  destruct (match_d (snd mr)) as [|dr k]; [exact IH|reflexivity].
Qed.

(** A string in the strict YYMMDD form parses to the date it denotes. *)
Lemma strict_dates_parse (s : str) (d : date) :
  strict_yymmdd s = Some d -> _parse_expiration_date s = Ok d.
Proof.
  intros H.
  destruct s as [|y1 [|y2 [|m1 [|m2 [|d1 [|d2 [|? ?]]]]]]]; try discriminate H.
  unfold strict_yymmdd in H.
  destruct (forallb PyStr.is_digit [y1; y2; m1; m2; d1; d2]) eqn:F;
    [|discriminate].
  cbn [forallb] in F. rewrite !andb_true_iff in F.
  destruct F as (F1 & F2 & F3 & F4 & F5 & F6 & _).
  pose proof month_day_agrees_all as G.
  rewrite forallb_forall in G. specialize (G m1 (in_decimal_digits _ F3)).
  rewrite forallb_forall in G. specialize (G m2 (in_decimal_digits _ F4)).
  rewrite forallb_forall in G. specialize (G d1 (in_decimal_digits _ F5)).
  rewrite forallb_forall in G. specialize (G d2 (in_decimal_digits _ F6)).
  unfold month_day_agrees in G.
  set (y := 10 * PyStr.digit_val y1 + PyStr.digit_val y2) in *.
  set (m := 10 * PyStr.digit_val m1 + PyStr.digit_val m2) in *.
  set (a := 10 * PyStr.digit_val d1 + PyStr.digit_val d2) in *.
  destruct (valid_ymd (if y <=? 68 then y + 2000 else y + 1900) m a) eqn:V;
    [|discriminate].
  injection H as <-.
  assert (R : (1 <=? m) && (m <=? 12) && (1 <=? a) && (a <=? 31) = true).
  { unfold valid_ymd, days_in_month in V.
    destruct (m =? 2); [destruct (is_leap _)|];
      try destruct ((m =? 4) || (m =? 6) || (m =? 9) || (m =? 11)); lia. }
  rewrite R in G.
  unfold _parse_expiration_date, strptime_yymmdd.
  rewrite regex_match_year by assumption.
  destruct (month_day_match [m1; m2; d1; d2]) as [[[m' a'] [|? ?]]|];
    try discriminate G.
  apply andb_true_iff in G. destruct G as [Gm Ga].
  apply Z.eqb_eq in Gm, Ga. subst m' a'.
  cbn [option_map fst snd]. fold y. now rewrite V.
Qed.

Lemma two_digits_value (n : Z) :
  0 <= n < 100 ->
  exists a b,
    two_digits n = [a; b] /\ PyStr.is_digit a = true /\ PyStr.is_digit b = true /\
    10 * PyStr.digit_val a + PyStr.digit_val b = n.
Proof.
  intros H. unfold two_digits.
  assert (0 <= (n / 10) mod 10 < 10) by (apply Z.mod_pos_bound; lia).
  assert (0 <= n mod 10 < 10) by (apply Z.mod_pos_bound; lia).
  eexists _, _. split; [reflexivity|].
  rewrite !digit_char_is_digit, !digit_val_char by assumption.
  repeat split. zlia.
Qed.

Lemma two_digits_are_digits (n : Z) :
  Forall (fun c => PyStr.is_digit c = true) (two_digits n).
Proof.
  unfold two_digits.
  repeat constructor; apply digit_char_is_digit; apply Z.mod_pos_bound; lia.
Qed.

Lemma strftime_digits (d : date) :
  Forall (fun c => PyStr.is_digit c = true) (strftime_yymmdd d).
Proof.
  unfold strftime_yymmdd. rewrite !Forall_app.
  repeat split; apply two_digits_are_digits.
Qed.

Lemma leap_pivot (y : Z) : is_leap y = true -> is_leap (pivot_year y) = true.
Proof.
  unfold is_leap, pivot_year.
  destruct (Z.leb_spec (y mod 100) 68); zlia.
Qed.

Lemma valid_pivot (y m d : Z) :
  valid_ymd y m d = true -> valid_ymd (pivot_year y) m d = true.
Proof.
  unfold valid_ymd, days_in_month. intros H.
  assert (R : 1 <= pivot_year y <= 9999).
  { unfold pivot_year. pose proof (Z.mod_pos_bound y 100).
    destruct (Z.leb_spec (y mod 100) 68); lia. }
  pose proof (leap_pivot y) as L.
  destruct (m =? 2);
    [|destruct ((m =? 4) || (m =? 6) || (m =? 9) || (m =? 11)); lia].
  destruct (is_leap y); [rewrite L by reflexivity|destruct (is_leap (pivot_year y))];
    lia.
Qed.

(** What [date.strftime] writes for a valid date is in the strict form, and
    denotes the same month and day in the year of the pivot window. *)
Lemma strftime_is_strict (d : date) :
  valid_date d = true ->
  strict_yymmdd (strftime_yymmdd d)
  = Some (mkdate (pivot_year (year d)) (month d) (day d)).
Proof.
  intros V. unfold valid_date in V. pose proof (valid_pivot _ _ _ V) as V'.
  assert (Rm : 0 <= month d < 100) by (unfold valid_ymd in V; lia).
  assert (Rd : 0 <= day d < 100).
  { unfold valid_ymd, days_in_month in V.
    destruct (month d =? 2); [destruct (is_leap (year d))|];
      try destruct ((month d =? 4) || (month d =? 6) || (month d =? 9)
                      || (month d =? 11)); lia. }
  assert (Ry : 0 <= year d mod 100 < 100) by (apply Z.mod_pos_bound; lia).
  destruct (two_digits_value _ Ry) as (y1 & y2 & Ey & Y1 & Y2 & Yv).
  destruct (two_digits_value _ Rm) as (m1 & m2 & Em & M1 & M2 & Mv).
  destruct (two_digits_value _ Rd) as (d1 & d2 & Ed & D1 & D2 & Dv).
  unfold strftime_yymmdd. rewrite Ey, Em, Ed. cbn [app].
  unfold strict_yymmdd. cbn [forallb].
  rewrite Y1, Y2, M1, M2, D1, D2. cbn [andb].
  rewrite Yv, Mv, Dv. fold (pivot_year (year d)). now rewrite V'.
Qed.

Lemma strftime_parses (d : date) :
  valid_date d = true ->
  _parse_expiration_date (strftime_yymmdd d)
  = Ok (mkdate (pivot_year (year d)) (month d) (day d)).
Proof. intros V. apply strict_dates_parse. now apply strftime_is_strict. Qed.

(** C4 (the code accepts more than the claim allows): a five-character
    string with a one-digit month is outside the strict YYMMDD pattern, and
    [_parse_expiration_date] returns a date for it; so do a four-character
    string and a string with a space before the day. *)
Theorem lenient_expiration_dates :
  strict_yymmdd (lit "24420") = None /\
  _parse_expiration_date (lit "24420") = Ok (mkdate 2024 4 20) /\
  _parse_expiration_date (lit "2411") = Ok (mkdate 2024 1 1) /\
  _parse_expiration_date (lit "2404 5") = Ok (mkdate 2024 4 5).
Proof. repeat split. Qed.

(** The parts of C4 the code does satisfy: strict strings parse to their
    date, and the invalid month of the specification's example fails with
    the message that states the expected pattern. *)
Lemma strict_expiration_dates :
  (forall s d, strict_yymmdd s = Some d -> _parse_expiration_date s = Ok d) /\
  _parse_expiration_date (lit "240420") = Ok (mkdate 2024 4 20) /\
  _parse_expiration_date (lit "991301")
  = Raise (ValueError
      "expiration date must follow format [Two digit year][Two digit month][Two digit day]") /\
  (forall s e, _parse_expiration_date s = Raise e -> kind_of e = Some InvalidDateFormat).
Proof.
  split; [exact strict_dates_parse|]. repeat split.
  intros s e. unfold _parse_expiration_date.
  destruct (strptime_yymmdd s); [discriminate|]. now intros [= <-].
Qed.

(** ** Parsing and formatting symbols *)

Lemma split_two_count (sep : ascii) (s : str) :
  (exists a b, PyStr.split sep s = [a; b]) <-> PyStr.count sep s = 1%nat.
Proof.
  pose proof (split_length sep s) as L. split.
  - intros (a & b & E). rewrite E in L. simpl in L. lia.
  - intros C. rewrite C in L.
    destruct (PyStr.split sep s) as [|a [|b [|? ?]]]; try discriminate L.
    now exists a, b.
Qed.

Lemma split_not_two (sep : ascii) (s : str) :
  PyStr.count sep s <> 1%nat ->
  forall a b, PyStr.split sep s <> [a; b].
Proof.
  intros C a b E. apply C. apply split_two_count. now exists a, b.
Qed.

(** The two branches of [parse_symbol] after the underscore. *)
Lemma parse_symbol_missing_underscore (symbol : str) :
  PyStr.count "_" symbol <> 1%nat ->
  OptionSymbol.parse_symbol symbol
  = Raise (ValueError
      ("option symbol missing underscore '_', " ++ OptionSymbol.format_error_str)).
Proof.
  intros C. pose proof (split_not_two _ _ C) as N.
  unfold OptionSymbol.parse_symbol.
  destruct (PyStr.split "_" symbol) as [|a [|b [|? ?]]]; try reflexivity.
  now destruct (N a b).
Qed.

Lemma parse_symbol_put (symbol underlying rest d k : str) :
  PyStr.split "_" symbol = [underlying; rest] ->
  PyStr.split "P" rest = [d; k] ->
  OptionSymbol.parse_symbol symbol
  = (e <- _parse_expiration_date d ;;
     OptionSymbol.__init__ underlying (ExpDate e) (lit "P") k).
Proof.
  intros E1 E2. unfold OptionSymbol.parse_symbol. now rewrite E1, E2.
Qed.

Lemma parse_symbol_call (symbol underlying rest d k : str) :
  PyStr.split "_" symbol = [underlying; rest] ->
  List.length (PyStr.split "P" rest) <> 2%nat ->
  PyStr.split "C" rest = [d; k] ->
  OptionSymbol.parse_symbol symbol
  = (e <- _parse_expiration_date d ;;
     OptionSymbol.__init__ underlying (ExpDate e) (lit "C") k).
Proof.
  intros E1 N E2. unfold OptionSymbol.parse_symbol. rewrite E1, E2.
  destruct (PyStr.split "P" rest) as [|a [|b [|? ?]]]; try reflexivity.
  now destruct N.
Qed.

Lemma parse_symbol_no_type (symbol underlying rest : str) :
  PyStr.split "_" symbol = [underlying; rest] ->
  List.length (PyStr.split "P" rest) <> 2%nat ->
  List.length (PyStr.split "C" rest) <> 2%nat ->
  OptionSymbol.parse_symbol symbol
  = Raise (ValueError
      ("option must have contract type \'C\' r \'\P\', " ++ OptionSymbol.format_error_str)).
Proof.
  intros E1 N1 N2. unfold OptionSymbol.parse_symbol. rewrite E1.
  destruct (PyStr.split "P" rest) as [|a [|b [|? ?]]]; try (now destruct N1);
    destruct (PyStr.split "C" rest) as [|a' [|b' [|? ?]]];
    try reflexivity; now destruct N2.
Qed.

(** The constructor called on a date and a one-letter contract type raises
    neither of the two messages of [parse_symbol]. *)
Lemma typed_init_kind (U : str) (d0 : str) (T k : str) :
  T = lit "P" \/ T = lit "C" ->
  ~ fails_with
      (e <- _parse_expiration_date d0 ;; OptionSymbol.__init__ U (ExpDate e) T k)
      InvalidSymbolFormat.
Proof.
  intros HT (e & E & K).
  unfold _parse_expiration_date in E.
  destruct (strptime_yymmdd d0) as [dt|]; cbn [bind] in E;
    [|injection E as <-; discriminate K].
  rewrite init_steps in E.
  assert (N : exists ct, normalize_contract_type T = Ok ct)
    by (destruct HT as [->| ->]; eexists; reflexivity).
  destruct N as (ct & N). rewrite N in E. cbn [bind expiration_of] in E.
  destruct (positive_strike k) as [x|]; cbn [bind] in E;
    [|injection E as <-; discriminate K].
  unfold encode_strike in E.
  destruct (PyFloat.fmul x (PyFloat.float_of_int 1000)); cbn in E;
    try discriminate E; injection E as <-; discriminate K.
Qed.

(** C8: [parse_symbol] fails with InvalidSymbolFormat exactly when the input
    does not contain exactly one underscore, or the remainder after the
    underscore splits neither on 'P' nor on 'C' into exactly two pieces. The
    split on 'P' is tried first and gives a put; otherwise the split on 'C'
    gives a call. *)
Theorem parse_symbol_format_errors (symbol : str) :
  (fails_with (OptionSymbol.parse_symbol symbol) InvalidSymbolFormat <->
   PyStr.count "_" symbol <> 1%nat \/
   exists underlying rest,
     PyStr.split "_" symbol = [underlying; rest] /\
     List.length (PyStr.split "P" rest) <> 2%nat /\
     List.length (PyStr.split "C" rest) <> 2%nat) /\
  (forall underlying rest d k,
     PyStr.split "_" symbol = [underlying; rest] ->
     PyStr.split "P" rest = [d; k] ->
     OptionSymbol.parse_symbol symbol
     = (e <- _parse_expiration_date d ;;
        OptionSymbol.__init__ underlying (ExpDate e) (lit "P") k)) /\
  (forall underlying rest d k,
     PyStr.split "_" symbol = [underlying; rest] ->
     List.length (PyStr.split "P" rest) <> 2%nat ->
     PyStr.split "C" rest = [d; k] ->
     OptionSymbol.parse_symbol symbol
     = (e <- _parse_expiration_date d ;;
        OptionSymbol.__init__ underlying (ExpDate e) (lit "C") k)) /\
  (forall o, OptionSymbol.parse_symbol symbol = Ok o ->
     exists underlying rest,
       PyStr.split "_" symbol = [underlying; rest] /\
       OptionSymbol.underlying_symbol o = underlying /\
       OptionSymbol.contract_type o
       = if Nat.eqb (List.length (PyStr.split "P" rest)) 2 then lit "P" else lit "C").
Proof.
  split; [|split; [|split]].
  - split.
    + intros F.
      destruct (Nat.eq_dec (PyStr.count "_" symbol) 1) as [C|C]; [|now left].
      right. apply split_two_count in C. destruct C as (u & rest & E1).
      exists u, rest. split; [exact E1|].
      destruct (Nat.eq_dec (List.length (PyStr.split "P" rest)) 2) as [LP|LP].
      { exfalso. destruct (PyStr.split "P" rest) as [|a [|b [|? ?]]] eqn:E2;
          try discriminate LP.
        rewrite (parse_symbol_put _ _ _ _ _ E1 E2) in F.
        revert F. apply typed_init_kind. now left. }
      split; [exact LP|].
      intros LC.
      destruct (PyStr.split "C" rest) as [|a [|b [|? ?]]] eqn:E2;
        try discriminate LC.
      rewrite (parse_symbol_call _ _ _ _ _ E1 LP E2) in F.
      revert F. apply typed_init_kind. now right.
    + intros [C|(u & rest & E1 & LP & LC)].
      * rewrite parse_symbol_missing_underscore by exact C.
        eexists. split; reflexivity.
      * rewrite (parse_symbol_no_type _ _ _ E1 LP LC).
        eexists. split; reflexivity.
  - intros. eapply parse_symbol_put; eassumption.
  - intros. eapply parse_symbol_call; eassumption.
  - intros o H.
    destruct (Nat.eq_dec (PyStr.count "_" symbol) 1) as [C|C];
      [|rewrite parse_symbol_missing_underscore in H by exact C; discriminate].
    apply split_two_count in C. destruct C as (u & rest & E1).
    exists u, rest. split; [exact E1|].
    assert (G : forall T d k,
               (e <- _parse_expiration_date d ;;
                OptionSymbol.__init__ u (ExpDate e) (lit T) k) = Ok o ->
               normalize_contract_type (lit T) = Ok (lit T) ->
               OptionSymbol.underlying_symbol o = u /\
               OptionSymbol.contract_type o = lit T).
    { intros T d k G N. destruct (_parse_expiration_date d); [|discriminate].
      cbn [bind] in G. apply init_ok in G.
      destruct G as (ct & ed & x & sp & -> & Hct & _).
      rewrite N in Hct. injection Hct as <-. now split. }
    destruct (Nat.eq_dec (List.length (PyStr.split "P" rest)) 2) as [LP|LP].
    + rewrite LP. cbn [Nat.eqb].
      destruct (PyStr.split "P" rest) as [|a [|b [|? ?]]] eqn:E2;
        try discriminate LP.
      rewrite (parse_symbol_put _ _ _ _ _ E1 E2) in H.
      now apply (G "P"%string a b).
    + apply Nat.eqb_neq in LP as LP'. rewrite LP'.
      destruct (Nat.eq_dec (List.length (PyStr.split "C" rest)) 2) as [LC|LC];
        [|rewrite (parse_symbol_no_type _ _ _ E1 LP LC) in H; discriminate].
      destruct (PyStr.split "C" rest) as [|a [|b [|? ?]]] eqn:E2;
        try discriminate LC.
      rewrite (parse_symbol_call _ _ _ _ _ E1 LP E2) in H.
      now apply (G "C"%string a b).
Qed.

(** Two inputs of [parse_symbol]: a put in the decode grammar, and a string
    whose remainder holds both letters, where the split on 'P' decides. *)
Lemma parse_symbol_format_errors_witness :
  (exists o, OptionSymbol.parse_symbol (lit "QQQ_240420P500") = Ok o /\
             OptionSymbol.contract_type o = lit "P") /\
  fails_with (OptionSymbol.parse_symbol (lit "QQQ240420P500")) InvalidSymbolFormat /\
  fails_with (OptionSymbol.parse_symbol (lit "QQQ_240420X500")) InvalidSymbolFormat /\
  fails_with (OptionSymbol.parse_symbol (lit "QQQ_24C0420P500")) InvalidDateFormat.
Proof.
  split; [|split; [|split]].
  - eexists. split; [vm_compute; reflexivity|].
    destruct (parse_symbol_format_errors (lit "QQQ_240420P500")) as (_ & _ & _ & H).
    destruct (H _ ltac:(vm_compute; reflexivity)) as (u & rest & E & _ & C).
    vm_compute in E. injection E as <- <-. exact C.
  - apply (parse_symbol_format_errors (lit "QQQ240420P500")). left.
    vm_compute. discriminate.
  - apply (parse_symbol_format_errors (lit "QQQ_240420X500")). right.
    eexists _, _. split; [vm_compute; reflexivity|].
    split; vm_compute; discriminate.
  - destruct (parse_symbol_format_errors (lit "QQQ_24C0420P500")) as (_ & H & _).
    rewrite (H (lit "QQQ") (lit "24C0420P500") (lit "24C0420") (lit "500"))
      by (vm_compute; reflexivity).
    eexists. split; vm_compute; reflexivity.
Defined.

Lemma encode_strike_ok (x : PyFloat.float) (sp : str) :
  encode_strike x = Ok sp ->
  exists n,
    PyFloat.int_of_float (PyFloat.fmul x (PyFloat.float_of_int 1000)) = Ok n /\
    sp = (if PyFloat.flt x (PyFloat.float_of_int 1000) then lit "00" else lit "0")
           ++ PyStr.str_of_int n.
Proof.
  unfold encode_strike.
  destruct (PyFloat.int_of_float _) as [n|]; [|discriminate].
  cbn [bind]. intros [= <-]. now exists n.
Qed.





(** C2, as stated, fails: the strike [5] is above zero and below 9999.999,
    and its encoded field has six characters. *)
Lemma small_strike_field_is_short :
  exists o,
    OptionSymbol.__init__ (lit "QQQ") (ExpStr (lit "240420")) (lit "P") (lit "5")
      = Ok o /\
    PyFloat.float_of_str (lit "5") = Some (PyFloat.float_of_int 5) /\
    OptionSymbol.strike_price o = lit "005000" /\
    List.length (OptionSymbol.strike_price o) <> 8%nat.
Proof.
  eexists. split; [vm_compute; reflexivity|].
  split; [vm_compute; reflexivity|]. split; [vm_compute; reflexivity|].
  vm_compute. discriminate.
Qed.

(** ** Binary64 rounding *)

Lemma pow2_pos (k : Z) : 0 <= k -> 0 < 2 ^ k.
Proof. intros H. apply Z.pow_pos_nonneg; lia. Qed.

Lemma pow2_le (a b : Z) : a <= b -> 0 <= a -> 2 ^ a <= 2 ^ b.
Proof. intros H _. apply Z.pow_le_mono_r; lia. Qed.

Lemma pow2_add (a b : Z) : 0 <= a -> 0 <= b -> 2 ^ (a + b) = 2 ^ a * 2 ^ b.
Proof. intros. now apply Z.pow_add_r. Qed.

Lemma log2_bounds (m : Z) :
  0 < m -> 0 <= Z.log2 m /\ 2 ^ Z.log2 m <= m < 2 ^ (Z.log2 m + 1).
Proof.
  intros H. split; [apply Z.log2_nonneg|]. now apply Z.log2_spec.
Qed.

Lemma finish_canonical (neg : bool) (q e : Z) :
  q <= 2 ^ 53 -> PyFloat.emin <= e -> (q < 2 ^ 52 -> e = PyFloat.emin) ->
  canonical (PyFloat.finish neg q e).
Proof.
  intros Hq He Hs. unfold PyFloat.finish, PyFloat.prec, PyFloat.emin, PyFloat.emax in *.
  destruct (Z.leb_spec q 0); [exact I|].
  destruct (Z.eqb_spec q (2 ^ 53)) as [->|Hne]; cbn [fst snd].
  - destruct (Z.ltb_spec 971 (e + 1)); [exact I|].
    unfold canonical, PyFloat.emin, PyFloat.emax. left.
    change (Z.pos (Z.to_pos (2 ^ (53 - 1)))) with (2 ^ 52). lia.
  - destruct (Z.ltb_spec 971 e); [exact I|].
    unfold canonical, PyFloat.emin, PyFloat.emax. rewrite Z2Pos.id by lia.
    destruct (Z.lt_ge_cases q (2 ^ 52)); [right|left]; lia.
Qed.

(** The exponent and the mantissa [round_dyadic] hands to [finish]. *)
Lemma round_dyadic_spec (neg : bool) (m e : Z) :
  0 < m ->
  exists q,
    PyFloat.round_dyadic neg m e
    = PyFloat.finish neg q (Z.max (Z.log2 m + e - 52) PyFloat.emin) /\
    0 <= q <= 2 ^ 53 /\
    (PyFloat.emin <= Z.log2 m + e - 52 -> 2 ^ 52 <= q) /\
    (Z.log2 m + e - 52 < PyFloat.emin -> q <= 2 ^ 52).
Proof.
  intros Hm. destruct (log2_bounds m Hm) as (L0 & L1 & L2).
  unfold PyFloat.round_dyadic, PyFloat.prec.
  destruct (Z.leb_spec m 0); [lia|].
  change (53 - 1) with 52.
  set (L := Z.log2 m) in *. set (e' := Z.max (L + e - 52) PyFloat.emin).
  assert (E1 : L + e - 52 <= e') by apply Z.le_max_l.
  assert (E2 : PyFloat.emin <= e') by apply Z.le_max_r.
  assert (E3 : e' = L + e - 52 \/ (e' = PyFloat.emin /\ L + e - 52 < PyFloat.emin))
    by (unfold e'; lia).
  destruct (Z.leb_spec e' e) as [Hle|Hgt].
  - (* the value is representable as it is *)
    exists (m * 2 ^ (e - e')). split; [reflexivity|].
    set (t := e - e') in *.
    assert (T : 0 < 2 ^ t) by (apply pow2_pos; lia).
    assert (U : 2 ^ (L + 1) * 2 ^ t <= 2 ^ 53).
    { rewrite <- pow2_add by lia. apply pow2_le; lia. }
    split; [nia|]. split.
    + intros N. assert (t = 52 - L) by lia.
      assert (2 ^ 52 = 2 ^ L * 2 ^ t) by (rewrite <- pow2_add by lia; f_equal; lia).
      nia.
    + intros N. assert (V : 2 ^ (L + 1) * 2 ^ t <= 2 ^ 52).
      { rewrite <- pow2_add by lia. apply pow2_le; lia. }
      nia.
  - (* bits are dropped *)
    set (k := e' - e) in *.
    assert (K : 0 < 2 ^ k) by (apply pow2_pos; lia).
    assert (Q0 : 0 <= m / 2 ^ k) by (apply Z.div_pos; lia).
    assert (Q1 : m / 2 ^ k < 2 ^ 53).
    { apply Z.div_lt_upper_bound; [lia|].
      rewrite <- pow2_add by lia.
      apply Z.lt_le_trans with (2 ^ (L + 1)); [lia|apply pow2_le; lia]. }
    assert (Q2 : PyFloat.emin <= L + e - 52 -> 2 ^ 52 <= m / 2 ^ k).
    { intros N. apply Z.div_le_lower_bound; [lia|].
      rewrite <- pow2_add by lia.
      apply Z.le_trans with (2 ^ L); [apply pow2_le; lia|lia]. }
    assert (Q3 : L + e - 52 < PyFloat.emin -> m / 2 ^ k < 2 ^ 52).
    { intros N. apply Z.div_lt_upper_bound; [lia|].
      rewrite <- pow2_add by lia.
      apply Z.lt_le_trans with (2 ^ (L + 1)); [lia|apply pow2_le; lia]. }
    exists (PyFloat.shift_round m k). split; [reflexivity|].
    unfold PyFloat.shift_round.
    destruct (m mod 2 ^ k <? 2 ^ (k - 1)); [lia|].
    destruct (2 ^ (k - 1) <? m mod 2 ^ k); [lia|].
    destruct (Z.even (m / 2 ^ k)); lia.
Qed.

Lemma round_dyadic_canonical (neg : bool) (m e : Z) :
  canonical (PyFloat.round_dyadic neg m e).
Proof.
  destruct (Z.lt_ge_cases 0 m) as [Hm|Hm].
  - destruct (round_dyadic_spec neg m e Hm) as (q & -> & Q & N & S).
    apply finish_canonical; [lia|apply Z.le_max_r|].
    intros Hq.
    destruct (Z.lt_ge_cases (Z.log2 m + e - 52) PyFloat.emin); lia.
  - unfold PyFloat.round_dyadic. destruct (Z.leb_spec m 0); [exact I|lia].
Qed.

Lemma float_of_decimal_canonical (neg : bool) (M E : Z) :
  canonical (PyFloat.float_of_decimal neg M E).
Proof.
  unfold PyFloat.float_of_decimal.
  destruct (0 <=? E); apply round_dyadic_canonical.
Qed.

(** Every [float] that [float(str)] returns is canonical. *)
Lemma float_of_str_canonical (s : str) (x : PyFloat.float) :
  PyFloat.float_of_str s = Some x -> canonical x.
Proof.
  unfold PyFloat.float_of_str.
  destruct (PyFloat.drop_underscores _ _) as [t|]; [|discriminate].
  destruct (PyFloat.sign t) as [neg body].
  destruct (PyFloat.parse_decimal body) as [[M E]|].
  - intros [= <-]. apply float_of_decimal_canonical.
  - unfold PyFloat.parse_inf_or_nan.
    destruct (_ || _); [intros [= <-]; exact I|].
    destruct (str_eqb _ _); [intros [= <-]; exact I|discriminate].
Qed.

(** The rounding above against the Standard Library's specification of
    IEEE 754 arithmetic, on strikes with three decimal places: the literal
    as the correctly rounded quotient, and the product with 1000. *)
Lemma rounding_agrees_with_SpecFloat (M : Z) :
  In M [1; 5; 1001; 4350; 99999; 500000; 999999; 1000000; 5040000; 9999999] ->
  PyFloat.float_of_decimal false M (-3)
  = SFdiv 53 1024 (binary_normalize 53 1024 M 0 false)
      (binary_normalize 53 1024 1000 0 false) /\
  PyFloat.fmul (PyFloat.float_of_decimal false M (-3)) (PyFloat.float_of_int 1000)
  = SFmul 53 1024 (PyFloat.float_of_decimal false M (-3)) (PyFloat.float_of_int 1000).
Proof.
  intros H. cbn [In] in H.
  repeat (destruct H as [<-|H]; [vm_compute; split; reflexivity|]).
  destruct H.
Qed.

Lemma fle_finite (a b : positive) (ea eb : Z) :
  PyFloat.fle (S754_finite false a ea) (S754_finite false b eb) = true <->
  ea < eb \/ (ea = eb /\ Zpos a <= Zpos b).
Proof.
  unfold PyFloat.fle, SFleb, SFcompare.
  change (Pos.compare_cont Eq a b) with (Pos.compare a b).
  destruct (Z.compare_spec ea eb); [destruct (Pos.compare_spec a b)| |];
    split; intros H'; first [reflexivity|discriminate|lia|exfalso; lia].
Qed.

Lemma flt_finite (a b : positive) (ea eb : Z) :
  PyFloat.flt (S754_finite false a ea) (S754_finite false b eb) = true <->
  ea < eb \/ (ea = eb /\ Zpos a < Zpos b).
Proof.
  unfold PyFloat.flt, SFltb, SFcompare.
  change (Pos.compare_cont Eq a b) with (Pos.compare a b).
  destruct (Z.compare_spec ea eb); [destruct (Pos.compare_spec a b)| |];
    split; intros H'; first [reflexivity|discriminate|lia|exfalso; lia].
Qed.

Lemma round_dyadic_normal (neg : bool) (m e : Z) :
  0 < m -> PyFloat.emin <= Z.log2 m + e - 52 -> 52 < Z.log2 m ->
  PyFloat.round_dyadic neg m e
  = PyFloat.finish neg (PyFloat.shift_round m (Z.log2 m - 52)) (Z.log2 m + e - 52).
Proof.
  intros Hm Hn Hk. unfold PyFloat.round_dyadic, PyFloat.prec.
  destruct (Z.leb_spec m 0); [lia|]. change (53 - 1) with 52.
  rewrite Z.max_l by lia.
  destruct (Z.leb_spec (Z.log2 m + e - 52) e); [lia|].
  f_equal. f_equal. lia.
Qed.

(** [int] of a rounded mantissa below the binary point. *)
Lemma int_of_finish (q e : Z) :
  0 < q <= 2 ^ 53 -> e < 0 ->
  PyFloat.int_of_float (PyFloat.finish false q e) = Ok (q / 2 ^ (- e)).
Proof.
  intros Hq He. unfold PyFloat.finish, PyFloat.prec, PyFloat.emax.
  destruct (Z.leb_spec q 0); [lia|].
  destruct (Z.eqb_spec q (2 ^ 53)) as [->|Hne]; cbn [fst snd].
  - destruct (Z.ltb_spec 971 (e + 1)); [lia|].
    unfold PyFloat.int_of_float.
    change (Z.pos (Z.to_pos (2 ^ (53 - 1)))) with (2 ^ 52).
    destruct (Z.leb_spec 0 (e + 1)).
    + assert (e = -1) by lia. subst e. reflexivity.
    + f_equal. replace (- e) with (1 + - (e + 1)) by lia.
      rewrite pow2_add by lia. change (2 ^ 53) with (2 ^ 1 * 2 ^ 52).
      rewrite Z.div_mul_cancel_l; [reflexivity| |lia].
      apply Z.neq_sym, Z.lt_neq, pow2_pos. lia.
  - destruct (Z.ltb_spec 971 e); [lia|].
    unfold PyFloat.int_of_float. rewrite Z2Pos.id by lia.
    destruct (Z.leb_spec 0 e); [lia|reflexivity].
Qed.

Lemma log2_cases (n a : Z) :
  0 <= a -> 2 ^ a <= n < 2 ^ (a + 2) ->
  (Z.log2 n = a /\ n < 2 ^ (a + 1)) \/ (Z.log2 n = a + 1 /\ 2 ^ (a + 1) <= n).
Proof.
  intros Ha Hn. destruct (Z.lt_ge_cases n (2 ^ (a + 1))).
  - left. split; [|assumption]. apply Z.log2_unique; [lia|].
    replace (Z.succ a) with (a + 1) by lia. lia.
  - right. split; [|assumption]. apply Z.log2_unique; [lia|].
    replace (Z.succ (a + 1)) with (a + 2) by lia. lia.
Qed.

(** ** The strike field *)

Lemma float_1000 :
  PyFloat.float_of_int 1000 = S754_finite false 8796093022208000 (-43).
Proof. reflexivity. Qed.

Lemma float_100 :
  PyFloat.float_of_str (lit "100") = Some (S754_finite false 7036874417766400 (-46)).
Proof. vm_compute. reflexivity. Qed.

Lemma float_9999_999 :
  PyFloat.float_of_str (lit "9999.999")
  = Some (S754_finite false 5497557589124186 (-39)).
Proof. vm_compute. reflexivity. Qed.

(** The product of a canonical strike between 100 and 9999.999 and 1000,
    rounded and truncated: six digits below 1000, seven from 1000 on. The
    mantissa [m] ranges over eight exponents, and the product over two
    positions of its leading bit. *)
Lemma product_case (m e L : Z) :
  2 ^ 52 <= m < 2 ^ 53 ->
  -46 <= e <= -39 ->
  (L = 104 /\ m * 8796093022208000 < 2 ^ 105) \/
  (L = 105 /\ 2 ^ 105 <= m * 8796093022208000) ->
  (e = -46 -> 7036874417766400 <= m) ->
  (e = -39 -> m <= 5497557589124186) ->
  0 < PyFloat.shift_round (m * 8796093022208000) (L - 52) <= 2 ^ 53 /\
  (e < -43 \/ (e = -43 /\ m < 8796093022208000) ->
   10 ^ 5 <= PyFloat.shift_round (m * 8796093022208000) (L - 52)
               / 2 ^ (- (L + (e + -43) - 52)) < 10 ^ 6) /\
  (~ (e < -43 \/ (e = -43 /\ m < 8796093022208000)) ->
   10 ^ 6 <= PyFloat.shift_round (m * 8796093022208000) (L - 52)
               / 2 ^ (- (L + (e + -43) - 52)) < 10 ^ 7).
Proof.
  intros Hm He HL Hlo Hhi.
  assert (C : e = -46 \/ e = -45 \/ e = -44 \/ e = -43 \/ e = -42 \/
              e = -41 \/ e = -40 \/ e = -39) by lia.
  unfold PyFloat.shift_round.
  change (2 ^ 52) with 4503599627370496 in *.
  change (2 ^ 53) with 9007199254740992 in *.
  change (2 ^ 105) with 40564819207303340847894502572032 in *.
  change (10 ^ 5) with 100000. change (10 ^ 6) with 1000000.
  change (10 ^ 7) with 10000000.
  destruct HL as [[-> HL]|[-> HL]];
    repeat (destruct C as [C|C]); subst e;
    repeat match goal with
      | |- context [2 ^ ?k] =>
          let v := eval vm_compute in (2 ^ k) in change (2 ^ k) with v
      end;
    (match goal with |- context [?a <? ?b] => destruct (Z.ltb_spec a b) end);
    try (match goal with |- context [?a <? ?b] => destruct (Z.ltb_spec a b) end);
    try (match goal with |- context [Z.even ?a] => destruct (Z.even a) end);
    (split; [|split; intros]); zlia.
Qed.

Lemma in_range_finite (x : PyFloat.float) (a b : positive) (ea eb : Z) :
  PyFloat.fle (S754_finite false a ea) x = true ->
  PyFloat.fle x (S754_finite false b eb) = true ->
  exists m e, x = S754_finite false m e.
Proof.
  destruct x as [s|s| |s m e]; try discriminate.
  - destruct s; discriminate.
  - destruct s; [discriminate|]. intros _ _. now exists m, e.
Qed.

(** The encoded field of a strike between 100 and 9999.999. *)
Lemma encode_strike_eight (x : PyFloat.float) :
  canonical x ->
  PyFloat.fle (S754_finite false 7036874417766400 (-46)) x = true ->
  PyFloat.fle x (S754_finite false 5497557589124186 (-39)) = true ->
  exists sp,
    encode_strike x = Ok sp /\ List.length sp = 8%nat /\
    Forall (fun c => PyStr.is_digit c = true) sp.
Proof.
  intros Hc Hlo Hhi.
  destruct (in_range_finite _ _ _ _ _ Hlo Hhi) as (m & e & ->).
  apply fle_finite in Hlo, Hhi. unfold canonical, PyFloat.emin in Hc.
  assert (Hm : 2 ^ 52 <= Zpos m < 2 ^ 53) by lia.
  assert (He : -46 <= e <= -39) by lia.
  set (P := Zpos m * 8796093022208000).
  assert (HP : 2 ^ 104 <= P < 2 ^ (104 + 2)).
  { unfold P. change (2 ^ 104) with (2 ^ 52 * 2 ^ 52).
    change (2 ^ (104 + 2)) with (2 ^ 53 * 2 ^ 53).
    change (2 ^ 52) with 4503599627370496 in *.
    change (2 ^ 53) with 9007199254740992 in *. nia. }
  destruct (log2_cases P 104 ltac:(lia) HP) as [[HL HB]|[HL HB]];
    change (104 + 1) with 105 in *.
  - destruct (product_case (Zpos m) e 104 Hm He) as (Q & B1 & B2);
      [left; split; [reflexivity|exact HB]|lia|lia|].
    fold P in Q, B1, B2.
    unfold encode_strike. rewrite float_1000.
    unfold PyFloat.fmul. cbn [xorb].
    change (Z.pos m * 8796093022208000) with P.
    rewrite round_dyadic_normal by (unfold PyFloat.emin; lia).
    rewrite HL, int_of_finish by lia. cbn [bind].
    eexists. split; [reflexivity|].
    destruct (PyFloat.flt _ _) eqn:F.
    + apply flt_finite in F. specialize (B1 F).
      split.
      * rewrite length_app, (str_of_int_length 5) by exact B1. reflexivity.
      * apply Forall_app. split; [repeat constructor|].
        apply str_of_int_digits. change (10 ^ 5) with 100000 in B1. lia.
    + assert (N : ~ (e < -43 \/ e = -43 /\ Z.pos m < 8796093022208000)).
      { intros N. apply flt_finite in N. congruence. }
      specialize (B2 N). split.
      * rewrite length_app, (str_of_int_length 6) by exact B2. reflexivity.
      * apply Forall_app. split; [repeat constructor|].
        apply str_of_int_digits. change (10 ^ 6) with 1000000 in B2. lia.
  - destruct (product_case (Zpos m) e 105 Hm He) as (Q & B1 & B2);
      [right; split; [reflexivity|exact HB]|lia|lia|].
    fold P in Q, B1, B2.
    unfold encode_strike. rewrite float_1000.
    unfold PyFloat.fmul. cbn [xorb].
    change (Z.pos m * 8796093022208000) with P.
    rewrite round_dyadic_normal by (unfold PyFloat.emin; lia).
    rewrite HL, int_of_finish by lia. cbn [bind].
    eexists. split; [reflexivity|].
    destruct (PyFloat.flt _ _) eqn:F.
    + apply flt_finite in F. specialize (B1 F).
      split.
      * rewrite length_app, (str_of_int_length 5) by exact B1. reflexivity.
      * apply Forall_app. split; [repeat constructor|].
        apply str_of_int_digits. change (10 ^ 5) with 100000 in B1. lia.
    + assert (N : ~ (e < -43 \/ e = -43 /\ Z.pos m < 8796093022208000)).
      { intros N. apply flt_finite in N. congruence. }
      specialize (B2 N). split.
      * rewrite length_app, (str_of_int_length 6) by exact B2. reflexivity.
      * apply Forall_app. split; [repeat constructor|].
        apply str_of_int_digits. change (10 ^ 6) with 1000000 in B2. lia.
Qed.

(** C2 (as the code has it): for a strike string whose [float] value lies
    between 100 and 9999.999, the stored strike field consists of exactly
    eight digit characters. *)
Theorem strike_field_has_eight_digits (U : str) (D : expiration_arg)
    (T S : str) (o : OptionSymbol.t) :
  OptionSymbol.__init__ U D T S = Ok o ->
  strike_value_between (lit "100") S (lit "9999.999") ->
  List.length (OptionSymbol.strike_price o) = 8%nat /\
  Forall (fun c => PyStr.is_digit c = true) (OptionSymbol.strike_price o).
Proof.
  intros H (l & x & h & El & Ex & Eh & Hlo & Hhi).
  rewrite float_100 in El. rewrite float_9999_999 in Eh.
  injection El as <-. injection Eh as <-.
  destruct (encode_strike_eight x (float_of_str_canonical _ _ Ex) Hlo Hhi)
    as (sp & E & L & F).
  apply init_ok in H. destruct H as (ct & ed & x' & sp' & -> & _ & _ & Hx & Hsp).
  unfold positive_strike in Hx. rewrite Ex in Hx.
  destruct (PyFloat.fle x (PyFloat.float_of_int 0)); [discriminate|].
  injection Hx as <-. rewrite E in Hsp. injection Hsp as <-.
  now split.
Qed.

Lemma strike_field_has_eight_digits_witness :
  exists o,
    OptionSymbol.__init__ (lit "QQQ") (ExpStr (lit "240420")) (lit "P") (lit "999.999")
      = Ok o /\
    List.length (OptionSymbol.strike_price o) = 8%nat /\
    Forall (fun c => PyStr.is_digit c = true) (OptionSymbol.strike_price o).
Proof.
  eexists. split; [vm_compute; reflexivity|].
  apply (strike_field_has_eight_digits (lit "QQQ") (ExpStr (lit "240420"))
           (lit "P") (lit "999.999")).
  - vm_compute. reflexivity.
  - eexists _, _, _. repeat split; vm_compute; reflexivity.
Defined.

(** ** Strike literals *)

Lemma span_spec (p : ascii -> bool) (s a b : str) :
  PyStr.span p s = (a, b) ->
  s = a ++ b /\ Forall (fun c => p c = true) a.
Proof.
  revert a b. induction s as [|c r IH]; simpl; intros a b H.
  - injection H as <- <-. now split.
  - destruct (p c) eqn:E.
    + destruct (PyStr.span p r) as [a' b'] eqn:E'. injection H as <- <-.
      destruct (IH a' b' eq_refl) as [-> F]. split; [reflexivity|].
      now constructor.
    + injection H as <- <-. now split.
Qed.

Lemma span_all (p : ascii -> bool) (s : str) :
  forallb p s = true -> PyStr.span p s = (s, []).
Proof.
  induction s as [|c r IH]; simpl; [reflexivity|].
  intros H. apply andb_true_iff in H. destruct H as [H1 H2].
  now rewrite H1, IH.
Qed.

Lemma literal_char_not (c d : ascii) :
  literal_char c -> PyStr.is_digit d = false -> d <> "."%char -> c <> d.
Proof. intros [H| ->] Hd Hp E; subst; congruence. Qed.

Lemma literal_char_no_space (c : ascii) :
  literal_char c -> PyFloat.is_space c = false.
Proof.
  intros [H| ->]; [|reflexivity]. apply is_digit_code in H.
  unfold PyFloat.is_space. lia.
Qed.

Lemma lstrip_id (s : str) :
  Forall literal_char s -> PyFloat.lstrip s = s.
Proof.
  intros H. destruct H as [|c r Hc _]; [reflexivity|].
  simpl. now rewrite literal_char_no_space.
Qed.

Lemma strip_id (s : str) : Forall literal_char s -> PyFloat.strip s = s.
Proof.
  intros H. unfold PyFloat.strip. rewrite (lstrip_id s H).
  rewrite lstrip_id by now apply Forall_rev. apply rev_involutive.
Qed.

Lemma drop_underscores_id (s : str) (prev : ascii) :
  Forall literal_char s -> prev <> "_"%char ->
  PyFloat.drop_underscores prev s = Some s.
Proof.
  intros H. revert prev. induction H as [|c r Hc _ IH]; intros prev Hp; simpl.
  - apply Ascii.eqb_neq in Hp. now rewrite Hp.
  - assert (Hn : c <> "_"%char)
      by (apply literal_char_not; [exact Hc|reflexivity|discriminate]).
    apply Ascii.eqb_neq in Hn as Hn'. apply Ascii.eqb_neq in Hp as Hp'.
    rewrite Hn', Hp'. cbn [andb]. now rewrite IH.
Qed.

Lemma sign_id (s : str) :
  Forall literal_char s -> PyFloat.sign s = (false, s).
Proof.
  intros H. destruct H as [|c r Hc _]; [reflexivity|]. unfold PyFloat.sign.
  assert (H1 : c <> "-"%char)
    by (apply literal_char_not; [exact Hc|reflexivity|discriminate]).
  assert (H2 : c <> "+"%char)
    by (apply literal_char_not; [exact Hc|reflexivity|discriminate]).
  apply Ascii.eqb_neq in H1, H2. now rewrite H1, H2.
Qed.

Lemma digits_literal (s : str) :
  Forall (fun c => PyStr.is_digit c = true) s -> Forall literal_char s.
Proof. apply Forall_impl. intros c H. now left. Qed.

(** A strike literal is a decimal literal of [float]: its characters, and
    the value [M / 10 ^ k] that [float] rounds. *)
Lemma strike_literal_shape (s : str) (M k : Z) :
  strike_literal s = Some (M, k) ->
  Forall literal_char s /\ 0 <= k <= 3 /\
  PyFloat.parse_decimal s = Some (M, - k).
Proof.
  unfold strike_literal, PyFloat.parse_decimal.
  destruct (PyStr.span PyStr.is_digit s) as [ip r] eqn:E.
  destruct (span_spec _ _ _ _ E) as [-> Hip].
  destruct r as [|c fp].
  - destruct ip as [|i ip']; [discriminate|]. intros [= <- <-].
    rewrite !app_nil_r. split; [now apply digits_literal|]. split; [lia|].
    reflexivity.
  - intros H.
    assert (H' : (if Ascii.eqb c "." && forallb PyStr.is_digit fp
                     && Nat.leb (List.length fp) 3
                     && negb (PyFloat.is_nil ip && PyFloat.is_nil fp)
                  then Some (PyStr.int_of_digits (ip ++ fp),
                             Z.of_nat (List.length fp))
                  else None) = Some (M, k))
      by (destruct ip; exact H).
    clear H.
    destruct (Ascii.eqb_spec c ".") as [->|]; [|discriminate H'].
    destruct (forallb PyStr.is_digit fp) eqn:F; [|discriminate H'].
    destruct (Nat.leb_spec (List.length fp) 3); [|discriminate H'].
    destruct (PyFloat.is_nil ip && PyFloat.is_nil fp) eqn:N; [discriminate H'|].
    injection H' as <- <-.
    rewrite (span_all _ _ F). cbn [negb].
    assert (Ffp : Forall (fun c => PyStr.is_digit c = true) fp)
      by (apply Forall_forall; now apply forallb_forall).
    split; [|split; [lia|rewrite N; reflexivity]].
    apply Forall_app. split; [now apply digits_literal|].
    constructor; [now right|now apply digits_literal].
Qed.

Lemma strike_literal_float (s : str) (M k : Z) :
  strike_literal s = Some (M, k) ->
  PyFloat.float_of_str s = Some (PyFloat.float_of_decimal false M (- k)).
Proof.
  intros H. destruct (strike_literal_shape _ _ _ H) as (F & _ & P).
  unfold PyFloat.float_of_str.
  rewrite strip_id, drop_underscores_id, sign_id, P by (assumption || discriminate).
  reflexivity.
Qed.

Lemma finish_finite (neg : bool) (q e : Z) :
  0 < q <= 2 ^ 53 -> e + 1 <= PyFloat.emax ->
  exists m e2,
    PyFloat.finish neg q e = S754_finite neg m e2 /\
    Zpos m <= 2 ^ 53 /\ e2 <= e + 1.
Proof.
  intros Hq He. unfold PyFloat.finish, PyFloat.prec, PyFloat.emax in *.
  destruct (Z.leb_spec q 0); [lia|].
  destruct (Z.eqb_spec q (2 ^ 53)) as [->|Hne]; cbn [fst snd].
  - destruct (Z.ltb_spec 971 (e + 1)); [lia|].
    eexists _, _. split; [reflexivity|]. split; [|lia].
    change (Z.pos (Z.to_pos (2 ^ (53 - 1)))) with (2 ^ 52).
    apply pow2_le; lia.
  - destruct (Z.ltb_spec 971 e); [lia|].
    eexists _, _. split; [reflexivity|]. rewrite Z2Pos.id by lia. lia.
Qed.

Lemma finish_int (neg : bool) (q e : Z) :
  e + 1 <= PyFloat.emax ->
  exists n, PyFloat.int_of_float (PyFloat.finish neg q e) = Ok n.
Proof.
  intros He. unfold PyFloat.finish, PyFloat.emax in *.
  destruct (q <=? 0); [now exists 0|].
  destruct (q =? 2 ^ PyFloat.prec); cbn [fst snd].
  - destruct (Z.ltb_spec 971 (e + 1)); [lia|]. eexists. reflexivity.
  - destruct (Z.ltb_spec 971 e); [lia|]. eexists. reflexivity.
Qed.

(** The reduced quotient of a literal below 10000 with one to three decimal
    places lies between [2 ^ 1190] and [2 ^ 1226]. *)
Lemma sticky_quotient_bounds (M d : Z) :
  0 < d <= 1000 -> 0 < M < 10000 * d ->
  2 ^ 1190 <= 2 * (M * 2 ^ PyFloat.guard / d)
              + (if M * 2 ^ PyFloat.guard mod d =? 0 then 0 else 1) < 2 ^ 1226.
Proof.
  intros Hd HM. unfold PyFloat.guard.
  assert (A : 2 ^ 1190 * 1000 <= 2 ^ 1200) by (vm_compute; discriminate).
  assert (B : 2 * (10000000 * 2 ^ 1200) + 1 < 2 ^ 1226) by (vm_compute; reflexivity).
  assert (P : 0 < 2 ^ 1200) by (apply pow2_pos; lia).
  assert (P' : 0 < 2 ^ 1190) by (apply pow2_pos; lia).
  set (G := 2 ^ 1200) in *. set (lo := 2 ^ 1190) in *. set (hi := 2 ^ 1226) in *.
  assert (Q1 : lo <= M * G / d).
  { apply Z.div_le_lower_bound; [lia|]. nia. }
  assert (Q2 : M * G / d <= 10000000 * G).
  { apply Z.div_le_upper_bound; [lia|]. nia. }
  destruct (_ =? 0); lia.
Qed.

Lemma round_dyadic_moderate (X e0 : Z) :
  0 < X -> PyFloat.emin <= Z.log2 X + e0 - 52 ->
  Z.log2 X + e0 - 52 + 1 <= 0 ->
  exists m e,
    PyFloat.round_dyadic false X e0 = S754_finite false m e /\
    Zpos m <= 2 ^ 53 /\ e <= 0.
Proof.
  intros HX Hn Hu.
  destruct (round_dyadic_spec false X e0 HX) as (q & -> & Q & N & _).
  specialize (N Hn). rewrite Z.max_l by exact Hn.
  assert (P : 0 < 2 ^ 52) by (apply pow2_pos; lia).
  destruct (finish_finite false q (Z.log2 X + e0 - 52)) as (m & e & E & B1 & B2);
    [lia|unfold PyFloat.emax; lia|].
  exists m, e. split; [exact E|]. split; [exact B1|lia].
Qed.

(** A positive literal below 10000 with at most three decimal places is
    read as a positive finite [float] of a moderate exponent. *)
Lemma literal_strike_finite (M k : Z) :
  0 <= k <= 3 -> 0 < M < 10000 * 10 ^ k ->
  exists m e,
    PyFloat.float_of_decimal false M (- k) = S754_finite false m e /\
    Zpos m <= 2 ^ 53 /\ e <= 0.
Proof.
  intros Hk HM.
  assert (C : k = 0 \/ (0 < k /\ (10 ^ k = 10 \/ 10 ^ k = 100 \/ 10 ^ k = 1000))).
  { assert (C : k = 0 \/ k = 1 \/ k = 2 \/ k = 3) by lia.
    destruct C as [ -> | [ -> | [ -> | -> ] ] ]; [now left|right..];
      (split; [lia|]); [left|right; left|right; right]; reflexivity. }
  unfold PyFloat.float_of_decimal.
  destruct C as [->|[Hk' Hd]].
  - cbn [Z.opp Z.leb Z.compare]. change (10 ^ 0) with 1 in *.
    rewrite Z.mul_1_r in *.
    assert (L : Z.log2 M < 14)
      by (apply Z.log2_lt_pow2; [lia|]; change (2 ^ 14) with 16384; lia).
    pose proof (Z.log2_nonneg M).
    apply round_dyadic_moderate; unfold PyFloat.emin; lia.
  - destruct (Z.leb_spec 0 (- k)); [lia|]. rewrite Z.opp_involutive.
    destruct (sticky_quotient_bounds M (10 ^ k)) as [B1 B2]; [lia|lia|].
    set (X := 2 * (M * 2 ^ PyFloat.guard / 10 ^ k) + _) in *.
    assert (0 < 2 ^ 1190) by (apply pow2_pos; lia).
    assert (L1 : 1190 <= Z.log2 X) by (apply Z.log2_le_pow2; lia).
    assert (L2 : Z.log2 X < 1226) by (apply Z.log2_lt_pow2; lia).
    apply round_dyadic_moderate; unfold PyFloat.emin, PyFloat.guard; lia.
Qed.

Lemma log2_mul_bound (a b : Z) :
  0 < a <= 2 ^ 53 -> 0 < b <= 2 ^ 53 -> Z.log2 (a * b) < 107.
Proof.
  intros Ha Hb. apply Z.log2_lt_pow2; [nia|].
  change (2 ^ 107) with (2 * (2 ^ 53 * 2 ^ 53)).
  assert (0 < 2 ^ 53) by (apply pow2_pos; lia). nia.
Qed.

(** The strike field exists for every positive finite strike of a moderate
    exponent: the product with 1000 does not overflow. *)
Lemma encode_strike_moderate (m : positive) (e : Z) :
  Zpos m <= 2 ^ 53 -> e <= 0 ->
  exists sp, encode_strike (S754_finite false m e) = Ok sp.
Proof.
  intros Hm He. unfold encode_strike. rewrite float_1000.
  unfold PyFloat.fmul. cbn [xorb].
  assert (P : 0 < Zpos m * 8796093022208000) by lia.
  destruct (round_dyadic_spec false _ (e + -43) P) as (q & -> & _).
  pose proof (log2_mul_bound (Zpos m) 8796093022208000 ltac:(lia)
                ltac:(change (2 ^ 53) with 9007199254740992; lia)) as L.
  destruct (finish_int false q
              (Z.max (Z.log2 (Zpos m * 8796093022208000) + (e + -43) - 52)
                     PyFloat.emin)) as (n & ->).
  { unfold PyFloat.emax, PyFloat.emin. lia. }
  cbn [bind]. eexists. reflexivity.
Qed.

Lemma literal_strike_positive (S : str) :
  strike_in_range S ->
  exists x sp, positive_strike S = Some x /\ encode_strike x = Ok sp.
Proof.
  intros (M & k & HL & HM).
  destruct (strike_literal_shape _ _ _ HL) as (_ & Hk & _).
  destruct (literal_strike_finite M k Hk HM) as (m & e & E & Bm & Be).
  destruct (encode_strike_moderate m e Bm Be) as (sp & Hsp).
  exists (S754_finite false m e), sp. split; [|exact Hsp].
  unfold positive_strike. rewrite (strike_literal_float _ _ _ HL), E.
  reflexivity.
Qed.

Lemma literal_no (S : str) (c : ascii) :
  strike_in_range S -> PyStr.is_digit c = false -> c <> "."%char -> ~ In c S.
Proof.
  intros (M & k & HL & _) Hc Hp Hin.
  destruct (strike_literal_shape _ _ _ HL) as (F & _).
  rewrite Forall_forall in F. specialize (F c Hin).
  now apply (literal_char_not c c F Hc Hp).
Qed.

Lemma digits_no (s : str) (c : ascii) :
  Forall (fun c => PyStr.is_digit c = true) s -> PyStr.is_digit c = false ->
  ~ In c s.
Proof.
  intros F Hc Hin. rewrite Forall_forall in F. specialize (F c Hin). congruence.
Qed.

(** C3: for an underlying without underscore, a valid date, a contract type
    'P' or 'C' and a strike literal of at most three decimal places with
    [0 < S < 10000], [parse_symbol] applied to the decode-grammar string
    yields the OptionSymbol that the constructor yields for the same four
    parts: same underlying, expiration date, contract type and strike
    field. *)
Theorem decode_grammar_round_trip (U : str) (D : date) (T S : str) :
  ~ In "_"%char U ->
  valid_date D = true ->
  T = lit "P" \/ T = lit "C" ->
  strike_in_range S ->
  exists o,
    OptionSymbol.parse_symbol (U ++ lit "_" ++ strftime_yymmdd D ++ T ++ S) = Ok o /\
    OptionSymbol.__init__ U (ExpStr (strftime_yymmdd D)) T S = Ok o /\
    o = OptionSymbol.mk U T (mkdate (pivot_year (year D)) (month D) (day D))
          (OptionSymbol.strike_price o).
Proof.
  intros HU HD HT HS.
  destruct (literal_strike_positive S HS) as (x & sp & Hx & Hsp).
  pose proof (strftime_parses D HD) as Hp.
  pose proof (strftime_digits D) as Fd.
  set (d' := mkdate (pivot_year (year D)) (month D) (day D)) in *.
  exists (OptionSymbol.mk U T d' sp).
  assert (N : normalize_contract_type T = Ok T)
    by (destruct HT as [->| ->]; reflexivity).
  assert (I1 : OptionSymbol.__init__ U (ExpDate d') T S
               = Ok (OptionSymbol.mk U T d' sp))
    by (apply (init_intro U (ExpDate d') T S T d' x sp); auto).
  assert (I2 : OptionSymbol.__init__ U (ExpStr (strftime_yymmdd D)) T S
               = Ok (OptionSymbol.mk U T d' sp))
    by (apply (init_intro _ _ T S T d' x sp); auto).
  split; [|split; [exact I2|reflexivity]].
  assert (E1 : PyStr.split "_" (U ++ lit "_" ++ strftime_yymmdd D ++ T ++ S)
               = [U; strftime_yymmdd D ++ T ++ S]).
  { apply split_once; [exact HU|]. rewrite !in_app_iff. intros [H|[H|H]].
    - revert H. now apply digits_no.
    - destruct HT as [->| ->]; cbn in H; destruct H as [H|[]]; discriminate H.
    - revert H. apply literal_no; [exact HS|reflexivity|discriminate]. }
  destruct HT as [->| ->].
  - rewrite (parse_symbol_put _ _ _ (strftime_yymmdd D) S E1).
    + rewrite Hp. exact I1.
    + apply (split_once "P"); [now apply digits_no|].
      apply literal_no; [exact HS|reflexivity|discriminate].
  - rewrite (parse_symbol_call _ _ _ (strftime_yymmdd D) S E1).
    + rewrite Hp. exact I1.
    + rewrite split_absent; [discriminate|].
      rewrite !in_app_iff. intros [H|[H|H]].
      * revert H. now apply digits_no.
      * cbn in H. destruct H as [H|[]]. discriminate H.
      * revert H. apply literal_no; [exact HS|reflexivity|discriminate].
    + apply (split_once "C"); [now apply digits_no|].
      apply literal_no; [exact HS|reflexivity|discriminate].
Qed.

(** The round trip on [QQQ_240420P999.999]. *)
Lemma decode_grammar_round_trip_witness :
  exists o,
    OptionSymbol.parse_symbol (lit "QQQ_240420P999.999") = Ok o /\
    OptionSymbol.__init__ (lit "QQQ") (ExpStr (lit "240420")) (lit "P") (lit "999.999")
      = Ok o /\
    OptionSymbol.build o = lit "QQQ  240420P00999999".
Proof.
  destruct (decode_grammar_round_trip (lit "QQQ") (mkdate 2024 4 20) (lit "P")
              (lit "999.999")) as (o & H1 & H2 & H3).
  - cbn. intros [H|[H|[H|[]]]]; discriminate H.
  - reflexivity.
  - now left.
  - exists 999999, 3. split; [vm_compute; reflexivity|]. split; reflexivity.
  - exists o. split; [exact H1|]. split; [exact H2|].
    vm_compute in H2. injection H2 as <-. vm_compute. reflexivity.
Defined.

(** * Further properties *)

(** ** More on expiration dates *)

Lemma hd_error_in {A} (l : list A) (x : A) : hd_error l = Some x -> In x l.
Proof. destruct l; [discriminate|]. intros [= ->]. now left. Qed.

(** Each directive consumes one or two characters. *)
Lemma match_m_consumes (s r : str) (v : Z) :
  In (v, r) (match_m s) ->
  (List.length s = 1 + List.length r \/ List.length s = 2 + List.length r)%nat.
Proof.
  unfold match_m. rewrite !in_app_iff.
  destruct s as [|c1 [|c2 t]]; cbn [In];
    repeat match goal with
      | |- context [if ?b then _ else _] => destruct b
      end; cbn [In List.length]; intros H;
    repeat match type of H with
      | _ \/ _ => destruct H as [H|H]
      | False => destruct H
      | (_, _) = (_, _) => injection H as <- <-
      end; cbn [List.length]; lia.
Qed.

Lemma match_d_consumes (s r : str) (v : Z) :
  In (v, r) (match_d s) ->
  (List.length s = 1 + List.length r \/ List.length s = 2 + List.length r)%nat.
Proof.
  unfold match_d. rewrite !in_app_iff.
  destruct s as [|c1 [|c2 t]]; cbn [In];
    repeat match goal with
      | |- context [if ?b then _ else _] => destruct b
      end; cbn [In List.length]; intros H;
    repeat match type of H with
      | _ \/ _ => destruct H as [H|H]
      | False => destruct H
      | (_, _) = (_, _) => injection H as <- <-
      end; cbn [List.length]; lia.
Qed.

Lemma match_y_consumes (s r : str) (v : Z) :
  In (v, r) (match_y s) ->
  0 <= v <= 99 /\ List.length s = (2 + List.length r)%nat.
Proof.
  unfold match_y. destruct s as [|c1 [|c2 t]]; try (intros []).
  destruct (PyStr.is_digit c1) eqn:D1; [|intros []].
  destruct (PyStr.is_digit c2) eqn:D2; [|intros []].
  intros [E|[]]. apply pair_equal_spec in E. destruct E as [<- <-].
  apply is_digit_code in D1, D2. unfold PyStr.digit_val.
  split; [lia|reflexivity].
Qed.

Lemma regex_match_consumes (s rest : str) (y m d : Z) :
  regex_match s = Some (y, m, d, rest) ->
  0 <= y <= 99 /\
  (4 + List.length rest <= List.length s <= 6 + List.length rest)%nat.
Proof.
  intros H. apply hd_error_in in H. unfold regex_match in H.
  apply in_flat_map in H. destruct H as ([y' r1] & Hy & H).
  apply in_flat_map in H. destruct H as ([m' r2] & Hm & H).
  apply in_map_iff in H. destruct H as ([d' r3] & E & Hd).
  injection E as <- <- <- <-.
  apply match_y_consumes in Hy. apply match_m_consumes in Hm.
  apply match_d_consumes in Hd. cbn [fst snd] in *. lia.
Qed.

(** What [_parse_expiration_date] returns is a date of the calendar, of a
    year the two-digit pivot reaches. *)
Lemma parse_date_calendar (s : str) (d : date) :
  _parse_expiration_date s = Ok d ->
  valid_date d = true /\ 1969 <= year d <= 2068.
Proof.
  unfold _parse_expiration_date, strptime_yymmdd.
  destruct (regex_match s) as [[[[y m] a] rest]|] eqn:E; [|discriminate].
  apply regex_match_consumes in E. destruct E as [Hy Hl].
  destruct rest; [|discriminate].
  destruct (valid_ymd _ m a) eqn:V; [|discriminate].
  intros [= <-]. unfold valid_date. cbn [year month day].
  split; [exact V|]. destruct (Z.leb_spec y 68); lia.
Qed.

(** It is read from four to six characters. *)
Lemma parse_date_length (s : str) (d : date) :
  _parse_expiration_date s = Ok d -> (4 <= List.length s <= 6)%nat.
Proof.
  unfold _parse_expiration_date, strptime_yymmdd.
  destruct (regex_match s) as [[[[y m] a] rest]|] eqn:E; [|discriminate].
  apply regex_match_consumes in E. destruct E as [Hy Hl].
  destruct rest; [|discriminate]. cbn [List.length] in Hl. intros _. lia.
Qed.

(** X1: a date [_parse_expiration_date] returns is a valid calendar date
    between 1969 and 2068, and the string it was read from has four to six
    characters. *)
Theorem parsed_dates_are_valid (s : str) (d : date) :
  _parse_expiration_date s = Ok d ->
  valid_date d = true /\ 1969 <= year d <= 2068 /\
  (4 <= List.length s <= 6)%nat.
Proof.
  intros H. destruct (parse_date_calendar s d H) as [V W].
  split; [exact V|]. split; [exact W|].
  exact (parse_date_length s d H).
Qed.

Lemma parsed_dates_are_valid_witness :
  valid_date (mkdate 2024 4 20) = true /\ 1969 <= 2024 <= 2068 /\
  (4 <= List.length (lit "24420") <= 6)%nat.
Proof.
  apply (parsed_dates_are_valid (lit "24420") (mkdate 2024 4 20)). reflexivity.
Defined.

Lemma pivot_year_fixed (y : Z) : pivot_year y = y <-> 1969 <= y <= 2068.
Proof. unfold pivot_year. destruct (Z.leb_spec (y mod 100) 68); zlia. Qed.

(** X2: the date field [build] writes for a valid date parses back to the
    same date exactly when the year lies between 1969 and 2068; for every
    valid date it parses to the same month and day in the year of that
    window with the same last two digits. *)
Theorem formatted_date_reparses_in_window (d : date) :
  valid_date d = true ->
  (_parse_expiration_date (strftime_yymmdd d) = Ok d <-> 1969 <= year d <= 2068) /\
  exists d', _parse_expiration_date (strftime_yymmdd d) = Ok d' /\
             month d' = month d /\ day d' = day d /\
             1969 <= year d' <= 2068 /\ (year d' - year d) mod 100 = 0.
Proof.
  intros V. rewrite (strftime_parses d V). split.
  - rewrite <- pivot_year_fixed. destruct d as [y m a]. cbn [year month day].
    split; [intros [= E]; exact E|intros ->; reflexivity].
  - eexists. split; [reflexivity|]. cbn [year month day].
    repeat split; try (unfold pivot_year; destruct (Z.leb_spec (year d mod 100) 68); zlia).
Qed.

Lemma formatted_date_reparses_in_window_witness :
  exists d',
    _parse_expiration_date (strftime_yymmdd (mkdate 2124 4 20)) = Ok d' /\
    month d' = 4 /\ day d' = 20 /\
    1969 <= year d' <= 2068 /\ (year d' - 2124) mod 100 = 0.
Proof.
  exact (proj2 (formatted_date_reparses_in_window (mkdate 2124 4 20) eq_refl)).
Defined.

(** X3: a date read from a string, written with [strftime] as [build]
    does and read again, is the same date, and what is written is in the
    strict six-digit form even when the string read was not. *)
Theorem parse_format_parse (s : str) (d : date) :
  _parse_expiration_date s = Ok d ->
  _parse_expiration_date (strftime_yymmdd d) = Ok d /\
  strict_yymmdd (strftime_yymmdd d) = Some d.
Proof.
  intros H. destruct (parse_date_calendar s d H) as (V & W).
  pose proof (strftime_is_strict d V) as S.
  assert (E : mkdate (pivot_year (year d)) (month d) (day d) = d).
  { destruct d as [y m a]. cbn [year month day] in *.
    now rewrite (proj2 (pivot_year_fixed y) W). }
  rewrite E in S. split; [|exact S]. now apply strict_dates_parse.
Qed.

Lemma parse_format_parse_witness :
  strftime_yymmdd (mkdate 2024 4 5) = lit "240405" /\
  _parse_expiration_date (lit "240405") = Ok (mkdate 2024 4 5).
Proof.
  split; [reflexivity|].
  apply (parse_format_parse (lit "2404 5") (mkdate 2024 4 5)). reflexivity.
Defined.

(** ** The order of validation *)

Lemma expiration_of_kind (D : expiration_arg) (e : exn) :
  expiration_of D = Raise e -> kind_of e = Some InvalidDateFormat.
Proof.
  destruct D as [s|dt|d|]; cbn [expiration_of]; try discriminate.
  - unfold _parse_expiration_date. destruct (strptime_yymmdd s); [discriminate|].
    now intros [= <-].
  - now intros [= <-].
Qed.

Lemma encode_strike_kind (x : PyFloat.float) (e : exn) :
  encode_strike x = Raise e -> kind_of e = None.
Proof.
  unfold encode_strike.
  destruct (PyFloat.fmul x (PyFloat.float_of_int 1000)); cbn;
    try discriminate; now intros [= <-].
Qed.

Lemma encode_strike_one :
  positive_strike (lit "1") = Some (PyFloat.float_of_int 1) /\
  encode_strike (PyFloat.float_of_int 1) = Ok (lit "001000").
Proof. split; vm_compute; reflexivity. Qed.

(** The steps a failure of [__init__] comes from, by its kind. *)
Lemma init_failure_steps (U : str) (D : expiration_arg) (T S : str) (k : error_kind) :
  fails_with (OptionSymbol.__init__ U D T S) k ->
  match k with
  | InvalidContractType => exists e, normalize_contract_type T = Raise e
  | InvalidDateFormat =>
      exists ct e, normalize_contract_type T = Ok ct /\ expiration_of D = Raise e
  | InvalidStrike =>
      exists ct ed, normalize_contract_type T = Ok ct /\ expiration_of D = Ok ed /\
                    positive_strike S = None
  | InvalidSymbolFormat => False
  end.
Proof.
  intros (e & E & K). rewrite init_steps in E.
  destruct (normalize_contract_type T) as [ct|e1] eqn:N; cbn [bind] in E.
  - destruct (expiration_of D) as [ed|e2] eqn:X; cbn [bind] in E.
    + destruct (positive_strike S) as [x|] eqn:P; cbn [bind] in E.
      * destruct (encode_strike x) as [sp|e3] eqn:C; cbn [bind] in E;
          [discriminate|]. injection E as <-.
        rewrite (encode_strike_kind _ _ C) in K. discriminate K.
      * injection E as <-. cbn in K. injection K as <-. now exists ct, ed.
    + injection E as <-. rewrite (expiration_of_kind _ _ X) in K.
      injection K as <-. now exists ct, e2.
  - injection E as <-. unfold normalize_contract_type in N.
    destruct (_ || _); [discriminate|]. destruct (_ || _); [discriminate|].
    injection N as <-. cbn in K. injection K as <-. eexists. reflexivity.
Qed.

(** X4: [__init__] validates the contract type, then the expiration date,
    then the strike. A contract-type failure does not depend on the other
    arguments, a date failure does not depend on underlying and strike, a
    strike failure means that the other arguments are accepted, and
    [__init__] never fails with InvalidSymbolFormat. *)
Theorem validation_order (U : str) (D : expiration_arg) (T S : str) :
  (fails_with (OptionSymbol.__init__ U D T S) InvalidContractType ->
   forall U' D' S',
     fails_with (OptionSymbol.__init__ U' D' T S') InvalidContractType) /\
  (fails_with (OptionSymbol.__init__ U D T S) InvalidDateFormat ->
   forall U' S',
     fails_with (OptionSymbol.__init__ U' D T S') InvalidDateFormat) /\
  (fails_with (OptionSymbol.__init__ U D T S) InvalidStrike ->
   exists o, OptionSymbol.__init__ U D T (lit "1") = Ok o) /\
  ~ fails_with (OptionSymbol.__init__ U D T S) InvalidSymbolFormat.
Proof.
  split; [|split; [|split]]; intros F; apply init_failure_steps in F.
  - destruct F as (e & N). intros U' D' S'. rewrite init_steps, N. cbn [bind].
    unfold normalize_contract_type in N.
    destruct (_ || _); [discriminate|]. destruct (_ || _); [discriminate|].
    injection N as <-. eexists. split; reflexivity.
  - destruct F as (ct & e & N & X). intros U' S'.
    rewrite init_steps, N, X. cbn [bind].
    exists e. split; [reflexivity|]. now apply (expiration_of_kind D).
  - destruct F as (ct & ed & N & X & _). destruct encode_strike_one as [P C].
    eexists. now apply (init_intro U D T (lit "1") ct ed _ _ N X P C).
  - exact F.
Qed.

Lemma validation_order_witness :
  fails_with (OptionSymbol.__init__ (lit "") (ExpStr (lit "")) (lit "X") (lit ""))
    InvalidContractType /\
  fails_with (OptionSymbol.__init__ (lit "") (ExpStr (lit "991301")) (lit "C") (lit ""))
    InvalidDateFormat /\
  exists o, OptionSymbol.__init__ (lit "QQQ") (ExpStr (lit "240420")) (lit "C") (lit "1")
            = Ok o.
Proof.
  split; [|split].
  - apply (validation_order (lit "QQQ") (ExpStr (lit "240420")) (lit "X") (lit "500")).
    eexists. split; vm_compute; reflexivity.
  - apply (validation_order (lit "QQQ") (ExpStr (lit "991301")) (lit "C") (lit "500")).
    eexists. split; vm_compute; reflexivity.
  - apply (validation_order (lit "QQQ") (ExpStr (lit "240420")) (lit "C") (lit "-5")).
    eexists. split; vm_compute; reflexivity.
Defined.

(** ** Strikes that are not finite *)

Lemma init_ok_others (U : str) (D : expiration_arg) (T S : str) (o : OptionSymbol.t) :
  OptionSymbol.__init__ U D T S = Ok o ->
  exists ct ed, normalize_contract_type T = Ok ct /\ expiration_of D = Ok ed.
Proof.
  intros H. apply init_ok in H. destruct H as (ct & ed & x & sp & _ & N & X & _).
  now exists ct, ed.
Qed.

(** X5: when the other arguments are accepted, a strike that [float] reads
    as NaN is not rejected as a strike: the constructor raises the
    ValueError of [int(nan)]; a strike above zero whose product with 1000
    is infinite raises OverflowError; a strike that is not above zero
    fails with InvalidStrike. *)
Theorem non_finite_strikes_escape (U : str) (D : expiration_arg) (T S : str)
    (o : OptionSymbol.t) (x : PyFloat.float) :
  OptionSymbol.__init__ U D T (lit "1") = Ok o ->
  PyFloat.float_of_str S = Some x ->
  (x = S754_nan ->
   OptionSymbol.__init__ U D T S
   = Raise (ValueError "cannot convert float NaN to integer")) /\
  (PyFloat.fle x (PyFloat.float_of_int 0) = false ->
   PyFloat.fmul x (PyFloat.float_of_int 1000) = S754_infinity false ->
   OptionSymbol.__init__ U D T S
   = Raise (OverflowError "cannot convert float infinity to integer")) /\
  (PyFloat.fle x (PyFloat.float_of_int 0) = true ->
   fails_with (OptionSymbol.__init__ U D T S) InvalidStrike).
Proof.
  intros H0 Hx. destruct (init_ok_others _ _ _ _ _ H0) as (ct & ed & N & X).
  rewrite init_steps, N, X. cbn [bind]. unfold positive_strike. rewrite Hx.
  split; [|split].
  - intros ->. reflexivity.
  - intros -> E. cbn [bind]. unfold encode_strike. rewrite E. reflexivity.
  - intros ->. eexists. split; reflexivity.
Qed.

Lemma non_finite_strikes_escape_witness :
  OptionSymbol.__init__ (lit "QQQ") (ExpStr (lit "240420")) (lit "P") (lit "NaN")
  = Raise (ValueError "cannot convert float NaN to integer") /\
  OptionSymbol.__init__ (lit "QQQ") (ExpStr (lit "240420")) (lit "P") (lit "1e306")
  = Raise (OverflowError "cannot convert float infinity to integer") /\
  fails_with
    (OptionSymbol.__init__ (lit "QQQ") (ExpStr (lit "240420")) (lit "P") (lit "-inf"))
    InvalidStrike.
Proof.
  assert (H0 : OptionSymbol.__init__ (lit "QQQ") (ExpStr (lit "240420")) (lit "P")
                 (lit "1")
               = Ok (OptionSymbol.mk (lit "QQQ") (lit "P") (mkdate 2024 4 20)
                       (lit "001000")))
    by (vm_compute; reflexivity).
  split; [|split].
  - assert (Hx : PyFloat.float_of_str (lit "NaN") = Some S754_nan)
      by (vm_compute; reflexivity).
    exact (proj1 (non_finite_strikes_escape _ _ _ _ _ _ H0 Hx) eq_refl).
  - assert (Hx : PyFloat.float_of_str (lit "1e306")
                 = Some (S754_finite false 6413338752028713 964))
      by (vm_compute; reflexivity).
    apply (proj1 (proj2 (non_finite_strikes_escape _ _ _ _ _ _ H0 Hx)));
      vm_compute; reflexivity.
  - assert (Hx : PyFloat.float_of_str (lit "-inf") = Some (S754_infinity true))
      by (vm_compute; reflexivity).
    exact (proj2 (proj2 (non_finite_strikes_escape _ _ _ _ _ _ H0 Hx)) eq_refl).
Defined.

(** ** Invariants of constructed symbols *)

Lemma digits_of_nonempty (fuel : nat) (n : Z) (acc : str) :
  PyStr.digits_of (S fuel) n acc <> [].
Proof.
  assert (G : forall f k a, a <> [] -> PyStr.digits_of f k a <> []).
  { induction f as [|f IH]; intros k a Ha; [exact Ha|]. simpl.
    destruct (k <? 10); [discriminate|]. apply IH. discriminate. }
  simpl. destruct (n <? 10); [discriminate|]. apply G. discriminate.
Qed.

Lemma str_of_int_nonempty (n : Z) : PyStr.str_of_int n <> [].
Proof.
  unfold PyStr.str_of_int. destruct (n <? 0); [discriminate|].
  apply digits_of_nonempty.
Qed.

Lemma Ok_inj {A} (a b : A) : Ok a = Ok b -> a = b.
Proof. congruence. Qed.

Lemma int_of_float_nonneg (x : PyFloat.float) (n : Z) :
  match x with S754_finite true _ _ => False | _ => True end ->
  PyFloat.int_of_float x = Ok n -> 0 <= n.
Proof.
  destruct x as [s|s| |s m e]; try discriminate.
  - intros _ E. cbn in E. apply Ok_inj in E. lia.
  - destruct s; [intros []|]. intros _ E. unfold PyFloat.int_of_float in E.
    apply Ok_inj in E. subst n. destruct (Z.leb_spec 0 e).
    + apply Z.mul_nonneg_nonneg; [lia|]. apply Z.pow_nonneg. lia.
    + apply Z.div_pos; [lia|]. apply Z.pow_pos_nonneg; lia.
Qed.

Lemma finish_sign (q e : Z) :
  match PyFloat.finish false q e with S754_finite true _ _ => False | _ => True end.
Proof.
  unfold PyFloat.finish. destruct (q <=? 0); [exact I|].
  destruct (PyFloat.emax <? _); exact I.
Qed.

Lemma finish_int_nonneg (q e n : Z) :
  PyFloat.int_of_float (PyFloat.finish false q e) = Ok n -> 0 <= n.
Proof. apply int_of_float_nonneg, finish_sign. Qed.

(** The truncated product of a strike above zero is not negative. *)
Lemma encode_strike_nonneg (S : str) (x : PyFloat.float) (n : Z) :
  positive_strike S = Some x ->
  PyFloat.int_of_float (PyFloat.fmul x (PyFloat.float_of_int 1000)) = Ok n ->
  0 <= n.
Proof.
  unfold positive_strike.
  destruct (PyFloat.float_of_str S) as [y|]; [|discriminate].
  destruct (PyFloat.fle y (PyFloat.float_of_int 0)) eqn:F; [discriminate|].
  intros [= ->]. rewrite float_1000.
  destruct x as [s|s| |s m e]; try discriminate.
  destruct s; [discriminate F|].
  unfold PyFloat.fmul. cbn [xorb].
  destruct (round_dyadic_spec false (Zpos m * 8796093022208000) (e + -43))
    as (q & -> & _); [lia|].
  apply finish_int_nonneg.
Qed.

(** The stored contract type is one of the two letters, and the strike
    field a zero followed by at least one digit. *)
Lemma init_shape (U : str) (D : expiration_arg) (T S : str) (o : OptionSymbol.t) :
  OptionSymbol.__init__ U D T S = Ok o ->
  (OptionSymbol.contract_type o = lit "C" \/ OptionSymbol.contract_type o = lit "P") /\
  (exists rest,
     OptionSymbol.strike_price o = "0"%char :: rest /\ rest <> [] /\
     Forall (fun c => PyStr.is_digit c = true) rest).
Proof.
  intros H. apply init_ok in H.
  destruct H as (ct & ed & x & sp & -> & N & X & P & C).
  cbn [OptionSymbol.contract_type OptionSymbol.strike_price].
  split.
  { apply normalize_contract_type_ok in N. destruct N as [[_ ->]|[_ ->]]; auto. }
  apply encode_strike_ok in C. destruct C as (n & I & ->).
  pose proof (encode_strike_nonneg _ _ _ P I) as Hn.
  pose proof (str_of_int_digits n Hn) as Fd.
  pose proof (str_of_int_nonempty n) as Ne.
  destruct (PyFloat.flt x (PyFloat.float_of_int 1000)).
  - exists ("0"%char :: PyStr.str_of_int n). split; [reflexivity|].
    split; [discriminate|]. now constructor.
  - exists (PyStr.str_of_int n). now split.
Qed.

(** X6: a constructed symbol stores the underlying as given, a contract
    type 'C' or 'P', and a strike field that is a '0' followed by at least
    one more character, all digits; the underlying is not validated: the
    same construction succeeds with any other underlying. *)
Theorem constructed_symbol_invariants (U : str) (D : expiration_arg) (T S : str)
    (o : OptionSymbol.t) :
  OptionSymbol.__init__ U D T S = Ok o ->
  OptionSymbol.underlying_symbol o = U /\
  (OptionSymbol.contract_type o = lit "C" \/ OptionSymbol.contract_type o = lit "P") /\
  (exists rest,
     OptionSymbol.strike_price o = "0"%char :: rest /\ rest <> [] /\
     Forall (fun c => PyStr.is_digit c = true) rest) /\
  (forall U', OptionSymbol.__init__ U' D T S
              = Ok (OptionSymbol.mk U' (OptionSymbol.contract_type o)
                      (OptionSymbol.expiration_date o) (OptionSymbol.strike_price o))).
Proof.
  intros H. destruct (init_shape _ _ _ _ _ H) as (Hct & Hsp).
  apply init_ok in H.
  destruct H as (ct & ed & x & sp & -> & N & X & P & C).
  cbn [OptionSymbol.underlying_symbol OptionSymbol.contract_type
       OptionSymbol.expiration_date OptionSymbol.strike_price] in *.
  split; [reflexivity|]. split; [exact Hct|]. split; [exact Hsp|].
  intros U'. now apply (init_intro U' D T S ct ed x sp).
Qed.

Lemma constructed_symbol_invariants_witness :
  exists o,
    OptionSymbol.__init__ (lit "") (ExpDate (mkdate 2024 4 20)) (lit "PUT") (lit "1e-9")
      = Ok o /\
    OptionSymbol.underlying_symbol o = lit "" /\
    (OptionSymbol.contract_type o = lit "C" \/ OptionSymbol.contract_type o = lit "P") /\
    OptionSymbol.strike_price o = lit "000".
Proof.
  eexists. split; [vm_compute; reflexivity|].
  destruct (constructed_symbol_invariants (lit "") (ExpDate (mkdate 2024 4 20))
              (lit "PUT") (lit "1e-9") _ ltac:(vm_compute; reflexivity))
    as (H1 & H2 & _).
  split; [exact H1|]. split; [exact H2|]. reflexivity.
Defined.

(** ** What [parse_symbol] accepts *)

Lemma split_pieces (sep : ascii) (s : str) :
  Forall (fun p => ~ In sep p) (PyStr.split sep s).
Proof.
  induction s as [|c r IH]; simpl; [repeat constructor; intros []|].
  destruct (Ascii.eqb_spec c sep) as [->|Hne].
  - constructor; [intros []|exact IH].
  - destruct (PyStr.split sep r) as [|p ps]; [repeat constructor; intros [?|[]]; congruence|].
    inversion IH as [|? ? Hp Hps]; subst. constructor; [|exact Hps].
    intros [?|?]; [congruence|tauto].
Qed.

Lemma split_two_inv (sep : ascii) (s a b : str) :
  PyStr.split sep s = [a; b] ->
  s = a ++ sep :: b /\ ~ In sep a /\ ~ In sep b.
Proof.
  intros E. pose proof (split_pieces sep s) as F. rewrite E in F.
  inversion F as [|? ? Ha F']; subst. inversion F' as [|? ? Hb _]; subst.
  split; [|now split]. clear F F' Ha Hb. revert a E.
  induction s as [|c r IH]; simpl; intros a E; [discriminate|].
  destruct (Ascii.eqb_spec c sep) as [->|Hne].
  - injection E as <- E. pose proof (split_length sep r) as L.
    rewrite E in L. simpl in L.
    assert (C : PyStr.count sep r = 0%nat) by lia.
    unfold PyStr.count in C. rewrite <- count_occ_not_In in C.
    rewrite (split_absent sep r C) in E. now injection E as ->.
  - destruct (PyStr.split sep r) as [|p ps] eqn:E'; [discriminate|].
    injection E as <- ->. simpl. f_equal. now apply IH.
Qed.

(** The three ways [parse_symbol] returns a symbol or an error after the
    underscore. *)
Lemma parse_symbol_ok (s : str) (o : OptionSymbol.t) :
  OptionSymbol.parse_symbol s = Ok o ->
  exists u a b t d,
    (t = "P"%char \/ t = "C"%char) /\
    s = u ++ "_"%char :: a ++ t :: b /\
    ~ In "_"%char u /\ ~ In "_"%char (a ++ t :: b) /\ ~ In t a /\ ~ In t b /\
    _parse_expiration_date a = Ok d /\
    OptionSymbol.__init__ u (ExpDate d) [t] b = Ok o.
Proof.
  intros H.
  destruct (Nat.eq_dec (PyStr.count "_" s) 1) as [C|C];
    [|rewrite parse_symbol_missing_underscore in H by exact C; discriminate].
  apply split_two_count in C. destruct C as (u & rest & E1).
  destruct (split_two_inv _ _ _ _ E1) as (-> & Hu & Hrest).
  destruct (Nat.eq_dec (List.length (PyStr.split "P" rest)) 2) as [LP|LP].
  - destruct (PyStr.split "P" rest) as [|a [|b [|? ?]]] eqn:E2;
      try discriminate LP.
    rewrite (parse_symbol_put _ _ _ _ _ E1 E2) in H.
    destruct (split_two_inv _ _ _ _ E2) as (-> & Ha & Hb).
    destruct (_parse_expiration_date a) as [d|] eqn:Ed; [|discriminate H].
    exists u, a, b, "P"%char, d. cbn [bind] in H. repeat split; auto.
  - destruct (Nat.eq_dec (List.length (PyStr.split "C" rest)) 2) as [LC|LC];
      [|rewrite (parse_symbol_no_type _ _ _ E1 LP LC) in H; discriminate].
    destruct (PyStr.split "C" rest) as [|a [|b [|? ?]]] eqn:E2;
      try discriminate LC.
    rewrite (parse_symbol_call _ _ _ _ _ E1 LP E2) in H.
    destruct (split_two_inv _ _ _ _ E2) as (-> & Ha & Hb).
    destruct (_parse_expiration_date a) as [d|] eqn:Ed; [|discriminate H].
    exists u, a, b, "C"%char, d. cbn [bind] in H. repeat split; auto.
Qed.

(** X8: a string [parse_symbol] accepts is the underlying, an underscore,
    a date text, the letter 'P' or 'C' and a strike text; the underlying
    holds no underscore, the date text has four to six characters and
    parses to the stored date, a valid date between 1969 and 2068, and the
    symbol is the one the constructor returns for these parts. *)
Theorem parsed_symbol_invariants (s : str) (o : OptionSymbol.t) :
  OptionSymbol.parse_symbol s = Ok o ->
  exists date_text strike_text,
    s = OptionSymbol.underlying_symbol o ++ lit "_" ++ date_text
          ++ OptionSymbol.contract_type o ++ strike_text /\
    ~ In "_"%char (OptionSymbol.underlying_symbol o) /\
    (OptionSymbol.contract_type o = lit "P" \/ OptionSymbol.contract_type o = lit "C") /\
    _parse_expiration_date date_text = Ok (OptionSymbol.expiration_date o) /\
    valid_date (OptionSymbol.expiration_date o) = true /\
    1969 <= year (OptionSymbol.expiration_date o) <= 2068 /\
    (4 <= List.length date_text <= 6)%nat /\
    OptionSymbol.__init__ (OptionSymbol.underlying_symbol o)
      (ExpDate (OptionSymbol.expiration_date o)) (OptionSymbol.contract_type o)
      strike_text = Ok o.
Proof.
  intros H. apply parse_symbol_ok in H.
  destruct H as (u & a & b & t & d & Ht & -> & Hu & _ & _ & _ & Hd & Hi).
  destruct (parse_date_calendar _ _ Hd) as (V & W).
  pose proof (parse_date_length _ _ Hd) as L.
  apply init_ok in Hi as Hi'.
  destruct Hi' as (ct & ed & x & sp & -> & N & X & _).
  cbn [OptionSymbol.underlying_symbol OptionSymbol.contract_type
       OptionSymbol.expiration_date] in *.
  injection X as <-.
  assert (E : ct = [t]).
  { destruct Ht as [->| ->]; cbn in N; now injection N as <-. }
  subst ct. exists a, b. split; [reflexivity|]. split; [exact Hu|].
  split; [destruct Ht as [->| ->]; auto|]. repeat split; auto; lia.
Qed.

Lemma parsed_symbol_invariants_witness :
  exists o date_text strike_text,
    OptionSymbol.parse_symbol (lit "BRK.B_24420C1e2") = Ok o /\
    lit "BRK.B_24420C1e2"
    = OptionSymbol.underlying_symbol o ++ lit "_" ++ date_text
        ++ OptionSymbol.contract_type o ++ strike_text /\
    _parse_expiration_date date_text = Ok (OptionSymbol.expiration_date o) /\
    1969 <= year (OptionSymbol.expiration_date o) <= 2068.
Proof.
  assert (P : OptionSymbol.parse_symbol (lit "BRK.B_24420C1e2")
              = Ok (OptionSymbol.mk (lit "BRK.B") (lit "C") (mkdate 2024 4 20)
                      (lit "00100000")))
    by (vm_compute; reflexivity).
  destruct (parsed_symbol_invariants _ _ P)
    as (dt & st & H1 & _ & _ & H2 & _ & H3 & _).
  eexists _, dt, st. split; [exact P|]. split; [exact H1|]. split; [exact H2|exact H3].
Defined.

(** ** [float] reads no 'P' and no 'C' *)

Lemma lstrip_keeps (c : ascii) (s : str) :
  In c s -> PyFloat.is_space c = false -> In c (PyFloat.lstrip s).
Proof.
  intros H Hc. induction s as [|a r IH]; [destruct H|]. simpl.
  destruct (PyFloat.is_space a) eqn:E; [|exact H].
  destruct H as [->|H]; [congruence|now apply IH].
Qed.

Lemma strip_keeps (c : ascii) (s : str) :
  In c s -> PyFloat.is_space c = false -> In c (PyFloat.strip s).
Proof.
  intros H Hc. unfold PyFloat.strip. rewrite <- in_rev.
  apply lstrip_keeps; [|exact Hc]. rewrite <- in_rev. now apply lstrip_keeps.
Qed.

Lemma drop_underscores_keeps (c : ascii) (s t : str) (prev : ascii) :
  PyFloat.drop_underscores prev s = Some t -> In c s -> c <> "_"%char -> In c t.
Proof.
  revert prev t. induction s as [|a r IH]; intros prev t E H Hc; [destruct H|].
  simpl in E. destruct (Ascii.eqb_spec a "_") as [->|Ha].
  - destruct (PyStr.is_digit prev); [|discriminate].
    destruct H as [<-|H]; [congruence|]. now apply (IH _ _ E).
  - destruct (_ && _); [discriminate|].
    destruct (PyFloat.drop_underscores a r) as [t'|] eqn:E'; [|discriminate].
    cbn in E. injection E as <-.
    destruct H as [->|H]; [now left|right]. now apply (IH _ _ E').
Qed.

Lemma sign_keeps (c : ascii) (s : str) :
  In c s -> c <> "-"%char -> c <> "+"%char -> In c (snd (PyFloat.sign s)).
Proof.
  intros H H1 H2. destruct s as [|a r]; [destruct H|]. unfold PyFloat.sign.
  destruct (Ascii.eqb_spec a "-") as [->|];
    [destruct H as [<-|H]; [congruence|exact H]|].
  destruct (Ascii.eqb_spec a "+") as [->|];
    [destruct H as [<-|H]; [congruence|exact H]|exact H].
Qed.

Lemma digits_decimal (s : str) :
  Forall (fun c => PyStr.is_digit c = true) s ->
  Forall (fun c => decimal_char c = true) s.
Proof.
  apply Forall_impl. intros c H. unfold decimal_char. now rewrite H.
Qed.

Lemma parse_decimal_chars (s : str) (v : Z * Z) :
  PyFloat.parse_decimal s = Some v -> Forall (fun c => decimal_char c = true) s.
Proof.
  unfold PyFloat.parse_decimal.
  destruct (PyStr.span PyStr.is_digit s) as [ip r1] eqn:E1.
  destruct (span_spec _ _ _ _ E1) as [-> Fip].
  assert (G : forall fp r2,
             Forall (fun c => PyStr.is_digit c = true) fp ->
             (if PyFloat.is_nil ip && PyFloat.is_nil fp then None
              else
                match r2 with
                | [] => Some (PyStr.int_of_digits (ip ++ fp),
                              - Z.of_nat (List.length fp))
                | c :: r3 =>
                    if Ascii.eqb c "e" || Ascii.eqb c "E" then
                      let (eneg, r4) := PyFloat.sign r3 in
                      let (ed, r5) := PyStr.span PyStr.is_digit r4 in
                      if negb (PyFloat.is_nil ed) && PyFloat.is_nil r5 then
                        Some (PyStr.int_of_digits (ip ++ fp),
                              (if eneg then - PyStr.int_of_digits ed
                               else PyStr.int_of_digits ed)
                              + - Z.of_nat (List.length fp))
                      else None
                    else None
                end) = Some v ->
             Forall (fun c => decimal_char c = true) r2).
  { intros fp r2 Ffp. destruct (_ && _); [discriminate|].
    destruct r2 as [|c r3]; [constructor|].
    destruct (Ascii.eqb c "e" || Ascii.eqb c "E") eqn:Ec; [|discriminate].
    assert (Dc : decimal_char c = true).
    { unfold decimal_char. apply orb_true_iff in Ec.
      destruct Ec as [-> | ->]; now rewrite ?orb_true_r. }
    destruct (PyFloat.sign r3) as [eneg r4] eqn:Es.
    destruct (PyStr.span PyStr.is_digit r4) as [ed r5] eqn:E5.
    destruct (span_spec _ _ _ _ E5) as [-> Fed].
    destruct r5; [|rewrite andb_false_r; discriminate].
    intros _. constructor; [exact Dc|]. rewrite app_nil_r in *.
    unfold PyFloat.sign in Es. destruct r3 as [|a r]; [injection Es as _ <-; constructor|].
    destruct (Ascii.eqb_spec a "-") as [->|];
      [injection Es as _ <-; constructor; [reflexivity|now apply digits_decimal]|].
    destruct (Ascii.eqb_spec a "+") as [->|];
      [injection Es as _ <-; constructor; [reflexivity|now apply digits_decimal]|].
    injection Es as _ <-. now apply digits_decimal. }
  destruct r1 as [|c r].
  - intros H. apply Forall_app. split; [now apply digits_decimal|constructor].
  - destruct (Ascii.eqb_spec c ".") as [->|].
    + destruct (PyStr.span PyStr.is_digit r) as [fp r2] eqn:E2.
      destruct (span_spec _ _ _ _ E2) as [-> Ffp].
      intros H. apply G in H; [|exact Ffp].
      apply Forall_app. split; [now apply digits_decimal|].
      constructor; [reflexivity|]. apply Forall_app. split; [now apply digits_decimal|exact H].
    + intros H. apply (G [] (c :: r)) in H; [|constructor].
      apply Forall_app. split; [now apply digits_decimal|exact H].
Qed.

Lemma map_lower_in (c : ascii) (s : str) :
  In c s -> In (PyFloat.lower c) (map PyFloat.lower s).
Proof. apply in_map. Qed.

(** A string holding a 'P' or a 'C' is no [float]. *)
Lemma float_rejects_type_letters (c : ascii) (s : str) :
  c = "P"%char \/ c = "C"%char -> In c s -> PyFloat.float_of_str s = None.
Proof.
  intros Hc H.
  assert (A : PyFloat.is_space c = false /\ c <> "_"%char /\ c <> "-"%char /\
              c <> "+"%char /\ decimal_char c = false /\
              ~ In (PyFloat.lower c) (lit "infinity") /\
              ~ In (PyFloat.lower c) (lit "nan")).
  { destruct Hc as [->| ->]; repeat split; try discriminate;
      cbn; intros K; repeat destruct K as [K|K]; try discriminate K; exact K. }
  destruct A as (A1 & A2 & A3 & A4 & A5 & A6 & A7).
  unfold PyFloat.float_of_str.
  pose proof (strip_keeps c s H A1) as H1.
  destruct (PyFloat.drop_underscores _ _) as [t|] eqn:E; [|reflexivity].
  pose proof (drop_underscores_keeps c _ _ _ E H1 A2) as H2.
  pose proof (sign_keeps c t H2 A3 A4) as H3.
  destruct (PyFloat.sign t) as [neg body]. cbn [snd] in H3.
  destruct (PyFloat.parse_decimal body) as [[M E']|] eqn:P.
  - apply parse_decimal_chars in P. rewrite Forall_forall in P.
    specialize (P c H3). congruence.
  - unfold PyFloat.parse_inf_or_nan. apply map_lower_in in H3.
    destruct (str_eqb (map PyFloat.lower body) (lit "inf")) eqn:E1.
    { apply str_eqb_eq in E1. rewrite E1 in H3. exfalso. apply A6.
      cbn in H3 |- *. tauto. }
    destruct (str_eqb (map PyFloat.lower body) (lit "infinity")) eqn:E2.
    { apply str_eqb_eq in E2. rewrite E2 in H3. now destruct A6. }
    destruct (str_eqb (map PyFloat.lower body) (lit "nan")) eqn:E3.
    { apply str_eqb_eq in E3. rewrite E3 in H3. now destruct A7. }
    reflexivity.
Qed.

(** ** Formatting and parsing back *)

(** The last type letter of a string is where it is. *)
Lemma last_letter_unique (p : ascii -> Prop) (l1 l2 r1 r2 : str) (x y : ascii) :
  l1 ++ x :: r1 = l2 ++ y :: r2 ->
  p x -> p y -> Forall (fun c => ~ p c) r1 -> Forall (fun c => ~ p c) r2 ->
  l1 = l2.
Proof.
  intros E Px Py F1 F2. revert l2 E. induction l1 as [|a l1 IH]; intros l2 E.
  - destruct l2 as [|b l2]; [reflexivity|]. exfalso.
    cbn in E. injection E as -> ->. rewrite Forall_forall in F1.
    apply (F1 y); [|exact Py]. apply in_or_app. right. now left.
  - destruct l2 as [|b l2].
    + exfalso. cbn in E. injection E as -> <-. rewrite Forall_forall in F2.
      apply (F2 x); [|exact Px]. apply in_or_app. right. now left.
    + cbn in E. injection E as -> E. f_equal. now apply IH.
Qed.

Lemma suffix_after_underscore (U u rest tail : str) :
  U ++ tail = u ++ "_"%char :: rest -> ~ In "_"%char tail ->
  exists B, rest = B ++ tail.
Proof.
  revert u. induction U as [|a U IH]; intros u E Ht.
  - cbn in E. subst tail. exfalso. apply Ht. apply in_or_app. right. now left.
  - destruct u as [|b u].
    + cbn in E. injection E as -> <-. now exists U.
    + cbn in E. injection E as -> E. now apply (IH u).
Qed.

(** X7: what [build] returns for a constructed symbol is never accepted by
    [parse_symbol], whatever the underlying is. *)
Theorem formatted_symbol_never_parses (U : str) (D : expiration_arg) (T S : str)
    (o : OptionSymbol.t) :
  OptionSymbol.__init__ U D T S = Ok o ->
  forall o', OptionSymbol.parse_symbol (OptionSymbol.build o) <> Ok o'.
Proof.
  intros H o' P.
  destruct (init_shape _ _ _ _ _ H) as (Hct & (sp & Esp & _ & Fsp)).
  apply parse_symbol_ok in P.
  destruct P as (u & a & b & t & d & Ht & E & _ & _ & _ & _ & Hd & Hi).
  apply parse_date_length in Hd. rename Hd into La.
  apply init_ok in Hi. destruct Hi as (_ & _ & x & _ & _ & _ & _ & Hx & _).
  assert (Fb : PyFloat.float_of_str b <> None).
  { unfold positive_strike in Hx. destruct (PyFloat.float_of_str b); [discriminate|].
    discriminate Hx. }
  set (p := fun c : ascii => c = "P"%char \/ c = "C"%char).
  assert (Nb : Forall (fun c => ~ p c) b).
  { apply Forall_forall. intros c Hc Pc. apply Fb.
    now apply (float_rejects_type_letters c). }
  assert (Nsp : Forall (fun c => ~ p c) (OptionSymbol.strike_price o)).
  { rewrite Esp. constructor; [intros [K|K]; discriminate K|].
    eapply Forall_impl; [|exact Fsp]. intros c Hc [->| ->]; discriminate Hc. }
  unfold OptionSymbol.build in E.
  destruct (suffix_after_underscore _ _ _ _ E) as (B & EB).
  { rewrite !in_app_iff. intros [K|[K|[K|K]]].
    - cbn in K. destruct K as [K|[K|[]]]; discriminate K.
    - revert K. apply digits_no; [apply strftime_digits|reflexivity].
    - destruct Hct as [Hct|Hct]; rewrite Hct in K; cbn in K;
        destruct K as [K|[]]; discriminate K.
    - rewrite Esp in K. destruct K as [K|K]; [discriminate K|].
      revert K. now apply digits_no. }
  assert (exists l, OptionSymbol.contract_type o = [l] /\ p l) as (l & El & Pl).
  { destruct Hct as [Hct|Hct]; rewrite Hct; eexists; (split; [reflexivity|]);
      [right|left]; reflexivity. }
  rewrite El in EB.
  assert (EB' : a ++ t :: b
                = (B ++ lit "  " ++ strftime_yymmdd (OptionSymbol.expiration_date o))
                    ++ l :: OptionSymbol.strike_price o).
  { rewrite EB. rewrite <- !app_assoc. reflexivity. }
  apply (last_letter_unique p) in EB'; auto.
  subst a. rewrite !length_app in La.
  pose proof (strftime_digits (OptionSymbol.expiration_date o)) as Fd.
  unfold strftime_yymmdd, two_digits in La. cbn in La. lia.
Qed.

Lemma formatted_symbol_never_parses_witness :
  exists o,
    OptionSymbol.__init__ (lit "A_240420P5") (ExpStr (lit "240420")) (lit "C") (lit "500")
      = Ok o /\
    OptionSymbol.build o = lit "A_240420P5  240420C00500000" /\
    forall o', OptionSymbol.parse_symbol (OptionSymbol.build o) <> Ok o'.
Proof.
  eexists. split; [vm_compute; reflexivity|]. split; [vm_compute; reflexivity|].
  apply (formatted_symbol_never_parses (lit "A_240420P5") (ExpStr (lit "240420"))
           (lit "C") (lit "500")).
  vm_compute. reflexivity.
Defined.

(** ** The width of the strike field *)

Lemma shift_round_near (m k : Z) :
  m / 2 ^ k <= PyFloat.shift_round m k <= m / 2 ^ k + 1.
Proof.
  unfold PyFloat.shift_round.
  destruct (_ <? _); [lia|]. destruct (_ <? _); [lia|].
  destruct (Z.even _); lia.
Qed.

(** The mantissa [round_dyadic] hands to [finish], against the exact value. *)
Lemma round_dyadic_value (neg : bool) (m e : Z) :
  0 < m ->
  exists q,
    PyFloat.round_dyadic neg m e
    = PyFloat.finish neg q (Z.max (Z.log2 m + e - 52) PyFloat.emin) /\
    (Z.max (Z.log2 m + e - 52) PyFloat.emin <= e ->
     q = m * 2 ^ (e - Z.max (Z.log2 m + e - 52) PyFloat.emin)) /\
    (e < Z.max (Z.log2 m + e - 52) PyFloat.emin ->
     m / 2 ^ (Z.max (Z.log2 m + e - 52) PyFloat.emin - e) <= q
     <= m / 2 ^ (Z.max (Z.log2 m + e - 52) PyFloat.emin - e) + 1).
Proof.
  intros Hm. unfold PyFloat.round_dyadic, PyFloat.prec.
  destruct (Z.leb_spec m 0); [lia|]. change (53 - 1) with 52.
  set (e' := Z.max (Z.log2 m + e - 52) PyFloat.emin).
  destruct (Z.leb_spec e' e).
  - eexists. split; [reflexivity|]. split; [reflexivity|lia].
  - eexists. split; [reflexivity|]. split; [lia|]. intros _. apply shift_round_near.
Qed.

Lemma int_of_finish_cases (q e n : Z) :
  0 < q <= 2 ^ 53 ->
  PyFloat.int_of_float (PyFloat.finish false q e) = Ok n ->
  (e < 0 -> n = q / 2 ^ (- e)) /\ (0 <= e -> q <= n).
Proof.
  intros Hq H. split; intros He.
  - rewrite int_of_finish in H by lia. now apply Ok_inj in H.
  - revert H. unfold PyFloat.finish, PyFloat.prec.
    destruct (Z.leb_spec q 0); [lia|].
    assert (P : 0 < 2 ^ e) by (apply pow2_pos; lia).
    destruct (Z.eqb_spec q (2 ^ 53)) as [->|Hne]; cbn [fst snd].
    + destruct (PyFloat.emax <? _); [discriminate|].
      unfold PyFloat.int_of_float.
      change (Z.pos (Z.to_pos (2 ^ (53 - 1)))) with (2 ^ 52).
      destruct (Z.leb_spec 0 (e + 1)); [|lia]. intros E. apply Ok_inj in E.
      subst n. rewrite pow2_add by lia. change (2 ^ 53) with (2 ^ 52 * 2 ^ 1).
      change (2 ^ 1) with 2. assert (0 < 2 ^ 52) by (apply pow2_pos; lia). nia.
    + destruct (PyFloat.emax <? _); [discriminate|].
      unfold PyFloat.int_of_float. rewrite Z2Pos.id by lia.
      destruct (Z.leb_spec 0 e); [|lia]. intros E. apply Ok_inj in E. subst n. nia.
Qed.

Lemma finish_zero_int (q e : Z) (n : Z) :
  q <= 0 -> PyFloat.int_of_float (PyFloat.finish false q e) = Ok n -> n = 0.
Proof.
  intros Hq. unfold PyFloat.finish. destruct (Z.leb_spec q 0); [|lia].
  intros E. cbn in E. now apply Ok_inj in E.
Qed.

(** Strikes below 64: the truncated product is at most 64000. *)
Lemma product_small (m : positive) (e n : Z) :
  Zpos m < 2 ^ 53 -> e <= -47 ->
  PyFloat.int_of_float
    (PyFloat.round_dyadic false (Zpos m * 8796093022208000) (e + -43)) = Ok n ->
  0 <= n <= 64000.
Proof.
  intros Hm He H.
  set (P := Zpos m * 8796093022208000) in *.
  assert (HP : 0 < P) by (unfold P; lia).
  assert (HP2 : P < 1000 * 2 ^ 96).
  { unfold P. change (1000 * 2 ^ 96) with (2 ^ 53 * 8796093022208000). nia. }
  destruct (log2_bounds P HP) as (L0 & L1 & L2).
  assert (L3 : Z.log2 P < 106).
  { apply Z.log2_lt_pow2; [lia|].
    apply Z.lt_le_trans with (1000 * 2 ^ 96); [lia|]. vm_compute. discriminate. }
  destruct (round_dyadic_value false P (e + -43) HP) as (q & E & X1 & X2).
  rewrite E in H.
  set (e' := Z.max (Z.log2 P + (e + -43) - 52) PyFloat.emin) in *.
  assert (E1 : e' < 0) by (unfold e', PyFloat.emin; lia).
  assert (E2 : PyFloat.emin <= e') by apply Z.le_max_r.
  set (j := - e') in *.
  assert (J : 0 < 2 ^ j) by (apply pow2_pos; lia).
  assert (B : q <= 64000 * 2 ^ j).
  { destruct (Z.le_gt_cases e' (e + -43)) as [C|C].
    - rewrite (X1 C).
      assert (T : 0 < 2 ^ (e + -43 - e')) by (apply pow2_pos; lia).
      assert (U : 2 ^ 96 * 2 ^ (e + -43 - e') <= 2 ^ 6 * 2 ^ j).
      { rewrite <- !pow2_add by lia. apply pow2_le; lia. }
      nia.
    - destruct (X2 C) as [_ X]. set (k := e' - (e + -43)) in *.
      assert (K : 0 < 2 ^ k) by (apply pow2_pos; lia).
      assert (U : 2 ^ 96 <= 2 ^ 6 * 2 ^ j * 2 ^ k).
      { rewrite <- !pow2_add by lia. apply pow2_le; lia. }
      assert (V : P / 2 ^ k < 64000 * 2 ^ j).
      { apply Z.div_lt_upper_bound; [lia|]. nia. }
      lia. }
  destruct (Z.le_gt_cases q 0) as [Z|Z].
  - rewrite (finish_zero_int q e' n Z H). lia.
  - assert (Q : q <= 2 ^ 53).
    { destruct (Z.le_gt_cases e' (e + -43)) as [C|C].
      - rewrite (X1 C).
        assert (T : 0 < 2 ^ (e + -43 - e')) by (apply pow2_pos; lia).
        assert (U : 2 ^ (Z.log2 P + 1) * 2 ^ (e + -43 - e') <= 2 ^ 53).
        { rewrite <- pow2_add by lia. apply pow2_le; unfold e'; lia. }
        nia.
      - destruct (X2 C) as [_ X]. set (k := e' - (e + -43)) in *.
        assert (K : 0 < 2 ^ k) by (apply pow2_pos; lia).
        assert (V : P / 2 ^ k < 2 ^ 53).
        { apply Z.div_lt_upper_bound; [lia|]. rewrite <- pow2_add by lia.
          apply Z.lt_le_trans with (2 ^ (Z.log2 P + 1)); [lia|].
          apply pow2_le; unfold k, e'; lia. }
        lia. }
    destruct (int_of_finish_cases q e' n ltac:(lia) H) as [N _].
    rewrite (N E1). fold j. split.
    + apply Z.div_pos; lia.
    + apply Z.div_le_upper_bound; lia.
Qed.

(** Strikes from 10000 on: the truncated product is at least ten million. *)
Lemma product_large (m : positive) (e n : Z) :
  2 ^ 52 <= Zpos m < 2 ^ 53 ->
  -39 < e \/ (e = -39 /\ 5497558138880000 <= Zpos m) ->
  PyFloat.int_of_float
    (PyFloat.round_dyadic false (Zpos m * 8796093022208000) (e + -43)) = Ok n ->
  10 ^ 7 <= n.
Proof.
  intros Hm He H.
  set (P := Zpos m * 8796093022208000) in *.
  assert (HP : 0 < P) by (unfold P; lia).
  assert (HP1 : 2 ^ 104 <= P).
  { unfold P. change (2 ^ 104) with (2 ^ 52 * 2 ^ 52).
    change (2 ^ 52) with 4503599627370496 in *. nia. }
  assert (L1 : 104 <= Z.log2 P) by (apply Z.log2_le_pow2; lia).
  assert (L2 : Z.log2 P < 107).
  { apply (log2_mul_bound (Zpos m) 8796093022208000); [lia|].
    change (2 ^ 53) with 9007199254740992. lia. }
  destruct (round_dyadic_value false P (e + -43) HP) as (q & E & _ & X2).
  destruct (round_dyadic_spec false P (e + -43) HP) as (q0 & E0 & Q0 & N0 & _).
  rewrite Z.max_l in * by (unfold PyFloat.emin; lia).
  set (e' := Z.log2 P + (e + -43) - 52) in *.
  assert (C : e + -43 < e') by (unfold e'; lia).
  destruct (X2 C) as [X X']. clear X2.
  set (k := e' - (e + -43)) in *.
  assert (K : 0 < 2 ^ k) by (apply pow2_pos; lia).
  assert (Q1 : 2 ^ 52 <= q).
  { apply Z.le_trans with (P / 2 ^ k); [|exact X].
    apply Z.div_le_lower_bound; [lia|]. rewrite <- pow2_add by lia.
    apply Z.le_trans with (2 ^ Z.log2 P); [apply pow2_le; unfold k, e'; lia|].
    apply (log2_bounds P HP). }
  assert (Q2 : q <= 2 ^ 53).
  { assert (V : P / 2 ^ k < 2 ^ 53); [|lia].
    apply Z.div_lt_upper_bound; [lia|]. rewrite <- pow2_add by lia.
    apply Z.lt_le_trans with (2 ^ (Z.log2 P + 1)); [apply (log2_bounds P HP)|].
    apply pow2_le; unfold k, e'; lia. }
  rewrite E in H.
  assert (T52 : 10 ^ 7 <= 2 ^ 52) by (vm_compute; discriminate).
  destruct (int_of_finish_cases q e' n ltac:(lia) H) as [N1 N2].
  destruct (Z.lt_ge_cases e' 0) as [Neg|Pos]; [|specialize (N2 Pos); lia].
  rewrite (N1 Neg). set (j := - e') in *.
  assert (J : 0 < 2 ^ j) by (apply pow2_pos; lia).
  apply Z.div_le_lower_bound; [lia|].
  apply Z.le_trans with (P / 2 ^ k); [|exact X].
  apply Z.div_le_lower_bound; [lia|].
  assert (S : j + k = 43 - e) by (unfold j, k; lia).
  assert (M : 10 ^ 4 * 2 ^ (- e) <= Zpos m).
  { destruct He as [He|[-> He]]; [|exact He].
    apply Z.le_trans with (10 ^ 4 * 2 ^ 38).
    - apply Z.mul_le_mono_nonneg_l; [lia|]. apply pow2_le; unfold e' in Neg; lia.
    - apply Z.le_trans with (2 ^ 52); [vm_compute; discriminate|lia]. }
  assert (E2 : 2 ^ k * (2 ^ j * 10 ^ 7) = 1000 * 2 ^ 43 * (10 ^ 4 * 2 ^ (- e))).
  { replace (2 ^ k * (2 ^ j * 10 ^ 7)) with (2 ^ (k + j) * 10 ^ 7) by (rewrite pow2_add by lia; ring).
    replace (k + j) with (43 + - e) by lia. rewrite pow2_add by (unfold e' in Neg; lia).
    change (10 ^ 7) with (1000 * 10 ^ 4). ring. }
  rewrite E2. unfold P. change 8796093022208000 with (1000 * 2 ^ 43) at 1.
  rewrite (Z.mul_comm (Zpos m)). apply Z.mul_le_mono_nonneg_l; [|exact M].
  vm_compute. discriminate.
Qed.

(** The two bands next to the range of [product_case]: strikes from 64 up
    to 100, and strikes above 9999.999 and below 10000. *)
Lemma product_band_low (m L : Z) :
  2 ^ 52 <= m < 7036874417766400 ->
  (L = 104 /\ m * 8796093022208000 < 2 ^ 105) \/
  (L = 105 /\ 2 ^ 105 <= m * 8796093022208000) ->
  0 < PyFloat.shift_round (m * 8796093022208000) (L - 52) <= 2 ^ 53 /\
  PyFloat.shift_round (m * 8796093022208000) (L - 52)
    / 2 ^ (- (L + (-46 + -43) - 52)) < 10 ^ 5.
Proof.
  intros Hm HL. unfold PyFloat.shift_round.
  change (2 ^ 52) with 4503599627370496 in *.
  change (2 ^ 53) with 9007199254740992 in *.
  change (2 ^ 105) with 40564819207303340847894502572032 in *.
  change (10 ^ 5) with 100000.
  destruct HL as [[-> HL]|[-> HL]];
    repeat match goal with
      | |- context [2 ^ ?k] =>
          let v := eval vm_compute in (2 ^ k) in change (2 ^ k) with v
      end;
    (match goal with |- context [?a <? ?b] => destruct (Z.ltb_spec a b) end);
    try (match goal with |- context [?a <? ?b] => destruct (Z.ltb_spec a b) end);
    try (match goal with |- context [Z.even ?a] => destruct (Z.even a) end);
    split; zlia.
Qed.

Lemma product_band_top (m L : Z) :
  5497557589124186 < m < 5497558138880000 ->
  (L = 104 /\ m * 8796093022208000 < 2 ^ 105) \/
  (L = 105 /\ 2 ^ 105 <= m * 8796093022208000) ->
  0 < PyFloat.shift_round (m * 8796093022208000) (L - 52) <= 2 ^ 53 /\
  10 ^ 6 <= PyFloat.shift_round (m * 8796093022208000) (L - 52)
              / 2 ^ (- (L + (-39 + -43) - 52)) < 10 ^ 7.
Proof.
  intros Hm HL. unfold PyFloat.shift_round.
  change (2 ^ 53) with 9007199254740992 in *.
  change (2 ^ 105) with 40564819207303340847894502572032 in *.
  change (10 ^ 6) with 1000000. change (10 ^ 7) with 10000000.
  destruct HL as [[-> HL]|[-> HL]];
    repeat match goal with
      | |- context [2 ^ ?k] =>
          let v := eval vm_compute in (2 ^ k) in change (2 ^ k) with v
      end;
    (match goal with |- context [?a <? ?b] => destruct (Z.ltb_spec a b) end);
    try (match goal with |- context [?a <? ?b] => destruct (Z.ltb_spec a b) end);
    try (match goal with |- context [Z.even ?a] => destruct (Z.even a) end);
    split; zlia.
Qed.

(** The truncated product of a strike with a 53-bit mantissa between 64 and
    16384, through the two positions of the product's leading bit. *)
Lemma normal_strike_product (m : positive) (e : Z) :
  2 ^ 52 <= Zpos m < 2 ^ 53 -> -46 <= e <= -39 ->
  exists L,
    ((L = 104 /\ Zpos m * 8796093022208000 < 2 ^ 105) \/
     (L = 105 /\ 2 ^ 105 <= Zpos m * 8796093022208000)) /\
    PyFloat.round_dyadic false (Zpos m * 8796093022208000) (e + -43)
    = PyFloat.finish false
        (PyFloat.shift_round (Zpos m * 8796093022208000) (L - 52))
        (L + (e + -43) - 52).
Proof.
  intros Hm He. set (P := Zpos m * 8796093022208000).
  assert (HP : 2 ^ 104 <= P < 2 ^ (104 + 2)).
  { unfold P. change (2 ^ 104) with (2 ^ 52 * 2 ^ 52).
    change (2 ^ (104 + 2)) with (2 ^ 53 * 2 ^ 53).
    change (2 ^ 52) with 4503599627370496 in *.
    change (2 ^ 53) with 9007199254740992 in *. nia. }
  destruct (log2_cases P 104 ltac:(lia) HP) as [[HL HB]|[HL HB]];
    change (104 + 1) with 105 in *.
  - exists 104. split; [left; now split|].
    rewrite round_dyadic_normal by (fold P; unfold PyFloat.emin; lia).
    fold P. now rewrite HL.
  - exists 105. split; [right; now split|].
    rewrite round_dyadic_normal by (fold P; unfold PyFloat.emin; lia).
    fold P. now rewrite HL.
Qed.

Lemma digits_of_grows (f : nat) (n : Z) (acc : str) :
  (List.length acc <= List.length (PyStr.digits_of f n acc))%nat.
Proof.
  revert n acc. induction f as [|f IH]; intros n acc; simpl; [lia|].
  destruct (n <? 10); [simpl; lia|].
  eapply Nat.le_trans; [|apply IH]. simpl. lia.
Qed.

Lemma digits_of_length_ge (k : nat) :
  forall (fuel : nat) (n : Z) (acc : str),
    10 ^ Z.of_nat k <= n -> (k < fuel)%nat ->
    (S k + List.length acc <= List.length (PyStr.digits_of fuel n acc))%nat.
Proof.
  induction k as [|k IH]; intros fuel n acc Hn Hf.
  - destruct fuel as [|f]; [lia|]. simpl. destruct (n <? 10); [simpl; lia|].
    eapply Nat.le_trans; [|apply digits_of_grows]. simpl. lia.
  - destruct fuel as [|f]; [lia|].
    assert (P : 10 ^ Z.of_nat (S k) = 10 * 10 ^ Z.of_nat k).
    { rewrite Nat2Z.inj_succ, Z.pow_succ_r by lia. reflexivity. }
    assert (0 < 10 ^ Z.of_nat k) by (apply Z.pow_pos_nonneg; lia).
    rewrite digits_of_step by lia.
    eapply Nat.le_trans; [|apply IH; [|lia]].
    + simpl. lia.
    + apply Z.div_le_lower_bound; lia.
Qed.

(** An [int] of at least [10 ^ k] prints as more than [k] characters, one
    below [10 ^ (k + 1)] as at most [k + 1]. *)
Lemma str_of_int_length_ge (k : nat) (n : Z) :
  10 ^ Z.of_nat k <= n -> (S k <= List.length (PyStr.str_of_int n))%nat.
Proof.
  intros H.
  assert (0 < 10 ^ Z.of_nat k) by (apply Z.pow_pos_nonneg; lia).
  unfold PyStr.str_of_int. destruct (Z.ltb_spec n 0); [lia|].
  eapply Nat.le_trans; [|apply (digits_of_length_ge k); [exact H|]].
  - simpl. lia.
  - assert (Z.of_nat k <= Z.log2 n); [|lia].
    apply Z.log2_le_pow2; [lia|].
    apply Z.le_trans with (10 ^ Z.of_nat k); [|lia].
    apply Z.pow_le_mono_l. lia.
Qed.

Lemma str_of_int_length_le (k : nat) (n : Z) :
  0 <= n < 10 ^ Z.of_nat (S k) -> (List.length (PyStr.str_of_int n) <= S k)%nat.
Proof.
  induction k as [|k IH]; intros H.
  - change (10 ^ Z.of_nat 1) with 10 in H.
    destruct (Z.eq_dec n 0) as [->|]; [vm_compute; lia|].
    rewrite (str_of_int_length 0); [lia|]. change (10 ^ Z.of_nat 0) with 1.
    change (10 ^ Z.of_nat 1) with 10. lia.
  - destruct (Z.lt_ge_cases n (10 ^ Z.of_nat (S k))).
    + apply Nat.le_trans with (S k); [apply IH; lia|lia].
    + rewrite (str_of_int_length (S k)); [lia|]. lia.
Qed.

Lemma float_10000 :
  PyFloat.float_of_int 10000 = S754_finite false 5497558138880000 (-39).
Proof. reflexivity. Qed.

Lemma float_int_100 :
  PyFloat.float_of_int 100 = S754_finite false 7036874417766400 (-46).
Proof. reflexivity. Qed.

(** The length of the strike field by the size of a canonical strike. *)
Lemma encode_strike_width (x : PyFloat.float) (sp : str) :
  canonical x ->
  PyFloat.fle x (PyFloat.float_of_int 0) = false ->
  encode_strike x = Ok sp ->
  (PyFloat.flt x (PyFloat.float_of_int 100) = true ->
   (List.length sp <= 7)%nat) /\
  (PyFloat.fle (PyFloat.float_of_int 100) x = true ->
   PyFloat.flt x (PyFloat.float_of_int 10000) = true ->
   List.length sp = 8%nat) /\
  (PyFloat.fle (PyFloat.float_of_int 10000) x = true ->
   (9 <= List.length sp)%nat).
Proof.
  intros Hc Hp Hs. apply encode_strike_ok in Hs. destruct Hs as (n & Hn & ->).
  rewrite float_int_100, float_10000. rewrite float_1000 in Hn.
  destruct x as [s|s| |s m e]; try discriminate Hn; try discriminate Hp.
  destruct s; [discriminate Hp|]. clear Hp.
  unfold PyFloat.fmul in Hn. cbn [xorb] in Hn.
  unfold canonical, PyFloat.emin, PyFloat.emax in Hc.
  assert (Lp : forall p : bool, (List.length
                ((if p then lit "00" else lit "0") ++ PyStr.str_of_int n)
              <= 2 + List.length (PyStr.str_of_int n))%nat /\
             (1 + List.length (PyStr.str_of_int n)
              <= List.length ((if p then lit "00" else lit "0")
                                ++ PyStr.str_of_int n))%nat).
  { intros p. rewrite length_app. destruct p; cbn; lia. }
  split; [|split].
  - intros F. apply flt_finite in F.
    assert (N : 0 <= n < 10 ^ 5).
    { destruct (Z.eq_dec e (-46)) as [->|Ne].
      - destruct (normal_strike_product m (-46)) as (L & HL & E); [lia|lia|].
        rewrite E in Hn.
        destruct (product_band_low (Zpos m) L ltac:(lia) HL) as (Q & B).
        rewrite int_of_finish in Hn by (destruct HL as [[-> _]|[-> _]]; lia).
        apply Ok_inj in Hn. subst n. split; [|exact B].
        apply Z.div_pos; [lia|]. apply pow2_pos.
        destruct HL as [[-> _]|[-> _]]; lia.
      - assert (B : 0 <= n <= 64000); [|change (10 ^ 5) with 100000; lia].
        apply (product_small m e n); [|lia|exact Hn].
        change (2 ^ 52) with 4503599627370496 in Hc.
        change (2 ^ 53) with 9007199254740992 in *. lia. }
    destruct (Lp (PyFloat.flt (S754_finite false m e)
                    (S754_finite false 8796093022208000 (-43)))) as [U _].
    rewrite float_1000.
    pose proof (str_of_int_length_le 4 n N). lia.
  - intros F1 F2. apply fle_finite in F1. apply flt_finite in F2.
    destruct (Z.le_gt_cases (Zpos m) 5497557589124186) as [Lo|Hi].
    + destruct (encode_strike_eight (S754_finite false m e)) as (sp & E & L & _).
      * exact Hc.
      * now apply fle_finite.
      * apply fle_finite. lia.
      * apply encode_strike_ok in E. destruct E as (n' & Hn' & ->).
        rewrite float_1000 in Hn'. unfold PyFloat.fmul in Hn'. cbn [xorb] in Hn'.
        rewrite Hn in Hn'. apply Ok_inj in Hn'. now subst n'.
    + destruct (Z.eq_dec e (-39)) as [->|Ne].
      * destruct (normal_strike_product m (-39)) as (L & HL & E); [lia|lia|].
        rewrite E in Hn.
        destruct (product_band_top (Zpos m) L ltac:(lia) HL) as (Q & B).
        rewrite int_of_finish in Hn by (destruct HL as [[-> _]|[-> _]]; lia).
        apply Ok_inj in Hn. subst n.
        rewrite float_1000.
        assert (G : PyFloat.flt (S754_finite false m (-39))
                      (S754_finite false 8796093022208000 (-43)) = false).
        { destruct (PyFloat.flt _ _) eqn:G; [|reflexivity].
          apply flt_finite in G. lia. }
        rewrite G, length_app, (str_of_int_length 6) by exact B. reflexivity.
      * destruct (encode_strike_eight (S754_finite false m e)) as (sp & E & L & _).
        -- exact Hc.
        -- now apply fle_finite.
        -- apply fle_finite. lia.
        -- apply encode_strike_ok in E. destruct E as (n' & Hn' & ->).
           rewrite float_1000 in Hn'. unfold PyFloat.fmul in Hn'. cbn [xorb] in Hn'.
           rewrite Hn in Hn'. apply Ok_inj in Hn'. now subst n'.
  - intros F. apply fle_finite in F.
    assert (N : 10 ^ 7 <= n).
    { apply (product_large m e n); [|lia|exact Hn].
      change (2 ^ 52) with 4503599627370496 in *.
      change (2 ^ 53) with 9007199254740992 in *. lia. }
    destruct (Lp (PyFloat.flt (S754_finite false m e)
                    (S754_finite false 8796093022208000 (-43)))) as [_ U].
    rewrite float_1000.
    pose proof (str_of_int_length_ge 7 n N). lia.
Qed.

(** X11: the length of the strike field follows the size of the strike as
    [float] reads it: at most seven characters below 100, exactly eight
    from 100 up to and below 10000, at least nine from 10000 on. *)
Theorem strike_field_width (U : str) (D : expiration_arg) (T S : str)
    (o : OptionSymbol.t) (x : PyFloat.float) :
  OptionSymbol.__init__ U D T S = Ok o ->
  PyFloat.float_of_str S = Some x ->
  (PyFloat.flt x (PyFloat.float_of_int 100) = true ->
   (List.length (OptionSymbol.strike_price o) <= 7)%nat) /\
  (PyFloat.fle (PyFloat.float_of_int 100) x = true ->
   PyFloat.flt x (PyFloat.float_of_int 10000) = true ->
   List.length (OptionSymbol.strike_price o) = 8%nat) /\
  (PyFloat.fle (PyFloat.float_of_int 10000) x = true ->
   (9 <= List.length (OptionSymbol.strike_price o))%nat).
Proof.
  intros H Hx. apply init_ok in H.
  destruct H as (ct & ed & x' & sp & -> & _ & _ & P & C).
  unfold positive_strike in P. rewrite Hx in P.
  destruct (PyFloat.fle x (PyFloat.float_of_int 0)) eqn:F; [discriminate|].
  injection P as <-. cbn [OptionSymbol.strike_price].
  apply encode_strike_width; auto. now apply (float_of_str_canonical S).
Qed.

Lemma strike_field_width_witness :
  (exists o,
     OptionSymbol.__init__ (lit "QQQ") (ExpStr (lit "240420")) (lit "P") (lit "99.999")
       = Ok o /\ (List.length (OptionSymbol.strike_price o) <= 7)%nat) /\
  (exists o,
     OptionSymbol.__init__ (lit "QQQ") (ExpStr (lit "240420")) (lit "P") (lit "9999.9999")
       = Ok o /\ List.length (OptionSymbol.strike_price o) = 8%nat) /\
  (exists o,
     OptionSymbol.__init__ (lit "QQQ") (ExpStr (lit "240420")) (lit "P") (lit "10000")
       = Ok o /\ (9 <= List.length (OptionSymbol.strike_price o))%nat).
Proof.
  assert (I1 : OptionSymbol.__init__ (lit "QQQ") (ExpStr (lit "240420")) (lit "P")
                 (lit "99.999")
               = Ok (OptionSymbol.mk (lit "QQQ") (lit "P") (mkdate 2024 4 20)
                       (lit "0099999"))) by (vm_compute; reflexivity).
  assert (X1 : PyFloat.float_of_str (lit "99.999")
               = Some (S754_finite false 7036804049022222 (-46)))
    by (vm_compute; reflexivity).
  assert (I2 : OptionSymbol.__init__ (lit "QQQ") (ExpStr (lit "240420")) (lit "P")
                 (lit "9999.9999")
               = Ok (OptionSymbol.mk (lit "QQQ") (lit "P") (mkdate 2024 4 20)
                       (lit "09999999"))) by (vm_compute; reflexivity).
  assert (X2 : PyFloat.float_of_str (lit "9999.9999")
               = Some (S754_finite false 5497558083904419 (-39)))
    by (vm_compute; reflexivity).
  assert (I3 : OptionSymbol.__init__ (lit "QQQ") (ExpStr (lit "240420")) (lit "P")
                 (lit "10000")
               = Ok (OptionSymbol.mk (lit "QQQ") (lit "P") (mkdate 2024 4 20)
                       (lit "010000000"))) by (vm_compute; reflexivity).
  assert (X3 : PyFloat.float_of_str (lit "10000")
               = Some (S754_finite false 5497558138880000 (-39)))
    by (vm_compute; reflexivity).
  split; [|split].
  - eexists. split; [exact I1|].
    apply (proj1 (strike_field_width _ _ _ _ _ _ I1 X1)).
    vm_compute. reflexivity.
  - eexists. split; [exact I2|].
    apply (proj1 (proj2 (strike_field_width _ _ _ _ _ _ I2 X2)));
      vm_compute; reflexivity.
  - eexists. split; [exact I3|].
    apply (proj2 (proj2 (strike_field_width _ _ _ _ _ _ I3 X3))).
    vm_compute. reflexivity.
Defined.

(** ** The accuracy of the strike field *)

(** Values are compared in units of [2 ^ -1300], below every exponent that
    occurs: a finite float [m * 2 ^ e] is the integer [m * 2 ^ (e + 1300)]. *)

Lemma shift_round_half (m k : Z) :
  1 <= k -> 2 * Z.abs (PyFloat.shift_round m k * 2 ^ k - m) <= 2 ^ k.
Proof.
  intros Hk. unfold PyFloat.shift_round.
  assert (E : 2 ^ k = 2 * 2 ^ (k - 1)).
  { rewrite <- Z.pow_succ_r by lia. f_equal. lia. }
  rewrite E. set (h := 2 ^ (k - 1)).
  assert (0 < h) by (apply pow2_pos; lia).
  pose proof (Z.div_mod m (2 * h) ltac:(lia)).
  pose proof (Z.mod_pos_bound m (2 * h) ltac:(lia)).
  set (q := m / (2 * h)) in *. set (r := m mod (2 * h)) in *.
  destruct (Z.ltb_spec r h); [nia|].
  destruct (Z.ltb_spec h r); [nia|]. destruct (Z.even q); nia.
Qed.

Lemma finish_scaled (q e : Z) :
  0 < q <= 2 ^ 53 -> -1300 <= e -> e + 1 <= PyFloat.emax ->
  exists mx ex,
    PyFloat.finish false q e = S754_finite false mx ex /\
    e <= ex <= e + 1 /\ Zpos mx <= 2 ^ 53 /\
    Zpos mx * 2 ^ (ex + 1300) = q * 2 ^ (e + 1300).
Proof.
  intros Hq He Hm. unfold PyFloat.finish, PyFloat.prec.
  destruct (Z.leb_spec q 0); [lia|].
  destruct (Z.eqb_spec q (2 ^ 53)) as [->|Hne]; cbn [fst snd].
  - destruct (Z.ltb_spec PyFloat.emax (e + 1)); [lia|].
    eexists. eexists. split; [reflexivity|].
    change (Z.pos (Z.to_pos (2 ^ (53 - 1)))) with (2 ^ 52).
    split; [lia|]. split; [change (2 ^ 52) with 4503599627370496; lia|].
    replace (e + 1 + 1300) with (1 + (e + 1300)) by lia.
    rewrite pow2_add by lia. change (2 ^ 53) with (2 ^ 52 * 2 ^ 1). ring.
  - destruct (Z.ltb_spec PyFloat.emax e); [lia|].
    eexists. eexists. split; [reflexivity|].
    rewrite Z2Pos.id by lia. split; [lia|]. split; [lia|reflexivity].
Qed.

(** Rounding a value in the normal range moves it by at most [2 ^ -53] of
    itself. *)
Lemma round_dyadic_error (m e : Z) :
  0 < m -> -1300 <= e ->
  -1074 <= Z.log2 m + e - 52 -> Z.log2 m + e - 52 < 971 ->
  exists mx ex,
    PyFloat.round_dyadic false m e = S754_finite false mx ex /\
    Z.log2 m + e - 52 <= ex <= Z.log2 m + e - 51 /\
    Zpos mx <= 2 ^ 53 /\
    2 ^ 53 * Z.abs (Zpos mx * 2 ^ (ex + 1300) - m * 2 ^ (e + 1300))
    <= m * 2 ^ (e + 1300).
Proof.
  intros Hm He Hlo Hhi.
  destruct (log2_bounds m Hm) as (L0 & L1 & L2).
  unfold PyFloat.round_dyadic, PyFloat.prec, PyFloat.emin.
  destruct (Z.leb_spec m 0); [lia|]. change (53 - 1) with 52.
  set (L := Z.log2 m) in *.
  rewrite Z.max_l by lia.
  assert (PE : 0 < 2 ^ (e + 1300)) by (apply pow2_pos; lia).
  destruct (Z.leb_spec (L + e - 52) e) as [C|C].
  - assert (Q : 0 < m * 2 ^ (e - (L + e - 52)) < 2 ^ 53).
    { replace (e - (L + e - 52)) with (52 - L) by lia.
      assert (0 < 2 ^ (52 - L)) by (apply pow2_pos; lia).
      split; [nia|].
      replace 53 with ((L + 1) + (52 - L)) by lia. rewrite pow2_add by lia. nia. }
    destruct (finish_scaled (m * 2 ^ (e - (L + e - 52))) (L + e - 52))
      as (mx & ex & E & B & Bm & V); [lia|lia|unfold PyFloat.emax; lia|].
    exists mx, ex. split; [exact E|]. split; [lia|]. split; [exact Bm|].
    rewrite V.
    replace (m * 2 ^ (e - (L + e - 52)) * 2 ^ (L + e - 52 + 1300))
      with (m * 2 ^ (e + 1300)).
    + rewrite Z.sub_diag. cbn [Z.abs]. nia.
    + rewrite <- Z.mul_assoc, <- pow2_add by lia. do 2 f_equal. lia.
  - replace (L + e - 52 - e) with (L - 52) by lia.
    set (k := L - 52). assert (Hk : 1 <= k) by (unfold k; lia).
    pose proof (shift_round_near m k) as N.
    pose proof (shift_round_half m k Hk) as Hf.
    set (q := PyFloat.shift_round m k) in *.
    assert (PK : 0 < 2 ^ k) by (apply pow2_pos; lia).
    assert (EL : 2 ^ L = 2 ^ 52 * 2 ^ k).
    { rewrite <- pow2_add by lia. f_equal. unfold k. lia. }
    assert (EL1 : 2 ^ (L + 1) = 2 ^ 53 * 2 ^ k).
    { rewrite <- pow2_add by lia. f_equal. unfold k. lia. }
    assert (D1 : 2 ^ 52 <= m / 2 ^ k) by (apply Z.div_le_lower_bound; lia).
    assert (D2 : m / 2 ^ k < 2 ^ 53) by (apply Z.div_lt_upper_bound; lia).
    change (2 ^ 52) with 4503599627370496 in *.
    change (2 ^ 53) with 9007199254740992 in *.
    destruct (finish_scaled q (L + e - 52)) as (mx & ex & E & B & Bm & V);
      [change (2 ^ 53) with 9007199254740992; lia|lia|unfold PyFloat.emax; lia|].
    change (2 ^ 53) with 9007199254740992 in *.
    exists mx, ex. split; [exact E|]. split; [lia|]. split; [exact Bm|].
    rewrite V. replace (L + e - 52 + 1300) with (k + (e + 1300)) by (unfold k; lia).
    rewrite pow2_add by lia.
    set (P := 2 ^ (e + 1300)) in *. set (K := 2 ^ k) in *.
    replace (q * (K * P) - m * P) with ((q * K - m) * P) by ring.
    rewrite Z.abs_mul, (Z.abs_eq P) by lia.
    assert (9007199254740992 * Z.abs (q * K - m) <= m) by lia.
    nia.
Qed.

Lemma int_of_scaled (m : positive) (e : Z) :
  -1300 <= e ->
  PyFloat.int_of_float (S754_finite false m e)
  = Ok (Zpos m * 2 ^ (e + 1300) / 2 ^ 1300).
Proof.
  intros He. unfold PyFloat.int_of_float. f_equal.
  assert (0 < 2 ^ 1300) by (apply pow2_pos; lia).
  destruct (Z.leb_spec 0 e).
  - rewrite pow2_add by lia. rewrite Z.mul_assoc, Z.div_mul by lia. reflexivity.
  - assert (0 < 2 ^ (e + 1300)) by (apply pow2_pos; lia).
    assert (E : 2 ^ 1300 = 2 ^ (- e) * 2 ^ (e + 1300)).
    { rewrite <- pow2_add by lia. f_equal. lia. }
    assert (0 < 2 ^ (- e)) by (apply pow2_pos; lia).
    rewrite E, Z.div_mul_cancel_r by lia. reflexivity.
Qed.

(** The float of a strike literal against the literal's exact value: [X]
    is the value [M / 10 ^ k] in units of [2 ^ -1201], off by less than one. *)
Lemma literal_value (M k : Z) :
  0 <= k <= 3 -> 0 < M < 10000 * 10 ^ k ->
  exists mx ex X,
    PyFloat.float_of_decimal false M (- k) = S754_finite false mx ex /\
    -63 <= ex <= -27 /\ Zpos mx <= 2 ^ 53 /\ 0 < X /\
    Z.abs (10 ^ k * X - M * 2 ^ 1201) < 10 ^ k /\
    2 ^ 53 * Z.abs (Zpos mx * 2 ^ (ex + 1300) - X * 2 ^ 99) <= X * 2 ^ 99.
Proof.
  intros Hk HM.
  assert (C : k = 0 \/ (0 < k /\ (10 ^ k = 10 \/ 10 ^ k = 100 \/ 10 ^ k = 1000))).
  { assert (C : k = 0 \/ k = 1 \/ k = 2 \/ k = 3) by lia.
    destruct C as [ -> | [ -> | [ -> | -> ] ] ]; [now left|right..];
      (split; [lia|]); [left|right; left|right; right]; reflexivity. }
  unfold PyFloat.float_of_decimal.
  destruct C as [->|[Hk' Hd]].
  - cbn [Z.opp Z.leb Z.compare]. change (10 ^ 0) with 1 in *.
    rewrite Z.mul_1_r in *.
    assert (L : Z.log2 M < 14)
      by (apply Z.log2_lt_pow2; [lia|]; change (2 ^ 14) with 16384; lia).
    pose proof (Z.log2_nonneg M).
    destruct (round_dyadic_error M 0) as (mx & ex & E & B & Bm & V);
      [lia|lia|lia|lia|].
    exists mx, ex, (M * 2 ^ 1201). split; [exact E|]. split; [lia|].
    split; [exact Bm|].
    assert (0 < 2 ^ 1201) by (apply pow2_pos; lia).
    split; [nia|]. split; [rewrite Z.mul_1_l, Z.sub_diag; cbn [Z.abs]; lia|].
    replace (M * 2 ^ 1201 * 2 ^ 99) with (M * 2 ^ (0 + 1300)); [exact V|].
    rewrite <- Z.mul_assoc. f_equal.
  - destruct (Z.leb_spec 0 (- k)); [lia|]. rewrite Z.opp_involutive.
    destruct (sticky_quotient_bounds M (10 ^ k)) as [B1 B2]; [lia|lia|].
    unfold PyFloat.guard in *. change (- 1200 - 1) with (-1201).
    assert (A : Z.abs (10 ^ k * (2 * (M * 2 ^ 1200 / 10 ^ k)
                                 + (if M * 2 ^ 1200 mod 10 ^ k =? 0 then 0 else 1))
                       - M * 2 ^ 1201) < 10 ^ k).
    { change (2 ^ 1201) with (2 * 2 ^ 1200). set (n := M * 2 ^ 1200).
      replace (M * (2 * 2 ^ 1200)) with (2 * n) by (unfold n; ring).
      destruct Hd as [ -> | [ -> | -> ] ];
        (match goal with
         | |- context [?a mod ?b =? 0] => destruct (Z.eqb_spec (a mod b) 0)
         end; zlia). }
    set (X := 2 * (M * 2 ^ 1200 / 10 ^ k) + _) in *.
    assert (0 < 2 ^ 1190) by (apply pow2_pos; lia).
    assert (L1 : 1190 <= Z.log2 X) by (apply Z.log2_le_pow2; lia).
    assert (L2 : Z.log2 X < 1226) by (apply Z.log2_lt_pow2; lia).
    destruct (round_dyadic_error X (-1201)) as (mx & ex & E & B & Bm & V);
      [lia|lia|lia|lia|].
    exists mx, ex, X. split; [exact E|]. split; [lia|]. split; [exact Bm|].
    split; [lia|]. split; [exact A|]. exact V.
Qed.

(** The thousandths of a strike literal, truncated from the float product:
    the exact number, or one below. *)
Lemma literal_strike_accuracy (M k : Z) :
  0 <= k <= 3 -> 0 < M < 10000 * 10 ^ k ->
  exists n,
    PyFloat.int_of_float
      (PyFloat.fmul (PyFloat.float_of_decimal false M (- k))
                    (PyFloat.float_of_int 1000)) = Ok n /\
    M * 10 ^ (3 - k) - 1 <= n <= M * 10 ^ (3 - k).
Proof.
  intros Hk HM.
  destruct (literal_value M k Hk HM) as (mx & ex & X & E & Bx & Bm & HX & A & V).
  rewrite E, float_1000. unfold PyFloat.fmul. cbn [xorb].
  assert (L1 : 52 <= Z.log2 (Zpos mx * 8796093022208000)).
  { change 52 with (Z.log2 8796093022208000). apply Z.log2_le_mono. lia. }
  pose proof (log2_mul_bound (Zpos mx) 8796093022208000 ltac:(lia)
                ltac:(change (2 ^ 53) with 9007199254740992; lia)) as L2.
  destruct (round_dyadic_error (Zpos mx * 8796093022208000) (ex + -43))
    as (my & ey & E' & By & _ & V'); [lia|lia|lia|lia|].
  rewrite E', int_of_scaled by lia. eexists. split; [reflexivity|].
  assert (R : Zpos mx * 8796093022208000 * 2 ^ (ex + -43 + 1300)
              = 1000 * (Zpos mx * 2 ^ (ex + 1300))).
  { replace (ex + 1300) with (43 + (ex + -43 + 1300)) by lia.
    rewrite (pow2_add 43 (ex + -43 + 1300)) by lia.
    change (2 ^ 43) with 8796093022208. ring. }
  rewrite R in V'. clear R E E'.
  set (xs := Zpos mx * 2 ^ (ex + 1300)) in *.
  set (ys := Zpos my * 2 ^ (ey + 1300)) in *.
  clearbody xs ys. clear Bx Bm By L1 L2.
  assert (C : k = 0 \/ k = 1 \/ k = 2 \/ k = 3) by lia.
  assert (T : 0 < 2 ^ 1300) by (apply pow2_pos; lia).
  pose proof (Z.div_mod ys (2 ^ 1300) ltac:(lia)) as Dm.
  pose proof (Z.mod_pos_bound ys (2 ^ 1300) T) as Dr.
  set (n := ys / 2 ^ 1300) in *. set (r := ys mod 2 ^ 1300) in *.
  clearbody n r.
  repeat match goal with
    | H : context [2 ^ ?c] |- _ =>
        let v := eval vm_compute in (2 ^ c) in change (2 ^ c) with v in H
    end.
  destruct C as [ -> | [ -> | [ -> | -> ] ] ];
    [change (10 ^ 0) with 1 in *; change (10 ^ (3 - 0)) with 1000
    |change (10 ^ 1) with 10 in *; change (10 ^ (3 - 1)) with 100
    |change (10 ^ 2) with 100 in *; change (10 ^ (3 - 2)) with 10
    |change (10 ^ 3) with 1000 in *; change (10 ^ (3 - 3)) with 1];
    lia.
Qed.

(** The literals that spell 1000 are read as the float 1000. *)
Lemma literal_1000 (k : Z) :
  0 <= k <= 3 ->
  PyFloat.float_of_decimal false (1000 * 10 ^ k) (- k)
  = S754_finite false 8796093022208000 (-43).
Proof.
  intros Hk. assert (C : k = 0 \/ k = 1 \/ k = 2 \/ k = 3) by lia.
  destruct C as [ -> | [ -> | [ -> | -> ] ] ]; vm_compute; reflexivity.
Qed.

(** The padding test [strike < 1000] on a normal float, by its value. *)
Lemma flt_1000_scaled (mx : positive) (ex : Z) :
  2 ^ 52 <= Zpos mx < 2 ^ 53 -> -1300 <= ex ->
  PyFloat.flt (S754_finite false mx ex)
    (S754_finite false 8796093022208000 (-43)) = true <->
  Zpos mx * 2 ^ (ex + 1300) < 1000 * 2 ^ 1300.
Proof.
  intros Hm Hx.
  assert (P : 0 < 2 ^ (ex + 1300)) by (apply pow2_pos; lia).
  rewrite flt_finite.
  change (1000 * 2 ^ 1300) with (8796093022208000 * 2 ^ 1257).
  assert (P' : 0 < 2 ^ 1257) by (apply pow2_pos; lia).
  change (2 ^ 52) with 4503599627370496 in *.
  change (2 ^ 53) with 9007199254740992 in *.
  destruct (Z.lt_trichotomy ex (-43)) as [Lt|[->|Gt]].
  - split; [intros _|intros _; now left].
    pose proof (pow2_le (ex + 1300) 1256 ltac:(lia) ltac:(lia)) as Q.
    change (2 ^ 1257) with (2 * 2 ^ 1256) in *.
    set (a := 2 ^ (ex + 1300)) in *. set (b := 2 ^ 1256) in *. nia.
  - change (2 ^ (-43 + 1300)) with (2 ^ 1257) in *.
    set (b := 2 ^ 1257) in *. split; [intros [?|[_ ?]]; [lia|nia]|].
    intros Q. right. split; [reflexivity|nia].
  - split; [intros [?|[? _]]; lia|]. intros Q. exfalso.
    pose proof (pow2_le 1258 (ex + 1300) ltac:(lia) ltac:(lia)) as Q'.
    change (2 ^ 1258) with (2 * 2 ^ 1257) in *.
    set (a := 2 ^ (ex + 1300)) in *. set (b := 2 ^ 1257) in *. nia.
Qed.

(** The padding test [strike < 1000] on the float of a literal agrees with
    the literal's exact value. *)
Lemma literal_below_1000 (M k : Z) :
  0 <= k <= 3 -> 0 < M < 10000 * 10 ^ k ->
  PyFloat.flt (PyFloat.float_of_decimal false M (- k)) (PyFloat.float_of_int 1000)
  = (M <? 1000 * 10 ^ k).
Proof.
  intros Hk HM. rewrite float_1000.
  destruct (Z.eq_dec M (1000 * 10 ^ k)) as [->|Hne].
  { rewrite literal_1000, Z.ltb_irrefl by exact Hk. reflexivity. }
  pose proof (float_of_decimal_canonical false M (- k)) as Hc.
  destruct (literal_value M k Hk HM) as (mx & ex & X & E & Bx & Bm & HX & A & V).
  rewrite E in *. unfold canonical, PyFloat.emin in Hc.
  assert (Hm : 2 ^ 52 <= Zpos mx < 2 ^ 53) by lia. clear Hc Bm E.
  pose proof (flt_1000_scaled mx ex Hm ltac:(lia)) as F.
  set (xs := Zpos mx * 2 ^ (ex + 1300)) in *. clearbody xs. clear Hm Bx.
  assert (G : xs < 1000 * 2 ^ 1300 <-> M < 1000 * 10 ^ k).
  { assert (C : k = 0 \/ k = 1 \/ k = 2 \/ k = 3) by lia.
    repeat match goal with
      | H : context [2 ^ ?c] |- _ =>
          let v := eval vm_compute in (2 ^ c) in change (2 ^ c) with v in H
      end.
    match goal with
    | |- context [2 ^ ?c] =>
        let v := eval vm_compute in (2 ^ c) in change (2 ^ c) with v
    end.
    destruct C as [ -> | [ -> | [ -> | -> ] ] ];
      [change (10 ^ 0) with 1 in *|change (10 ^ 1) with 10 in *
      |change (10 ^ 2) with 100 in *|change (10 ^ 3) with 1000 in *];
      lia. }
  destruct (Z.ltb_spec M (1000 * 10 ^ k)) as [Lt|Ge].
  - apply F, G, Lt.
  - destruct (PyFloat.flt _ _); [|reflexivity].
    exfalso. assert (Lt : M < 1000 * 10 ^ k) by (apply G, F; reflexivity). lia.
Qed.

(** A value that fits the mantissa is not moved by rounding. *)
Lemma shift_round_exact (a j k : Z) :
  1 <= k <= j -> PyFloat.shift_round (a * 2 ^ j) k * 2 ^ k = a * 2 ^ j.
Proof.
  intros H. unfold PyFloat.shift_round.
  assert (E : a * 2 ^ j = a * 2 ^ (j - k) * 2 ^ k).
  { rewrite <- Z.mul_assoc, <- pow2_add by lia. do 2 f_equal. lia. }
  assert (0 < 2 ^ k) by (apply pow2_pos; lia).
  assert (0 < 2 ^ (k - 1)) by (apply pow2_pos; lia).
  rewrite E, Z.mod_mul, Z.div_mul by lia.
  destruct (Z.ltb_spec 0 (2 ^ (k - 1))); [reflexivity|lia].
Qed.

Lemma round_dyadic_exact (a j e : Z) :
  0 < a -> 0 <= j -> -1300 <= e ->
  -1074 <= Z.log2 (a * 2 ^ j) + e - 52 -> Z.log2 (a * 2 ^ j) + e - 52 < 971 ->
  Z.log2 (a * 2 ^ j) - 52 <= j ->
  exists mx ex,
    PyFloat.round_dyadic false (a * 2 ^ j) e = S754_finite false mx ex /\
    Z.log2 (a * 2 ^ j) + e - 52 <= ex <= Z.log2 (a * 2 ^ j) + e - 51 /\
    Zpos mx * 2 ^ (ex + 1300) = a * 2 ^ j * 2 ^ (e + 1300).
Proof.
  intros Ha Hj He Hlo Hhi Hfit.
  assert (PJ : 0 < 2 ^ j) by (apply pow2_pos; lia).
  assert (Hm : 0 < a * 2 ^ j) by nia.
  destruct (log2_bounds _ Hm) as (L0 & L1 & L2).
  unfold PyFloat.round_dyadic, PyFloat.prec, PyFloat.emin.
  destruct (Z.leb_spec (a * 2 ^ j) 0); [lia|]. change (53 - 1) with 52.
  set (m := a * 2 ^ j) in *. set (L := Z.log2 m) in *.
  rewrite Z.max_l by lia.
  destruct (Z.leb_spec (L + e - 52) e) as [C|C].
  - assert (Q : 0 < m * 2 ^ (e - (L + e - 52)) < 2 ^ 53).
    { replace (e - (L + e - 52)) with (52 - L) by lia.
      assert (0 < 2 ^ (52 - L)) by (apply pow2_pos; lia).
      split; [nia|].
      replace 53 with ((L + 1) + (52 - L)) by lia. rewrite pow2_add by lia. nia. }
    destruct (finish_scaled (m * 2 ^ (e - (L + e - 52))) (L + e - 52))
      as (mx & ex & E & B & _ & V); [lia|lia|unfold PyFloat.emax; lia|].
    exists mx, ex. split; [exact E|]. split; [lia|]. rewrite V.
    rewrite <- Z.mul_assoc, <- pow2_add by lia. do 2 f_equal. lia.
  - replace (L + e - 52 - e) with (L - 52) by lia.
    set (k := L - 52). assert (Hk : 1 <= k <= j) by (unfold k; lia).
    pose proof (shift_round_exact a j k Hk) as X. fold m in X.
    set (q := PyFloat.shift_round m k) in *.
    assert (PK : 0 < 2 ^ k) by (apply pow2_pos; lia).
    assert (EL : 2 ^ L = 2 ^ 52 * 2 ^ k).
    { rewrite <- pow2_add by lia. f_equal. unfold k. lia. }
    assert (EL1 : 2 ^ (L + 1) = 2 ^ 53 * 2 ^ k).
    { rewrite <- pow2_add by lia. f_equal. unfold k. lia. }
    destruct (finish_scaled q (L + e - 52)) as (mx & ex & E & B & _ & V);
      [change (2 ^ 53) with 9007199254740992 in *; nia|lia
      |unfold PyFloat.emax; lia|].
    exists mx, ex. split; [exact E|]. split; [lia|].
    rewrite V. replace (L + e - 52 + 1300) with (k + (e + 1300)) by (unfold k; lia).
    rewrite pow2_add by lia. rewrite Z.mul_assoc, X. reflexivity.
Qed.

(** Whole-number strikes keep their exact thousandths. *)
Lemma whole_strikes_exact (M : Z) :
  0 < M < 2 ^ 43 ->
  PyFloat.int_of_float
    (PyFloat.fmul (PyFloat.float_of_decimal false M 0) (PyFloat.float_of_int 1000))
  = Ok (M * 1000).
Proof.
  intros HM. unfold PyFloat.float_of_decimal. cbn [Z.leb Z.compare].
  change (10 ^ 0) with (2 ^ 0).
  assert (L : Z.log2 (M * 2 ^ 0) < 43).
  { apply Z.log2_lt_pow2; [lia|]. change (2 ^ 0) with 1. lia. }
  pose proof (Z.log2_nonneg (M * 2 ^ 0)).
  destruct (round_dyadic_exact M 0 0) as (mx & ex & -> & B & V);
    [lia|lia|lia|lia|lia|lia|].
  rewrite float_1000. unfold PyFloat.fmul. cbn [xorb].
  assert (Emx : Zpos mx = M * 2 ^ (- ex)).
  { assert (0 < 2 ^ (ex + 1300)) by (apply pow2_pos; lia).
    apply Z.mul_reg_r with (2 ^ (ex + 1300)); [lia|]. rewrite V.
    change (2 ^ (0 + 1300)) with (2 ^ 1300). change (2 ^ 0) with 1.
    rewrite Z.mul_1_r, <- Z.mul_assoc, <- pow2_add by lia. do 2 f_equal. lia. }
  assert (Bm : Zpos mx <= 2 ^ 53).
  { rewrite Emx. assert (P : 2 ^ (- ex) <= 2 ^ (52 - Z.log2 (M * 2 ^ 0)))
      by (apply pow2_le; lia).
    destruct (log2_bounds (M * 2 ^ 0)) as (_ & _ & U);
      [change (2 ^ 0) with 1; lia|].
    change (2 ^ 0) with 1 in *. rewrite Z.mul_1_r in *.
    replace 53 with ((Z.log2 M + 1) + (52 - Z.log2 M)) by lia.
    rewrite pow2_add by lia.
    assert (0 < 2 ^ (- ex)) by (apply pow2_pos; lia). nia. }
  pose proof (log2_mul_bound (Zpos mx) 8796093022208000 ltac:(lia)
                ltac:(change (2 ^ 53) with 9007199254740992; lia)) as L2.
  assert (L1 : 52 <= Z.log2 (Zpos mx * 8796093022208000)).
  { change 52 with (Z.log2 8796093022208000). apply Z.log2_le_mono. lia. }
  assert (R : Zpos mx * 8796093022208000 = M * 125 * 2 ^ (46 - ex)).
  { rewrite Emx. replace (46 - ex) with (46 + - ex) by lia.
    rewrite pow2_add by lia. change (2 ^ 46) with 70368744177664. ring. }
  rewrite R in *.
  destruct (round_dyadic_exact (M * 125) (46 - ex) (ex + -43))
    as (my & ey & -> & By & V'); [lia|lia|lia|lia|lia|lia|].
  rewrite int_of_scaled by lia. f_equal. rewrite V'.
  rewrite <- Z.mul_assoc, <- pow2_add by lia.
  replace (46 - ex + (ex + -43 + 1300)) with (3 + 1300) by lia.
  rewrite pow2_add by lia. change (2 ^ 3) with 8.
  assert (0 < 2 ^ 1300) by (apply pow2_pos; lia).
  replace (M * 125 * (8 * 2 ^ 1300)) with (M * 1000 * 2 ^ 1300) by ring.
  apply Z.div_mul. lia.
Qed.

Lemma whole_below_1000 (M : Z) :
  0 < M < 2 ^ 43 ->
  PyFloat.flt (PyFloat.float_of_decimal false M 0) (PyFloat.float_of_int 1000)
  = (M <? 1000).
Proof.
  intros HM. pose proof (float_of_decimal_canonical false M 0) as Hc.
  revert Hc. unfold PyFloat.float_of_decimal. cbn [Z.leb Z.compare].
  change (10 ^ 0) with (2 ^ 0).
  assert (L : Z.log2 (M * 2 ^ 0) < 43).
  { apply Z.log2_lt_pow2; [lia|]. change (2 ^ 0) with 1. lia. }
  pose proof (Z.log2_nonneg (M * 2 ^ 0)).
  destruct (round_dyadic_exact M 0 0) as (mx & ex & -> & B & V);
    [lia|lia|lia|lia|lia|lia|].
  intros Hc. unfold canonical, PyFloat.emin in Hc.
  assert (Hm : 2 ^ 52 <= Zpos mx < 2 ^ 53) by lia.
  rewrite float_1000.
  pose proof (flt_1000_scaled mx ex Hm ltac:(lia)) as F. rewrite V in F.
  change (2 ^ 0) with 1 in F. change (0 + 1300) with 1300 in F.
  assert (T : 0 < 2 ^ 1300) by (apply pow2_pos; lia).
  destruct (Z.ltb_spec M 1000) as [Lt|Ge].
  - apply F. nia.
  - destruct (PyFloat.flt _ _); [|reflexivity].
    exfalso. assert (M * 1 * 2 ^ 1300 < 1000 * 2 ^ 1300) by (now apply F). nia.
Qed.

(** X12: for a strike written as a positive decimal literal below 10000
    with at most three decimal places, the number in the strike field is
    the exact number of thousandths or one below it, never above; the
    padding is two zeroes exactly when the literal is below 1000; a whole
    number keeps its exact thousandths. *)
Theorem strike_field_within_a_thousandth (U : str) (D : expiration_arg)
    (T S : str) (o : OptionSymbol.t) (M k : Z) :
  OptionSymbol.__init__ U D T S = Ok o ->
  strike_literal S = Some (M, k) ->
  0 < M < 10000 * 10 ^ k ->
  exists n,
    OptionSymbol.strike_price o
    = (if M <? 1000 * 10 ^ k then lit "00" else lit "0") ++ PyStr.str_of_int n /\
    M * 10 ^ (3 - k) - 1 <= n <= M * 10 ^ (3 - k) /\
    (k = 0 -> n = M * 1000).
Proof.
  intros H Hl HM.
  destruct (strike_literal_shape S M k Hl) as (_ & Hk & _).
  apply strike_literal_float in Hl.
  apply init_ok in H. destruct H as (ct & ed & x & sp & -> & _ & _ & P & C).
  unfold positive_strike in P. rewrite Hl in P.
  destruct (PyFloat.fle _ _); [discriminate|]. injection P as <-.
  cbn [OptionSymbol.strike_price].
  apply encode_strike_ok in C. destruct C as (n & Hn & ->).
  rewrite literal_below_1000 by assumption.
  exists n. split; [reflexivity|].
  destruct (literal_strike_accuracy M k Hk HM) as (n' & Hn' & B).
  rewrite Hn in Hn'. apply Ok_inj in Hn'. subst n'. split; [exact B|].
  intros ->. change (- 0) with 0 in Hn. change (10 ^ 0) with 1 in HM.
  rewrite whole_strikes_exact in Hn
    by (change (2 ^ 43) with 8796093022208; lia).
  now apply Ok_inj in Hn.
Qed.

Lemma strike_field_within_a_thousandth_witness :
  OptionSymbol.__init__ (lit "QQQ") (ExpStr (lit "240420")) (lit "P") (lit "128.2")
  = Ok (OptionSymbol.mk (lit "QQQ") (lit "P") (mkdate 2024 4 20) (lit "00128199")) /\
  exists n,
    lit "00128199" = lit "00" ++ PyStr.str_of_int n /\
    1282 * 10 ^ (3 - 1) - 1 <= n <= 1282 * 10 ^ (3 - 1).
Proof.
  assert (I : OptionSymbol.__init__ (lit "QQQ") (ExpStr (lit "240420")) (lit "P")
                (lit "128.2")
              = Ok (OptionSymbol.mk (lit "QQQ") (lit "P") (mkdate 2024 4 20)
                      (lit "00128199"))) by (vm_compute; reflexivity).
  split; [exact I|].
  destruct (strike_field_within_a_thousandth (lit "QQQ") (ExpStr (lit "240420"))
              (lit "P") (lit "128.2") _ 1282 1 I eq_refl (conj eq_refl eq_refl))
    as (n & E & B & _).
  exists n. split; [exact E|exact B].
Defined.

(** ** Every failure, by cause *)

Lemma encode_strike_raise (x : PyFloat.float) (e : exn) :
  encode_strike x = Raise e ->
  (e = ValueError "cannot convert float NaN to integer" /\
   PyFloat.fmul x (PyFloat.float_of_int 1000) = S754_nan) \/
  (e = OverflowError "cannot convert float infinity to integer" /\
   exists sg, PyFloat.fmul x (PyFloat.float_of_int 1000) = S754_infinity sg).
Proof.
  unfold encode_strike.
  destruct (PyFloat.fmul x (PyFloat.float_of_int 1000)) as [sg|sg| |sg m k];
    cbn; try discriminate; intros [= <-]; [right|left]; split; eauto.
Qed.

Lemma fmul_1000_nan (x : PyFloat.float) :
  PyFloat.fmul x (PyFloat.float_of_int 1000) = S754_nan -> x = S754_nan.
Proof.
  rewrite float_1000. destruct x as [sg|sg| |sg m k]; cbn [PyFloat.fmul];
    try discriminate; [reflexivity|].
  unfold PyFloat.round_dyadic. destruct (_ <=? 0); [discriminate|].
  destruct (_ <=? _); unfold PyFloat.finish;
    (destruct (_ <=? 0); [discriminate|]);
    destruct (PyFloat.emax <? _); discriminate.
Qed.

Lemma positive_strike_sign (S : str) (x : PyFloat.float) (sg : bool) :
  positive_strike S = Some x ->
  PyFloat.fmul x (PyFloat.float_of_int 1000) = S754_infinity sg -> sg = false.
Proof.
  unfold positive_strike. destruct (PyFloat.float_of_str S) as [y|]; [|discriminate].
  destruct (PyFloat.fle y (PyFloat.float_of_int 0)) eqn:F; [discriminate|].
  intros [= ->]. rewrite float_1000.
  destruct x as [s|s| |s m k]; cbn [PyFloat.fmul]; try discriminate.
  - destruct s; [discriminate F|]. now intros [= <-].
  - destruct s; [discriminate F|]. cbn [xorb].
    unfold PyFloat.round_dyadic. destruct (_ <=? 0); [discriminate|].
    destruct (_ <=? _); unfold PyFloat.finish;
      (destruct (_ <=? 0); [discriminate|]);
      destruct (PyFloat.emax <? _); try discriminate; now intros [= <-].
Qed.

(** Where [__init__] fails for a contract type and a date that are
    accepted. *)
Lemma typed_init_raise (U : str) (d : date) (T S : str) (e : exn) :
  T = lit "P" \/ T = lit "C" ->
  OptionSymbol.__init__ U (ExpDate d) T S = Raise e ->
  kind_of e = Some InvalidStrike \/
  e = ValueError "cannot convert float NaN to integer" \/
  e = OverflowError "cannot convert float infinity to integer".
Proof.
  intros HT. rewrite init_steps.
  assert (N : exists ct, normalize_contract_type T = Ok ct)
    by (destruct HT as [-> | ->]; eexists; reflexivity).
  destruct N as (ct & ->). cbn [bind expiration_of].
  destruct (positive_strike S) as [x|]; cbn [bind].
  2:{ intros [= <-]. now left. }
  destruct (encode_strike x) as [sp|e3] eqn:C; cbn [bind]; [discriminate|].
  intros [= <-]. right.
  destruct (encode_strike_raise _ _ C) as [[-> _]|[-> _]]; auto.
Qed.

(** X13: every failure of [__init__] by its cause: an unknown contract
    type, a date argument that is not accepted, a strike that [float]
    rejects or that is not above zero, a strike read as NaN (the
    ValueError of [int]), or a strike whose product with 1000 is infinite
    (OverflowError). *)
Theorem constructor_failures_by_cause (U : str) (D : expiration_arg) (T S : str)
    (e : exn) :
  OptionSymbol.__init__ U D T S = Raise e ->
  (kind_of e = Some InvalidContractType /\ normalize_contract_type T = Raise e) \/
  (kind_of e = Some InvalidDateFormat /\ expiration_of D = Raise e) \/
  (kind_of e = Some InvalidStrike /\ positive_strike S = None) \/
  (e = ValueError "cannot convert float NaN to integer" /\
   PyFloat.float_of_str S = Some S754_nan) \/
  (e = OverflowError "cannot convert float infinity to integer" /\
   exists x, positive_strike S = Some x /\
             PyFloat.fmul x (PyFloat.float_of_int 1000) = S754_infinity false).
Proof.
  rewrite init_steps.
  destruct (normalize_contract_type T) as [ct|e1] eqn:N; cbn [bind].
  2:{ intros [= <-]. left. split; [|reflexivity].
      unfold normalize_contract_type in N.
      destruct (_ || _); [discriminate|]. destruct (_ || _); [discriminate|].
      now injection N as <-. }
  destruct (expiration_of D) as [ed|e2] eqn:X; cbn [bind].
  2:{ intros [= <-]. right; left. split; [|reflexivity].
      now apply (expiration_of_kind D). }
  destruct (positive_strike S) as [x|] eqn:P; cbn [bind].
  2:{ intros [= <-]. right; right; left. now split. }
  destruct (encode_strike x) as [sp|e3] eqn:C; cbn [bind]; [discriminate|].
  intros [= <-]. right; right; right.
  destruct (encode_strike_raise _ _ C) as [[-> F]|[-> [sg F]]]; [left|right].
  - split; [reflexivity|]. apply fmul_1000_nan in F. subst x.
    unfold positive_strike in P.
    destruct (PyFloat.float_of_str S) as [y|]; [|discriminate].
    destruct (PyFloat.fle y _); [discriminate|]. now injection P as ->.
  - split; [reflexivity|]. exists x. split; [reflexivity|].
    now rewrite (positive_strike_sign S x sg P F) in F.
Qed.

Lemma constructor_failures_by_cause_witness :
  PyFloat.float_of_str (lit " +NaN ") = Some S754_nan /\
  exists x, positive_strike (lit "2e305") = Some x /\
            PyFloat.fmul x (PyFloat.float_of_int 1000) = S754_infinity false.
Proof.
  assert (H1 : OptionSymbol.__init__ (lit "QQQ") (ExpStr (lit "240420")) (lit "P")
                 (lit " +NaN ")
               = Raise (ValueError "cannot convert float NaN to integer"))
    by (vm_compute; reflexivity).
  assert (H2 : OptionSymbol.__init__ (lit "QQQ") (ExpStr (lit "240420")) (lit "P")
                 (lit "2e305")
               = Raise (OverflowError "cannot convert float infinity to integer"))
    by (vm_compute; reflexivity).
  split.
  - destruct (constructor_failures_by_cause _ _ _ _ _ H1)
      as [[K _]|[[K _]|[[K _]|[[_ F]|[K _]]]]];
      [discriminate K|discriminate K|discriminate K|exact F|discriminate K].
  - destruct (constructor_failures_by_cause _ _ _ _ _ H2)
      as [[K _]|[[K _]|[[K _]|[[K _]|[_ F]]]]];
      [discriminate K|discriminate K|discriminate K|discriminate K|exact F].
Defined.

(** X14: [parse_symbol] never fails with InvalidContractType: a failure is
    InvalidSymbolFormat, InvalidDateFormat, InvalidStrike or one of the
    two conversion errors of a non-finite strike; InvalidSymbolFormat
    means that the string does not hold exactly one underscore, or that
    what follows it holds neither exactly one 'P' nor exactly one 'C'. *)
Theorem parse_symbol_failures (s : str) (e : exn) :
  OptionSymbol.parse_symbol s = Raise e ->
  kind_of e <> Some InvalidContractType /\
  (kind_of e = Some InvalidSymbolFormat \/
   kind_of e = Some InvalidDateFormat \/
   kind_of e = Some InvalidStrike \/
   e = ValueError "cannot convert float NaN to integer" \/
   e = OverflowError "cannot convert float infinity to integer") /\
  (kind_of e = Some InvalidSymbolFormat ->
   PyStr.count "_" s <> 1%nat \/
   exists u rest, s = u ++ lit "_" ++ rest /\
                  PyStr.count "P" rest <> 1%nat /\ PyStr.count "C" rest <> 1%nat).
Proof.
  intros H.
  assert (G : forall u d0 T k,
             T = lit "P" \/ T = lit "C" ->
             (x <- _parse_expiration_date d0 ;;
              OptionSymbol.__init__ u (ExpDate x) T k) = Raise e ->
             kind_of e = Some InvalidDateFormat \/
             kind_of e = Some InvalidStrike \/
             e = ValueError "cannot convert float NaN to integer" \/
             e = OverflowError "cannot convert float infinity to integer").
  { intros u d0 T k HT E.
    destruct (_parse_expiration_date d0) as [d|e1] eqn:Pd; cbn [bind] in E.
    - apply typed_init_raise in E; [|exact HT].
      destruct E as [K|[-> | ->]]; auto.
    - injection E as <-. left. now apply (expiration_of_kind (ExpStr d0)). }
  assert (Fin : kind_of e = Some InvalidDateFormat \/
                kind_of e = Some InvalidStrike \/
                e = ValueError "cannot convert float NaN to integer" \/
                e = OverflowError "cannot convert float infinity to integer" ->
                kind_of e <> Some InvalidContractType /\
                kind_of e <> Some InvalidSymbolFormat).
  { intros [K|[K|[-> | ->]]]; try rewrite K; split; discriminate. }
  destruct (Nat.eq_dec (PyStr.count "_" s) 1) as [C|C].
  2:{ rewrite parse_symbol_missing_underscore in H by exact C.
      injection H as <-. split; [discriminate|]. split; [now left|]. now left. }
  apply split_two_count in C as C'. destruct C' as (u & rest & E1).
  destruct (split_two_inv _ _ _ _ E1) as (Es & _ & _).
  unfold OptionSymbol.parse_symbol in H. rewrite E1 in H.
  destruct (Nat.eq_dec (PyStr.count "P" rest) 1) as [CP|CP].
  { apply split_two_count in CP. destruct CP as (a & b & E2). rewrite E2 in H.
    apply G in H; [|now left]. destruct (Fin H) as (F1 & F2).
    split; [exact F1|]. split; [now right|]. intros K. contradiction. }
  pose proof (split_not_two _ _ CP) as NP.
  destruct (Nat.eq_dec (PyStr.count "C" rest) 1) as [CC|CC].
  { apply split_two_count in CC. destruct CC as (a & b & E2).
    destruct (PyStr.split "P" rest) as [|p1 [|p2 [|p3 ps]]];
      try (exfalso; eapply NP; reflexivity);
      rewrite E2 in H; (apply G in H; [|now right]); destruct (Fin H) as (F1 & F2);
      (split; [exact F1|]); (split; [now right|]); intros K; contradiction. }
  pose proof (split_not_two _ _ CC) as NC.
  assert (He : e = ValueError
                 ("option must have contract type \'C\' r \'\P\', "
                    ++ OptionSymbol.format_error_str)).
  { destruct (PyStr.split "P" rest) as [|p1 [|p2 [|p3 ps]]];
      try (exfalso; eapply NP; reflexivity);
      destruct (PyStr.split "C" rest) as [|c1 [|c2 [|c3 cs]]];
      try (exfalso; eapply NC; reflexivity); now injection H as <-. }
  subst e. split; [discriminate|]. split; [now left|]. intros _. right.
  exists u, rest. split; [exact Es|]. now split.
Qed.

Lemma parse_symbol_failures_witness :
  OptionSymbol.parse_symbol (lit "QQQ_240420Pnan")
  = Raise (ValueError "cannot convert float NaN to integer") /\
  (kind_of (ValueError "cannot convert float NaN to integer")
     = Some InvalidSymbolFormat \/
   kind_of (ValueError "cannot convert float NaN to integer")
     = Some InvalidDateFormat \/
   kind_of (ValueError "cannot convert float NaN to integer")
     = Some InvalidStrike \/
   ValueError "cannot convert float NaN to integer"
     = ValueError "cannot convert float NaN to integer" \/
   ValueError "cannot convert float NaN to integer"
     = OverflowError "cannot convert float infinity to integer").
Proof.
  assert (P : OptionSymbol.parse_symbol (lit "QQQ_240420Pnan")
              = Raise (ValueError "cannot convert float NaN to integer"))
    by (vm_compute; reflexivity).
  split; [exact P|].
  exact (proj1 (proj2 (parse_symbol_failures _ _ P))).
Defined.

(** ** Strikes below a thousandth *)

Lemma float_0_001 :
  PyFloat.float_of_decimal false 1 (-3) = S754_finite false 4611686018427388 (-62).
Proof. vm_compute. reflexivity. Qed.

(** The product with 1000 of a positive float below 0.001 truncates to 0. *)
Lemma product_below_one (m : positive) (e n : Z) :
  Zpos m < 2 ^ 53 -> -1074 <= e ->
  e < -62 \/ (e = -62 /\ Zpos m < 4611686018427388) ->
  PyFloat.int_of_float
    (PyFloat.round_dyadic false (Zpos m * 8796093022208000) (e + -43)) = Ok n ->
  n = 0.
Proof.
  intros Hm He Hlt.
  set (P := Zpos m * 8796093022208000). assert (HP : 0 < P) by (unfold P; lia).
  destruct (Z.le_gt_cases (-1074) (Z.log2 P + (e + -43) - 52)) as [Nm|Sub].
  - pose proof (log2_mul_bound (Zpos m) 8796093022208000 ltac:(lia)
                  ltac:(change (2 ^ 53) with 9007199254740992; lia)) as L2.
    fold P in L2.
    destruct (round_dyadic_error P (e + -43)) as (my & ey & -> & By & _ & V);
      [lia|lia|lia|lia|].
    rewrite int_of_scaled by lia. intros E. apply Ok_inj in E. subst n.
    apply Z.div_small.
    assert (R : P * 2 ^ (e + -43 + 1300) = 1000 * (Zpos m * 2 ^ (e + 1300))).
    { unfold P. replace (e + 1300) with (43 + (e + -43 + 1300)) by lia.
      rewrite (pow2_add 43 (e + -43 + 1300)) by lia.
      change (2 ^ 43) with 8796093022208. ring. }
    rewrite R in V. clear R.
    assert (PE : 0 < 2 ^ (e + 1300)) by (apply pow2_pos; lia).
    assert (Py : 0 < 2 ^ (ey + 1300)) by (apply pow2_pos; lia).
    assert (B : 1000 * (Zpos m * 2 ^ (e + 1300)) <= (2 ^ 62 - 904) * 2 ^ 1238).
    { destruct Hlt as [Lt|[-> Lt]].
      - pose proof (pow2_le (e + 1300) 1237 ltac:(lia) ltac:(lia)) as Q.
        assert (Zpos m * 2 ^ (e + 1300) <= 2 ^ 53 * 2 ^ 1237)
          by (apply Z.mul_le_mono_nonneg; lia).
        assert (1000 * (2 ^ 53 * 2 ^ 1237) <= (2 ^ 62 - 904) * 2 ^ 1238)
          by (vm_compute; discriminate).
        lia.
      - change (2 ^ (-62 + 1300)) with (2 ^ 1238).
        assert (0 < 2 ^ 1238) by (apply pow2_pos; lia).
        change (2 ^ 62) with 4611686018427387904. nia. }
    set (xs := Zpos m * 2 ^ (e + 1300)) in *.
    set (ys := Zpos my * 2 ^ (ey + 1300)) in *.
    assert (0 < xs) by (unfold xs; nia). assert (0 < ys) by (unfold ys; nia).
    clearbody xs ys.
    repeat match goal with
      | H : context [2 ^ ?c] |- _ =>
          let v := eval vm_compute in (2 ^ c) in change (2 ^ c) with v in H
      end.
    match goal with
    | |- context [2 ^ ?c] =>
        let v := eval vm_compute in (2 ^ c) in change (2 ^ c) with v
    end.
    lia.
  - destruct (round_dyadic_spec false P (e + -43) HP) as (q & -> & Q & _ & S).
    unfold PyFloat.emin in *. specialize (S Sub). rewrite Z.max_r by lia.
    destruct (Z.le_gt_cases q 0) as [Z|Pq].
    + apply finish_zero_int. exact Z.
    + rewrite int_of_finish by lia. intros E. apply Ok_inj in E. subst n.
      apply Z.div_small. change (2 ^ 52) with 4503599627370496 in S.
      assert (2 ^ 52 < 2 ^ (- -1074)) by (vm_compute; reflexivity).
      change (2 ^ 52) with 4503599627370496 in *. lia.
Qed.

(** X15: when contract type and date are accepted, a strike above zero
    that [float] reads below 0.001 is accepted too, and the symbol is
    constructed with the strike field "000": the number of thousandths
    truncates to zero. *)
Theorem sub_thousandth_strikes_encode_zero (U : str) (D : expiration_arg)
    (T S : str) (o : OptionSymbol.t) (x : PyFloat.float) :
  OptionSymbol.__init__ U D T (lit "1") = Ok o ->
  PyFloat.float_of_str S = Some x ->
  PyFloat.fle x (PyFloat.float_of_int 0) = false ->
  PyFloat.flt x (PyFloat.float_of_decimal false 1 (-3)) = true ->
  OptionSymbol.__init__ U D T S
  = Ok (OptionSymbol.mk U (OptionSymbol.contract_type o)
          (OptionSymbol.expiration_date o) (lit "000")).
Proof.
  intros H Hx F Hlt. apply init_ok in H.
  destruct H as (ct & ed & x1 & sp1 & -> & N & X & _).
  cbn [OptionSymbol.contract_type OptionSymbol.expiration_date].
  pose proof (float_of_str_canonical S x Hx) as Hc.
  assert (P : positive_strike S = Some x)
    by (unfold positive_strike; now rewrite Hx, F).
  apply (init_intro U D T S ct ed x); [exact N|exact X|exact P|].
  rewrite float_0_001 in Hlt.
  destruct x as [s|s| |s m e];
    [destruct s; cbv in F; discriminate F
    |destruct s; [cbv in F; discriminate F|cbv in Hlt; discriminate Hlt]
    |cbv in Hlt; discriminate Hlt
    |].
  destruct s; [discriminate F|]. clear F P.
  apply flt_finite in Hlt. unfold canonical, PyFloat.emin, PyFloat.emax in Hc.
  assert (Hm : Zpos m < 2 ^ 53).
  { change (2 ^ 52) with 4503599627370496 in Hc.
    change (2 ^ 53) with 9007199254740992 in *. lia. }
  destruct (encode_strike_moderate m e) as (sp & C); [lia|lia|].
  rewrite C. f_equal.
  apply encode_strike_ok in C. destruct C as (n & Hn & ->).
  rewrite float_1000 in *. unfold PyFloat.fmul in Hn. cbn [xorb] in Hn.
  apply product_below_one in Hn; [|exact Hm|lia|exact Hlt]. subst n.
  assert (G : PyFloat.flt (S754_finite false m e)
                (S754_finite false 8796093022208000 (-43)) = true)
    by (apply flt_finite; lia).
  rewrite G. reflexivity.
Qed.

Lemma sub_thousandth_strikes_encode_zero_witness :
  OptionSymbol.__init__ (lit "QQQ") (ExpStr (lit "240420")) (lit "PUT") (lit "0.000999")
  = Ok (OptionSymbol.mk (lit "QQQ") (lit "P") (mkdate 2024 4 20) (lit "000")).
Proof.
  assert (I : OptionSymbol.__init__ (lit "QQQ") (ExpStr (lit "240420")) (lit "PUT")
                (lit "1")
              = Ok (OptionSymbol.mk (lit "QQQ") (lit "P") (mkdate 2024 4 20)
                      (lit "001000"))) by (vm_compute; reflexivity).
  assert (Hx : PyFloat.float_of_str (lit "0.000999")
               = Some (S754_finite false 4607074332408961 (-62)))
    by (vm_compute; reflexivity).
  assert (F : PyFloat.fle (S754_finite false 4607074332408961 (-62))
                (PyFloat.float_of_int 0) = false) by (vm_compute; reflexivity).
  assert (L : PyFloat.flt (S754_finite false 4607074332408961 (-62))
                (PyFloat.float_of_decimal false 1 (-3)) = true)
    by (vm_compute; reflexivity).
  exact (sub_thousandth_strikes_encode_zero _ _ _ _ _ _ I Hx F L).
Defined.

(** ** Whole-number strikes *)

Lemma digits_of_acc (f : nat) :
  forall (n : Z) (acc : str),
    PyStr.digits_of f n acc = PyStr.digits_of f n [] ++ acc.
Proof.
  induction f as [|f IH]; intros n acc; [reflexivity|]. simpl.
  destruct (n <? 10); [reflexivity|].
  rewrite IH, (IH _ [_]), <- app_assoc. reflexivity.
Qed.

(** Fuel beyond the number of digits changes nothing. *)
Lemma digits_of_fuel (f : nat) :
  forall (n : Z) (acc : str),
    n < 10 ^ Z.of_nat (S f) ->
    PyStr.digits_of (S (S f)) n acc = PyStr.digits_of (S f) n acc.
Proof.
  induction f as [|f IH]; intros n acc Hn.
  - change (10 ^ Z.of_nat 1) with 10 in Hn. simpl.
    destruct (Z.ltb_spec n 10); [reflexivity|lia].
  - destruct (Z.lt_ge_cases n 10) as [Lt|Ge].
    + simpl. destruct (Z.ltb_spec n 10); [reflexivity|lia].
    + rewrite (digits_of_step (S (S f)) n), (digits_of_step (S f) n) by exact Ge.
      apply IH. apply Z.div_lt_upper_bound; [lia|].
      rewrite <- Z.pow_succ_r, <- Nat2Z.inj_succ by lia. exact Hn.
Qed.

Lemma digits_of_more_fuel (f g : nat) (n : Z) (acc : str) :
  n < 10 ^ Z.of_nat (S f) ->
  PyStr.digits_of (S f + g) n acc = PyStr.digits_of (S f) n acc.
Proof.
  intros Hn. induction g as [|g IH].
  - now rewrite Nat.add_0_r.
  - replace (S f + S g)%nat with (S (S (f + g))) by lia.
    rewrite digits_of_fuel; [exact IH|].
    apply Z.lt_le_trans with (10 ^ Z.of_nat (S f)); [exact Hn|].
    apply Z.pow_le_mono_r; lia.
Qed.

Lemma below_pow10_log2 (n : Z) : 0 < n -> n < 10 ^ Z.of_nat (S (Z.to_nat (Z.log2 n))).
Proof.
  intros Hn. destruct (log2_bounds n Hn) as (L0 & _ & L2).
  rewrite Nat2Z.inj_succ, Z2Nat.id by lia. unfold Z.succ.
  apply Z.lt_le_trans with (2 ^ (Z.log2 n + 1)); [exact L2|].
  apply Z.pow_le_mono_l. lia.
Qed.

(** [str(10 * n)] is [str(n)] followed by a zero. *)
Lemma str_of_int_times_10 (n : Z) :
  0 < n -> PyStr.str_of_int (10 * n) = PyStr.str_of_int n ++ lit "0".
Proof.
  intros Hn. unfold PyStr.str_of_int.
  destruct (Z.ltb_spec (10 * n) 0); [lia|]. destruct (Z.ltb_spec n 0); [lia|].
  rewrite digits_of_step by lia.
  replace (10 * n / 10) with n by (apply Z.div_unique with 0; lia).
  replace (10 * n mod 10) with 0 by (apply Z.mod_unique with n; lia).
  rewrite digits_of_acc. f_equal.
  assert (L : Z.log2 n + 3 <= Z.log2 (10 * n)).
  { apply Z.log2_le_pow2; [lia|]. destruct (log2_bounds n Hn) as (L0 & L1 & _).
    rewrite pow2_add by lia. change (2 ^ 3) with 8. lia. }
  pose proof (Z.log2_nonneg n).
  replace (Z.to_nat (Z.log2 (10 * n)))
    with (S (Z.to_nat (Z.log2 n)) + (Z.to_nat (Z.log2 (10 * n)) - S (Z.to_nat (Z.log2 n))))%nat
    by lia.
  apply digits_of_more_fuel. now apply below_pow10_log2.
Qed.

Lemma str_of_int_times_1000 (n : Z) :
  0 < n -> PyStr.str_of_int (n * 1000) = PyStr.str_of_int n ++ lit "000".
Proof.
  intros Hn. replace (n * 1000) with (10 * (10 * (10 * n))) by lia.
  rewrite !str_of_int_times_10 by lia. rewrite <- !app_assoc. reflexivity.
Qed.

(** X16: a strike written as a whole number below [2 ^ 43], leading
    zeroes allowed, is stored as the padding, the digits of the number
    and three zeroes: the thousandths are exact, and a string of the
    shape of an encoded field, given as the strike, is read as that many
    units. *)
Theorem whole_number_strikes_gain_three_zeroes (U : str) (D : expiration_arg)
    (T S : str) (o : OptionSymbol.t) (M : Z) :
  OptionSymbol.__init__ U D T S = Ok o ->
  strike_literal S = Some (M, 0) ->
  0 < M < 2 ^ 43 ->
  OptionSymbol.strike_price o
  = (if M <? 1000 then lit "00" else lit "0") ++ PyStr.str_of_int M ++ lit "000".
Proof.
  intros H Hl HM. apply strike_literal_float in Hl. change (- 0) with 0 in Hl.
  apply init_ok in H. destruct H as (ct & ed & x & sp & -> & _ & _ & P & C).
  unfold positive_strike in P. rewrite Hl in P.
  destruct (PyFloat.fle _ _); [discriminate|]. injection P as <-.
  cbn [OptionSymbol.strike_price].
  apply encode_strike_ok in C. destruct C as (n & Hn & ->).
  rewrite whole_strikes_exact in Hn by exact HM. apply Ok_inj in Hn. subst n.
  rewrite whole_below_1000 by exact HM.
  rewrite str_of_int_times_1000 by lia. reflexivity.
Qed.

Lemma whole_number_strikes_gain_three_zeroes_witness :
  OptionSymbol.__init__ (lit "AAPL") (ExpStr (lit "240420")) (lit "C") (lit "00150000")
  = Ok (OptionSymbol.mk (lit "AAPL") (lit "C") (mkdate 2024 4 20) (lit "0150000000")) /\
  lit "0150000000" = lit "0" ++ PyStr.str_of_int 150000 ++ lit "000".
Proof.
  assert (I : OptionSymbol.__init__ (lit "AAPL") (ExpStr (lit "240420")) (lit "C")
                (lit "00150000")
              = Ok (OptionSymbol.mk (lit "AAPL") (lit "C") (mkdate 2024 4 20)
                      (lit "0150000000"))) by (vm_compute; reflexivity).
  split; [exact I|].
  exact (whole_number_strikes_gain_three_zeroes _ _ _ _ _ 150000 I eq_refl
           (conj eq_refl eq_refl)).
Defined.

(** ** More on the recipes *)

Section MoreRecipeProperties.

Context {Symbol Quantity Price : Type}.

(** X9: every recipe keeps the base step's session NORMAL and duration
    DAY; a vertical recipe sets the price to the net price and the order
    quantity to the caller's quantity; a single-leg recipe sets neither an
    order quantity nor a complex order strategy type. *)
Theorem recipes_share_base_and_pricing (v : vertical_recipe) (r : single_recipe)
    (long short symbol : Symbol) (q : Quantity) (p : Price) :
  (session (vertical v long short q p) = Some Session.NORMAL /\
   duration (vertical v long short q p) = Some Duration.DAY /\
   price (vertical v long short q p) = Some p /\
   quantity (vertical v long short q p) = Some q) /\
  (session (option_limit r symbol q p) = Some Session.NORMAL /\
   duration (option_limit r symbol q p) = Some Duration.DAY /\
   quantity (option_limit r symbol q p) = None /\
   complexOrderStrategyType (option_limit r symbol q p) = None) /\
  (session (@option_market Symbol Quantity Price r symbol q) = Some Session.NORMAL /\
   duration (@option_market Symbol Quantity Price r symbol q) = Some Duration.DAY /\
   quantity (@option_market Symbol Quantity Price r symbol q) = None /\
   complexOrderStrategyType (@option_market Symbol Quantity Price r symbol q) = None).
Proof.
  destruct v, r; cbn; repeat split.
Qed.

(** X10: each closing vertical recipe mirrors its opening recipe: the same
    symbols in the same leg order, each instruction replaced by the one
    that closes it, the order type on the other side (debit for credit),
    the same order quantity. *)
Theorem vertical_close_mirrors_open (long short : Symbol) (q : Quantity)
    (net_open net_close : Price) :
  mirrors (bull_call_vertical_close long short q net_close)
          (bull_call_vertical_open long short q net_open) /\
  mirrors (bear_call_vertical_close short long q net_close)
          (bear_call_vertical_open short long q net_open) /\
  mirrors (bull_put_vertical_close long short q net_close)
          (bull_put_vertical_open long short q net_open) /\
  mirrors (bear_put_vertical_close short long q net_close)
          (bear_put_vertical_open short long q net_open).
Proof.
  unfold mirrors. cbn. repeat split.
Qed.

End MoreRecipeProperties.
